(** * Verification of the government-data processing pipeline

    Shallow embedding of [notebooks/dados_entrada.py]: the functions
    [processar_dados], [gerar_relatorio_completo],
    [exportar_estatisticas_detalhadas] and [main], over a model of the
    fragment of pandas they call.

    Modelling conventions.
    - A DataFrame is an ordered list of column labels with their dtypes and an
      ordered list of rows; a row maps a column label to a cell.  Column labels
      are pairwise distinct (pandas frames with repeated labels are outside the
      fragment).
    - A number is the rational it stands for ([Qc]).  Comparisons are exact,
      as they are on machine numbers.  What the machine computes (sums,
      means, quotients, roundings) is a parameter of the model, an
      [Aritmetica]: binary floating point rounds and 64-bit integers wrap
      around, so nothing is proved from the laws of exact arithmetic unless a
      theorem says so.  [exata] is the arithmetic of exact rationals, with
      which the scenarios are evaluated.  [inf] and the printing of floats
      are not modelled; a decimal literal is taken at its decimal value.
    - Texts are byte strings.  The string functions are those of Python on
      ASCII text; theorems about letter case and blanks say so.
    - [NaN] stands for every pandas null ([NaN], [None], [NaT]).
    - Console output and file writes are recorded as a trace of events; an
      environment says which writes succeed.  Narration that carries no data
      (blank lines, rulers) is elided.
    - Exceptions are values of [exn]; a Python function that may raise returns
      a [result]. *)

From Stdlib Require Import QArith Qcanon Qround ZArith String Ascii.
From stdpp Require Import base list gmap strings numbers sorting pretty.

Local Open Scope string_scope.
Local Open Scope list_scope.
Local Open Scope Z_scope.

(** ** Strings as Python uses them, on ASCII text *)

Module Str.

Definition chars (s : string) : list ascii := list_ascii_of_string s.
Definition of_chars (l : list ascii) : string := string_of_list_ascii l.

(** [s.split(sep)] for a one-character separator. *)
Fixpoint split_chars (sep : ascii) (cur : list ascii) (l : list ascii)
  : list (list ascii) :=
  match l with
  | [] => [reverse cur]
  | a :: l' =>
      if Ascii.eqb a sep then reverse cur :: split_chars sep [] l'
      else split_chars sep (a :: cur) l'
  end.

Definition split (sep : ascii) (s : string) : list string :=
  of_chars <$> split_chars sep [] (chars s).

(** The ASCII characters [str.isspace] accepts, which [str.strip()]
    removes: tab, LF, VT, FF, CR, the separators 0x1C to 0x1F and the space. *)
Definition is_space (a : ascii) : bool :=
  let n := nat_of_ascii a in
  (n =? 32)%nat || ((9 <=? n)%nat && (n <=? 13)%nat)
  || ((28 <=? n)%nat && (n <=? 31)%nat).

(** Text of ASCII characters only, on which [strip] and [lower] below are
    Python's [str.strip] and [str.lower]. *)
Definition ascii_only (s : string) : bool :=
  forallb (λ a, (nat_of_ascii a <? 128)%nat) (chars s).

Definition is_upper (a : ascii) : bool :=
  let n := nat_of_ascii a in (65 <=? n)%nat && (n <=? 90)%nat.

Fixpoint lstrip_chars (l : list ascii) : list ascii :=
  match l with
  | a :: l' => if is_space a then lstrip_chars l' else l
  | [] => []
  end.

(** The characters left when the leading ones that [blank] accepts go. *)
Fixpoint lstrip_blanks (blank : ascii -> bool) (l : list ascii) : list ascii :=
  match l with
  | a :: l' => if blank a then lstrip_blanks blank l' else l
  | [] => []
  end.

Definition strip (s : string) : string :=
  of_chars (reverse (lstrip_chars (reverse (lstrip_chars (chars s))))).

Definition lower_char (a : ascii) : ascii :=
  if is_upper a then ascii_of_nat (nat_of_ascii a + 32) else a.

Definition lower (s : string) : string := of_chars (lower_char <$> chars s).

(** [s.replace(old, new)]: every non-overlapping occurrence, left to
    right.  [old] is not empty at any call site. *)
Fixpoint replace_fuel (n : nat) (old new s : string) : string :=
  match n with
  | O => s
  | S n' =>
      match s with
      | EmptyString => EmptyString
      | String a s' =>
          if String.prefix old s
          then new +:+ replace_fuel n' old new
                        (substring (String.length old)
                           (String.length s - String.length old) s)
          else String a (replace_fuel n' old new s')
      end
  end.

Definition replace (old new s : string) : string :=
  replace_fuel (S (String.length s)) old new s.

Definition digit (a : ascii) : option Z :=
  let n := nat_of_ascii a in
  if (48 <=? n)%nat && (n <=? 57)%nat then Some (Z.of_nat (n - 48)) else None.

(** Value of a run of decimal digits; [None] if another character occurs. *)
Fixpoint digits_from (acc : Z) (l : list ascii) : option Z :=
  match l with
  | [] => Some acc
  | a :: l' =>
      match digit a with
      | Some d => digits_from (10 * acc + d) l'
      | None => None
      end
  end.

Definition digits (l : list ascii) : option Z := digits_from 0 l.

Definition join (sep : string) (l : list string) : string :=
  String.concat sep l.

(** The lines of a text: a line ends at LF, at CR LF or at a lone CR.  The
    text after the last end of line is a line too. *)
Fixpoint lines_chars (cur : list ascii) (l : list ascii) : list (list ascii) :=
  match l with
  | [] => [reverse cur]
  | "013"%char :: (("010"%char :: l') as l0) => lines_chars cur l0
  | a :: l' =>
      if Ascii.eqb a "010"%char || Ascii.eqb a "013"%char
      then reverse cur :: lines_chars [] l'
      else lines_chars (a :: cur) l'
  end.

Definition lines (s : string) : list string :=
  of_chars <$> lines_chars [] (chars s).

(** The text after the last occurrence of [sep], if there is one. *)
Definition after_last (sep : ascii) (s : string) : option string :=
  match reverse (split sep s) with
  | x :: _ :: _ => Some x
  | _ => None
  end.

End Str.

(** ** The exceptions the script can meet *)

Inductive exn :=
| FileNotFoundError
| EmptyDataError
| ParserError
| KeyError (chave : string)
| TypeError
| ValueError
| OSError (caminho : string).

Inductive result (A : Type) :=
| Ok (a : A)
| Raise (e : exn).
Arguments Ok {A} a.
Arguments Raise {A} e.

#[global] Instance result_ret : MRet result := λ A a, Ok a.
#[global] Instance result_fmap : FMap result := λ A B f m,
  match m with
  | Ok a => Ok (f a)
  | Raise e => Raise e
  end.
#[global] Instance result_bind : MBind result := λ A B k m,
  match m with
  | Ok a => k a
  | Raise e => Raise e
  end.

(** ** The fragment of pandas the script uses *)

Module Pandas.

Record date := Date { year : Z; month : Z; day : Z }.

Inductive cell :=
| NaN
| Num (q : Qc)
| Txt (s : string)
| Ts (d : date).

Inductive dtype := numeric | object | datetime.

#[global] Instance date_eq_dec : EqDecision date.
Proof. solve_decision. Defined.
#[global] Instance cell_eq_dec : EqDecision cell.
Proof. solve_decision. Defined.
#[global] Instance dtype_eq_dec : EqDecision dtype.
Proof. solve_decision. Defined.
#[global] Instance cell_inhabited : Inhabited cell := populate NaN.

(** A frame: the labels in column order, each with its dtype, and the rows
    in index order. *)
Record DataFrame := {
  columns : list (string * dtype);
  rows : list (gmap string cell)
}.

Definition labels (df : DataFrame) : list string := (columns df).*1.

(** ['c' in df.columns] *)
Definition has_column (c : string) (df : DataFrame) : bool :=
  bool_decide (c ∈ labels df).

(** [len(df)] *)
Definition len (df : DataFrame) : nat := length (rows df).

(** [df.empty]: an axis of length 0. *)
Definition empty (df : DataFrame) : bool :=
  bool_decide (rows df = []) || bool_decide (columns df = []).

Definition at_col (c : string) (r : gmap string cell) : cell :=
  default NaN (r !! c).

(** The values of column [c], whether or not [c] is a label. *)
Definition values (c : string) (df : DataFrame) : list cell :=
  at_col c <$> rows df.

(** [df[c]]: raises [KeyError] when [c] is not a label. *)
Definition getitem (c : string) (df : DataFrame) : result (list cell) :=
  if has_column c df then Ok (values c df) else Raise (KeyError c).

(** [df[c] = f(row)], element by element: an existing column keeps its
    position and takes the new dtype, a new one is appended. *)
Definition set_dtype (c : string) (t : dtype) (cols : list (string * dtype))
  : list (string * dtype) :=
  if bool_decide (c ∈ cols.*1)
  then (λ p, if bool_decide (p.1 = c) then (c, t) else p) <$> cols
  else cols ++ [(c, t)].

Definition setitem (c : string) (t : dtype) (f : gmap string cell -> cell)
    (df : DataFrame) : DataFrame :=
  {| columns := set_dtype c t (columns df);
     rows := (λ r, <[c := f r]> r) <$> rows df |}.

Definition isnull (c : cell) : bool :=
  match c with NaN => true | _ => false end.

Definition notna (c : cell) : bool := negb (isnull c).

(** [df.isnull().sum().sum()] *)
Definition count_nulls (df : DataFrame) : nat :=
  sum_list ((λ c, length (filter (λ x, isnull x = true) (values c df)))
              <$> labels df).

(** The numbers of a column, nulls skipped. *)
Definition numbers (l : list cell) : list Qc :=
  omap (λ c, match c with Num q => Some q | _ => None end) l.

Definition Qc_of_nat (n : nat) : Qc := Q2Qc (inject_Z (Z.of_nat n)).
Definition Qc_of_Z (z : Z) : Qc := Q2Qc (inject_Z z).

Definition Qc_sum (l : list Qc) : Qc := foldr Qcplus (Qc_of_Z 0) l.

(** The mean of exact arithmetic. *)
Definition Qc_mean (l : list Qc) : Qc :=
  (Qc_sum l / Qc_of_nat (length l))%Qc.

(** *** What the machine computes

    The numeric operations of pandas, numpy and Python that the script
    calls, each on the numbers it is given (nulls already skipped).  Sums
    and means of a whole column and of a group are computed by different
    routines, so they are different operations here. *)
Class Aritmetica := {
  (** [Series.sum()] *)
  ar_soma : list Qc -> Qc;
  (** [Series.mean()], of at least one number *)
  ar_media : list Qc -> Qc;
  (** [GroupBy.sum()], one group *)
  ar_soma_grupo : list Qc -> Qc;
  (** [GroupBy.mean()], one group of at least one number *)
  ar_media_grupo : list Qc -> Qc;
  (** the mean of the two middle values that [median()] takes *)
  ar_meio : Qc -> Qc -> Qc;
  (** [round(2)] of a float *)
  ar_round2 : Qc -> Qc;
  (** Python's [a - b], [a / b] and [a * b] *)
  ar_sub : Qc -> Qc -> Qc;
  ar_div : Qc -> Qc -> Qc;
  ar_mul : Qc -> Qc -> Qc
}.

(** [Series.sum()], [skipna=True]. *)
Definition sum `{Aritmetica} (l : list cell) : Qc := ar_soma (numbers l).

(** [Series.count()] *)
Definition count (l : list cell) : nat := length (numbers l).

(** [Series.mean()], [skipna=True]: null ([None]) on an all-null column. *)
Definition mean `{Aritmetica} (l : list cell) : option Qc :=
  match numbers l with
  | [] => None
  | k => Some (ar_media k)
  end.

(** [GroupBy.sum()] and [GroupBy.mean()] on the cells of one group. *)
Definition group_sum `{Aritmetica} (l : list cell) : Qc :=
  ar_soma_grupo (numbers l).
Definition group_mean `{Aritmetica} (l : list cell) : option Qc :=
  match numbers l with
  | [] => None
  | k => Some (ar_media_grupo k)
  end.

Definition Qc_min (a b : Qc) : Qc := if decide (a <= b)%Qc then a else b.
Definition Qc_max (a b : Qc) : Qc := if decide (a <= b)%Qc then b else a.

Definition reduce (f : Qc -> Qc -> Qc) (l : list Qc) : option Qc :=
  match l with
  | [] => None
  | x :: l' => Some (foldl f x l')
  end.

(** [Series.min()], [Series.max()] on a numeric column. *)
Definition min (l : list cell) : option Qc := reduce Qc_min (numbers l).
Definition max (l : list cell) : option Qc := reduce Qc_max (numbers l).

(** [Series.median()], [GroupBy.median()]: the middle value, or the mean
    of the two middle values. *)
Definition median `{Aritmetica} (l : list cell) : option Qc :=
  let s := merge_sort Qcle (numbers l) in
  let n := length s in
  if Nat.even n
  then match s !! (n / 2 - 1)%nat, s !! (n / 2)%nat with
       | Some a, Some b => Some (ar_meio a b)
       | _, _ => None
       end
  else s !! (n / 2)%nat.

(** [(s < 0).sum()] *)
Definition count_negative (l : list cell) : nat :=
  length (filter (λ q, (q < Qc_of_Z 0)%Qc) (numbers l)).

(** [Series.fillna(m)] *)
Definition fillna_cell (m : Qc) (c : cell) : cell :=
  match c with NaN => Num m | _ => c end.

(** [df[c].fillna(m, inplace=True)], the update reaching the frame: so it
    does under pandas 1 and 2, where [df[c]] is a view of the column (pandas 2
    warns of the change to come, and the script silences warnings).  Under
    the copy-on-write of pandas 3 the frame would stay as it was; the
    repository names no version, and the model is that of pandas 2. *)
Definition fillna (c : string) (m : Qc) (df : DataFrame) : DataFrame :=
  {| columns := columns df;
     rows := (λ r, <[c := fillna_cell m (at_col c r)]> r) <$> rows df |}.

(** [df.select_dtypes(include=[np.number]).columns] *)
Definition select_numeric (df : DataFrame) : list string :=
  (filter (λ p, p.2 = numeric) (columns df)).*1.

(** [df.duplicated()], [keep='first']: a row is marked when an equal row
    came before it.  Nulls compare equal to nulls. *)
Fixpoint duplicated_from {A} `{EqDecision A} (seen l : list A) : list bool :=
  match l with
  | [] => []
  | x :: l' => bool_decide (x ∈ seen) :: duplicated_from (x :: seen) l'
  end.

Definition duplicated {A} `{EqDecision A} (l : list A) : list bool :=
  duplicated_from [] l.

(** Boolean indexing [l[mask]]. *)
Fixpoint select {A} (mask : list bool) (l : list A) : list A :=
  match mask, l with
  | b :: mask', x :: l' => if b then x :: select mask' l' else select mask' l'
  | _, _ => []
  end.

(** [drop_duplicates()]: the rows that [duplicated()] does not mark. *)
Definition drop_duplicates {A} `{EqDecision A} (l : list A) : list A :=
  select (negb <$> duplicated l) l.

(** [Series.unique()]: distinct values in order of first appearance. *)
Definition unique {A} `{EqDecision A} (l : list A) : list A :=
  drop_duplicates l.

(** [Series.dropna()] *)
Definition dropna (l : list cell) : list cell :=
  filter (λ c, isnull c = false) l.

(** [Series.nunique()] *)
Definition nunique (l : list cell) : nat := length (unique (dropna l)).

(** [s.notna().any()] *)
Definition notna_any (l : list cell) : bool := existsb notna l.

(** *** Dates *)

Definition leap (y : Z) : bool :=
  (y mod 4 =? 0) && (negb (y mod 100 =? 0) || (y mod 400 =? 0)).

Definition days_in_month (y m : Z) : Z :=
  if bool_decide (m ∈ [1; 3; 5; 7; 8; 10; 12]) then 31
  else if bool_decide (m ∈ [4; 6; 9; 11]) then 30
  else if m =? 2 then (if leap y then 29 else 28)
  else 0.

Definition date_key (d : date) : Z := year d * 10000 + month d * 100 + day d.

(** Midnights that a nanosecond [Timestamp] can hold: 1677-09-22 to
    2262-04-11. *)
Definition in_bounds (d : date) : bool :=
  (16770922 <=? date_key d) && (date_key d <=? 22620411).

(** The directive [%d]: one or two digits, or a blank and a digit, in 1..31. *)
Definition field_d (l : list ascii) : option Z :=
  let l := match l with [" "%char; a] => [a] | _ => l end in
  if bool_decide (length l = 1%nat ∨ length l = 2%nat) then
    v ← Str.digits l; if (1 <=? v) && (v <=? 31) then Some v else None
  else None.

(** [%m]: one or two digits, in 1..12. *)
Definition field_m (l : list ascii) : option Z :=
  if bool_decide (length l = 1%nat ∨ length l = 2%nat) then
    v ← Str.digits l; if (1 <=? v) && (v <=? 12) then Some v else None
  else None.

(** [%Y]: exactly four digits. *)
Definition field_Y (l : list ascii) : option Z :=
  if bool_decide (length l = 4%nat) then Str.digits l else None.

(** Parsing with the format ['%d/%m/%Y'], the whole string matching. *)
Definition strptime (s : string) : option date :=
  match Str.split_chars "/" [] (Str.chars s) with
  | [d; m; y] =>
      dd ← field_d d; mm ← field_m m; yy ← field_Y y;
      let dt := Date yy mm dd in
      if (dd <=? days_in_month yy mm) && in_bounds dt then Some dt else None
  | _ => None
  end.

(** [pd.to_datetime(s, format='%d/%m/%Y', errors='coerce')], one element:
    a number is turned into its decimal text, which has no ['/']. *)
Definition to_datetime (c : cell) : cell :=
  match c with
  | Txt s => match strptime s with Some d => Ts d | None => NaN end
  | Ts d => Ts d
  | Num _ | NaN => NaN
  end.

(** [Series.dt.year], [Series.dt.month] *)
Definition dt_year (c : cell) : cell :=
  match c with Ts d => Num (Qc_of_Z (year d)) | _ => NaN end.
Definition dt_month (c : cell) : cell :=
  match c with Ts d => Num (Qc_of_Z (month d)) | _ => NaN end.

Definition month_abbr : list string :=
  ["Jan"; "Feb"; "Mar"; "Apr"; "May"; "Jun";
   "Jul"; "Aug"; "Sep"; "Oct"; "Nov"; "Dec"].

(** Decimal text of [z], padded with zeros on the left to [w] characters. *)
Definition zfill (w : nat) (z : Z) : string :=
  let s := pretty z in
  Str.of_chars (replicate (w - String.length s) "0"%char) +:+ s.

(** [Series.dt.strftime('%b')], [Series.dt.strftime('%Y-%m')] *)
Definition strftime_b (c : cell) : cell :=
  match c with
  | Ts d => Txt (default "" (month_abbr !! Z.to_nat (month d - 1)))
  | _ => NaN
  end.
Definition strftime_Ym (c : cell) : cell :=
  match c with
  | Ts d => Txt (zfill 4 (year d) +:+ "-" +:+ zfill 2 (month d))
  | _ => NaN
  end.

(** *** Numbers *)

(** The blanks the number parsers skip at both ends of a field: space, tab,
    LF, VT, FF, CR. *)
Definition is_blank (a : ascii) : bool :=
  let n := nat_of_ascii a in
  (n =? 32)%nat || ((9 <=? n)%nat && (n <=? 13)%nat).

Definition is_sep (thousands : option ascii) (a : ascii) : bool :=
  match thousands with
  | Some t => Ascii.eqb a t
  | None => false
  end.

(** The digits of an integer literal after its first digit: digits and
    thousands separators in any order.  Returns the value and the rest. *)
Fixpoint int_digits (thousands : option ascii) (acc : Z) (l : list ascii)
  : Z * list ascii :=
  match l with
  | a :: l' =>
      match Str.digit a with
      | Some v => int_digits thousands (10 * acc + v) l'
      | None => if is_sep thousands a then int_digits thousands acc l'
                else (acc, l)
      end
  | [] => (acc, [])
  end.

(** The digits of the integer part of a float literal: one thousands
    separator is skipped after a digit.  Returns the value, the number of
    digits and the rest. *)
Fixpoint float_digits (thousands : option ascii) (after_digit : bool)
    (acc : Z) (n : nat) (l : list ascii) : Z * nat * list ascii :=
  match l with
  | a :: l' =>
      match Str.digit a with
      | Some v => float_digits thousands true (10 * acc + v) (S n) l'
      | None =>
          if after_digit && is_sep thousands a
          then float_digits thousands false acc n l'
          else (acc, n, l)
      end
  | [] => (acc, n, [])
  end.

Definition signed (l : list ascii) : bool * list ascii :=
  match l with
  | "-"%char :: l' => (true, l')
  | "+"%char :: l' => (false, l')
  | _ => (false, l)
  end.

Definition Qc_pow10 (e : Z) : Qc :=
  if 0 <=? e then Qc_of_Z (10 ^ e)
  else (Qc_of_Z 1 / Qc_of_Z (10 ^ (- e)))%Qc.

(** An integer literal as the parser of [read_csv] accepts it: blanks, a
    sign, a digit, then digits and thousands separators, blanks.  The range
    of 64-bit integers is not modelled. *)
Definition parse_int (thousands : option ascii) (s : string) : option Qc :=
  let '(neg, l) := signed (Str.lstrip_blanks is_blank (Str.chars s)) in
  match l with
  | a :: _ =>
      if bool_decide (is_Some (Str.digit a)) then
        let '(v, rest) := int_digits thousands 0 l in
        match Str.lstrip_blanks is_blank rest with
        | [] => Some (Qc_of_Z (if neg : bool then - v else v))
        | _ => None
        end
      else None
  | [] => None
  end.

(** A float literal as [read_csv] and [to_numeric] accept it: blanks, a
    sign, digits, a point and digits, at least one digit in all, an exponent,
    blanks.  Its value is the decimal value; [inf] and hexadecimal literals
    are outside the fragment. *)
Definition parse_float (thousands : option ascii) (s : string) : option Qc :=
  let '(neg, l) := signed (Str.lstrip_blanks is_blank (Str.chars s)) in
  let '(i, ni, l) := float_digits thousands false 0 0 l in
  let '(f, nf, l) :=
    match l with
    | "."%char :: l' => float_digits None false 0 0 l'
    | _ => (0, 0%nat, l)
    end in
  if (ni + nf =? 0)%nat then None else
  let mantissa :=
    Q2Qc (Qmake (i * 10 ^ Z.of_nat nf + f) (Z.to_pos (10 ^ Z.of_nat nf))) in
  let with_exponent :=
    match l with
    | a :: l' =>
        if Ascii.eqb a "e"%char || Ascii.eqb a "E"%char then
          let '(eneg, l') := signed l' in
          let '(e, ne, rest) := float_digits None false 0 0 l' in
          if (ne =? 0)%nat then None
          else Some ((mantissa * Qc_pow10 (if eneg : bool then - e else e))%Qc,
                     rest)
        else Some (mantissa, l)
    | [] => Some (mantissa, l)
    end in
  match with_exponent with
  | Some (v, rest) =>
      match Str.lstrip_blanks is_blank rest with
      | [] => Some (if neg : bool then (- v)%Qc else v)
      | _ => None
      end
  | None => None
  end.

(** [pd.to_numeric(s, errors='coerce')], one element.  A timestamp never
    reaches it: the script applies it to [valor] only. *)
Definition to_numeric (c : cell) : cell :=
  match c with
  | Num q => Num q
  | Txt s => match parse_float None s with Some q => Num q | None => NaN end
  | NaN | Ts _ => NaN
  end.

(** *** Order of cells

    Numbers, texts and timestamps in their own order, nulls last.  Python
    refuses to compare two kinds; the model ranks them number, text,
    timestamp. *)
Definition cell_leb (a b : cell) : bool :=
  match a, b with
  | _, NaN => true
  | NaN, _ => false
  | Num p, Num q => bool_decide (p <= q)%Qc
  | Txt s, Txt t => String.leb s t
  | Ts d, Ts e => date_key d <=? date_key e
  | Num _, _ => true
  | Txt _, Ts _ => true
  | _, _ => false
  end.

Definition cell_le (a b : cell) : Prop := cell_leb a b = true.

#[global] Instance cell_le_dec : RelDecision cell_le.
Proof. intros a b. unfold cell_le. apply _. Defined.

(** *** Grouping and sorting *)

(** The keys of [df.groupby(c)]: distinct non-null values, ascending. *)
Definition group_keys (c : string) (df : DataFrame) : list cell :=
  merge_sort cell_le (unique (dropna (values c df))).

Definition group (c : string) (k : cell) (df : DataFrame)
  : list (gmap string cell) :=
  filter (λ r, at_col c r = k) (rows df).

(** [df.groupby(c)[v].agg(f)]: one entry per key, in key order. *)
Definition groupby {B} (c v : string) (f : list cell -> B) (df : DataFrame)
  : list (cell * B) :=
  (λ k, (k, f (at_col v <$> group c k df))) <$> group_keys c df.

(** [sorted(l)] *)
Definition sorted (l : list cell) : list cell := merge_sort cell_le l.

(** A stable sort: [x] goes before the first element it is not after, so
    elements that compare equal keep the order they came in. *)
Fixpoint insert_by {A} (le : A -> A -> bool) (x : A) (l : list A) : list A :=
  match l with
  | [] => [x]
  | y :: l' => if le x y then x :: l else y :: insert_by le x l'
  end.

Definition stable_sort {A} (le : A -> A -> bool) (l : list A) : list A :=
  foldr (insert_by le) [] l.

Definition ge_value {K} (a b : K * Qc) : Prop := (b.2 <= a.2)%Qc.

#[global] Instance ge_value_dec {K} : RelDecision (@ge_value K).
Proof. intros a b. unfold ge_value. apply _. Defined.

(** The entries of a series that hold a number, and those that hold a
    null. *)
Definition with_value {K} (s : list (K * option Qc)) : list (K * Qc) :=
  omap (λ p, (λ v, (p.1, v)) <$> p.2) s.
Definition without_value {K} (s : list (K * option Qc))
  : list (K * option Qc) :=
  filter (λ p, p.2 = None) s.

(** A series of numbers as a series that may hold nulls. *)
Definition series {K} (s : list (K * Qc)) : list (K * option Qc) :=
  (λ p, (p.1, Some p.2)) <$> s.

(** [Series.nlargest(n)], [keep='first']: the numbers in descending order,
    equal ones in the order of the series, then the nulls in the order of the
    series; the first [n] of that. *)
Definition nlargest {K} (n : nat) (s : list (K * option Qc))
  : list (K * option Qc) :=
  take n (series (stable_sort (λ a b, bool_decide (ge_value a b))
                    (with_value s))
          ++ without_value s).

Definition le_at (c : string) (r1 r2 : gmap string cell) : Prop :=
  cell_le (at_col c r1) (at_col c r2).

#[global] Instance le_at_dec c : RelDecision (le_at c).
Proof. intros a b. unfold le_at. apply _. Defined.

(** [df.sort_values(c)]: a new frame, rows ascending in [c], nulls last.
    Rows with equal keys keep their order here, as numpy's sort leaves them
    on the short arrays it sorts by insertion; on longer ones pandas promises
    no order among them, and no theorem below depends on it. *)
Definition sort_values (c : string) (df : DataFrame) : DataFrame :=
  {| columns := columns df;
     rows := stable_sort (λ a b, bool_decide (le_at c a b)) (rows df) |}.

(** Rounding to the nearest hundredth, ties to even, in exact arithmetic:
    [round(2)] of [exata], and the format [:.2f]. *)
Definition rint (q : Qc) : Z :=
  let n := Qnum (this q) in
  let d := Z.pos (Qden (this q)) in
  let f := n / d in
  let r := 2 * (n mod d) in
  if r <? d then f
  else if d <? r then f + 1
  else if Z.even f then f else f + 1.

Definition round2 (q : Qc) : Qc :=
  Q2Qc (Qmake (rint (q * Qc_of_Z 100)%Qc) 100).

(** The format [:.2f] of a number: sign, integer part, two decimals. *)
Definition format_2f (q : Qc) : string :=
  let n := Z.abs (rint (q * Qc_of_Z 100)%Qc) in
  (if decide (q < Qc_of_Z 0)%Qc then "-" else "")
    +:+ pretty (n / 100) +:+ "." +:+ zfill 2 (n mod 100).

(** The arithmetic of exact rationals. *)
Definition exata : Aritmetica :=
  {| ar_soma := Qc_sum;
     ar_media := Qc_mean;
     ar_soma_grupo := Qc_sum;
     ar_media_grupo := Qc_mean;
     ar_meio := λ a b, ((a + b) / Qc_of_Z 2)%Qc;
     ar_round2 := round2;
     ar_sub := Qcminus;
     ar_div := Qcdiv;
     ar_mul := Qcmult |}.

(** *** Files *)

(** What [to_csv] and [to_excel] write: the header and the records. *)
Record table := {
  header : list string;
  body : list (list cell)
}.

Definition to_table (df : DataFrame) : table :=
  {| header := labels df;
     body := (λ r, (λ c, at_col c r) <$> labels df) <$> rows df |}.

(** The texts [read_csv] reads as null. *)
Definition na_values : list string :=
  [""; "#N/A"; "#N/A N/A"; "#NA"; "-1.#IND"; "-1.#QNAN"; "-NaN"; "-nan";
   "1.#IND"; "1.#QNAN"; "<NA>"; "N/A"; "NA"; "NULL"; "NaN"; "None"; "n/a";
   "nan"; "null"].

Definition field (s : string) : option string :=
  if bool_decide (s ∈ na_values) then None else Some s.

(** The dtype [read_csv] gives a column and its cells: [object] without
    records; numeric when every field present is an integer literal, or
    every field present is a float literal; text otherwise.  Columns of
    [True] and [False] (a boolean dtype) are outside the fragment. *)
Definition all_parse (p : string -> option Qc) (l : list (option string))
  : bool :=
  forallb (λ o, match o with
                | Some s => bool_decide (is_Some (p s))
                | None => true
                end) l.

Definition parsed (p : string -> option Qc) (l : list (option string))
  : list cell :=
  (λ o, match o ≫= p with Some q => Num q | None => NaN end) <$> l.

Definition infer (thousands : option ascii) (l : list (option string))
  : dtype * list cell :=
  match l with
  | [] => (object, [])
  | _ =>
      if all_parse (parse_int thousands) l
      then (numeric, parsed (parse_int thousands) l)
      else if all_parse (parse_float thousands) l
      then (numeric, parsed (parse_float thousands) l)
      else (object,
            (λ o, match o with Some s => Txt s | None => NaN end) <$> l)
  end.

(** A line the tokenizer skips: nothing but spaces and tabs that are not
    the separator. *)
Definition blank_line (sep : ascii) (s : string) : bool :=
  forallb (λ a, (Ascii.eqb a " "%char || Ascii.eqb a "009"%char)
                && negb (Ascii.eqb a sep)) (Str.chars s).

(** The labels of a header: a label left empty is named after its
    position. *)
Definition header_labels (h : list string) : list string :=
  imap (λ j c, if bool_decide (c = "") then "Unnamed: " +:+ pretty j else c) h.

(** [pd.read_csv(text, sep=sep, thousands=thousands)] on the text of the
    file.  The first line that is not blank is the header.  A record shorter
    than the widest of the header and the first record is completed with
    nulls; a later record that is longer is a parse error.  When the first
    record is longer than the header, the fields in excess on the left are
    the index of the frame and belong to no column.  Quoted fields and
    repeated labels in the header are outside the fragment. *)
Definition read_csv (sep : ascii) (thousands : option ascii) (text : string)
  : result DataFrame :=
  match filter (λ l, blank_line sep l = false) (Str.lines text) with
  | [] => Raise EmptyDataError
  | h :: ls =>
      let hd := header_labels (Str.split sep h) in
      let n := length hd in
      let recs := Str.split sep <$> ls in
      let w := Nat.max n (from_option length 0%nat (head recs)) in
      if existsb (λ r, (w <? length r)%nat) recs then Raise ParserError else
      let flds :=
        (λ r, drop (w - n) (take w ((field <$> r) ++ replicate w None)))
          <$> recs in
      let cols := imap (λ j c, (c, infer thousands ((λ r, default None (r !! j)) <$> flds))) hd in
      Ok {| columns := (λ p, (p.1, p.2.1)) <$> cols;
            rows := imap (λ i _, list_to_map ((λ p, (p.1, default NaN (p.2.2 !! i))) <$> cols)) recs |}
  end.

End Pandas.

Import Pandas.

(** ** What the script does to the outside world *)

(** One line of an aggregate table: the named aggregates of [valor] in a
    group.  The standard deviation is not modelled. *)
Definition agregados : Type := list (string * option Qc).

(** The dictionary [estatisticas] of section 6 ([Desvio Padrao] apart). *)
Record estatisticas := {
  total_de_registros : nat;
  periodo_total : option (option Qc * option Qc);
  total_de_anos : nat;
  media_geral : option Qc;
  mediana_geral : option Qc;
  valor_minimo : option Qc;
  valor_maximo : option Qc;
  valores_negativos : nat;
  soma_total : Qc
}.

(** The data of the textual report, section by section.  The layout, the
    standard deviation, the figure of the total-growth line (the order
    [sorted] gives years and a null together is not modelled) and the time
    stamp are left out. *)
Record relatorio := {
  r_total_de_registros : nat;
  r_periodo : option date * option date;
  r_total_de_anos : nat;
  r_total_de_meses : nat;
  r_media : option Qc;
  r_mediana : option Qc;
  r_minimo : option Qc;
  r_maximo : option Qc;
  r_soma : Qc;
  r_negativos : nat;
  r_distribuicao_por_ano : list (cell * Qc);
  r_top_anos : list (cell * option Qc);
  r_distribuicao_por_mes : list (string * option Qc);
  r_decadas : list (cell * agregados);
  r_dados_validos : nat;
  r_dados_faltantes : nat;
  r_valores_unicos : nat
}.

Inductive conteudo :=
| Tabela (t : table)
| Texto (r : relatorio)
| Agregados (chave : string) (t : list (cell * agregados)).

Inductive event :=
(* banners *)
| Titulo (t : string)
| Etapa (n : nat)
(* section 1 *)
| OK_dados_lidos (linhas colunas : nat) (nomes : list string)
| ERRO_arquivo_nao_encontrado (caminho : string)
| ERRO_ao_ler (e : exn)
(* section 2 *)
| OK_colunas_padronizadas (nomes : list string)
(* section 3 *)
| INFO_valores_nulos (n : nat)
| OK_nulos_preenchidos
| OK_nenhum_nulo
(* section 4 *)
| INFO_linhas_duplicadas (n : nat)
| OK_duplicatas_removidas (restantes : nat)
| OK_nenhuma_duplicata
(* section 5 *)
| OK_data_convertida (validas total : nat)
| OK_valor_convertido (validos total : nat)
| INFO_periodo (de ate : date)
(* section 6 *)
| EstatisticasGerais (e : estatisticas)
| EstatisticasPorAno (t : list (cell * agregados))
| EstatisticasPorMes (t : list (cell * agregados))
(* section 7 *)
| CrescimentoTotal (primeiro ultimo : cell) (taxa : Qc)
| CrescimentoAnoAAno
| Crescimento (anterior atual : cell) (taxa : Qc)
| TopAnos (t : list (cell * option Qc))
| TopMeses (t : list (cell * option Qc))
(* files *)
| Escrita (caminho : string) (c : conteudo) (ok : bool)
| OK_csv_salvo (caminho : string)
| OK_excel_salvo (caminho : string)
| ERRO_ao_salvar (e : exn)
| ERRO_dataframe_vazio_relatorio
| OK_relatorio_salvo (caminho : string)
| ERRO_ao_salvar_relatorio (e : exn)
| ERRO_dataframe_vazio_estatisticas
| OK_estatisticas_ano_salvas (caminho : string)
| OK_estatisticas_mes_salvas (caminho : string)
| ERRO_ao_exportar (e : exn)
(* main *)
| Gerando_relatorio
| Exportando_estatisticas
| ArquivosGerados (caminhos : list string)
| DadosEstatisticos (contagem : nat) (media minimo maximo : option Qc)
| PeriodoProcessado (inicial final : option date) (dias : option Z).

#[global] Instance exn_eq_dec : EqDecision exn.
Proof. solve_decision. Defined.
#[global] Instance result_eq_dec {A} `{EqDecision A} : EqDecision (result A).
Proof. solve_decision. Defined.
#[global] Instance DataFrame_eq_dec : EqDecision DataFrame.
Proof. solve_decision. Defined.
#[global] Instance table_eq_dec : EqDecision table.
Proof. solve_decision. Defined.
#[global] Instance agregados_eq_dec : EqDecision agregados.
Proof. unfold agregados. apply _. Defined.
#[global] Instance estatisticas_eq_dec : EqDecision estatisticas.
Proof. solve_decision. Defined.
#[global] Instance relatorio_eq_dec : EqDecision relatorio.
Proof. solve_decision. Defined.
#[global] Instance conteudo_eq_dec : EqDecision conteudo.
Proof. solve_decision. Defined.
#[global] Instance event_eq_dec : EqDecision event.
Proof. solve_decision. Defined.

(** The environment of a run: the text of each readable file, and whether
    a write to a path succeeds. *)
Record ambiente := {
  le : string -> result string;
  grava : string -> bool
}.

(** Writing [c] to [caminho]: the attempt is recorded; a refused write
    raises. *)
Definition escreve (amb : ambiente) (caminho : string) (c : conteudo)
  : list event * result () :=
  if grava amb caminho
  then ([Escrita caminho c true], Ok ())
  else ([Escrita caminho c false], Raise (OSError caminho)).

(** ** [processar_dados] *)

(** *** 1. Ler dados de entrada *)
Definition ler_dados (amb : ambiente) (arquivo_entrada : string)
  : result DataFrame :=
  texto ← le amb arquivo_entrada;
  read_csv ";"%char (Some ","%char) texto.

(** *** 2. Tratar nomes das colunas *)

(** [df.columns = f(df.columns)]: the cells stay where they are. *)
Definition rename (f : string -> string) (df : DataFrame) : DataFrame :=
  {| columns := (λ p, (f p.1, p.2)) <$> columns df;
     rows := (λ r, list_to_map ((λ c, (f c, at_col c r)) <$> labels df))
               <$> rows df |}.

Definition tratar_nomes_colunas (df : DataFrame) : list event * DataFrame :=
  let df := rename (λ c, Str.lower (Str.strip c)) df in
  ([Etapa 2; OK_colunas_padronizadas (labels df)], df).

(** *** 3. Tratar valores nulos *)

(** The body of the loop over the numeric columns. *)
Definition passo_preencher `{Aritmetica} (df : DataFrame) (coluna : string) : DataFrame :=
  match mean (values coluna df) with
  | Some media => fillna coluna media df
  | None => df
  end.

Definition preencher `{Aritmetica} (df : DataFrame) : DataFrame :=
  foldl passo_preencher df (select_numeric df).

Definition tratar_valores_nulos `{Aritmetica} (df : DataFrame) : list event * DataFrame :=
  let nulos_antes := count_nulls df in
  if (0 <? nulos_antes)%nat
  then ([Etapa 3; INFO_valores_nulos nulos_antes; OK_nulos_preenchidos],
        preencher df)
  else ([Etapa 3; INFO_valores_nulos nulos_antes; OK_nenhum_nulo], df).

(** *** 4. Remover duplicatas *)
Definition remover_duplicatas (df : DataFrame) : list event * DataFrame :=
  let duplicatas_antes :=
    length (filter (λ b, b = true) (duplicated (rows df))) in
  if (0 <? duplicatas_antes)%nat
  then
    let df := {| columns := columns df;
                 rows := drop_duplicates (rows df) |} in
    ([Etapa 4; INFO_linhas_duplicadas duplicatas_antes;
      OK_duplicatas_removidas (len df)], df)
  else ([Etapa 4; INFO_linhas_duplicadas duplicatas_antes;
         OK_nenhuma_duplicata], df).

(** *** 5. Padronizar dados *)

Definition ts_of (c : cell) : option date :=
  match c with Ts d => Some d | _ => None end.

(** [Series.min()], [Series.max()] on a datetime column. *)
Definition data_min (l : list cell) : option date :=
  head (merge_sort cell_le (dropna l)) ≫= ts_of.
Definition data_max (l : list cell) : option date :=
  last (merge_sort cell_le (dropna l)) ≫= ts_of.

Definition converter_data (df : DataFrame) : list event * DataFrame :=
  if has_column "data" df then
    let df := setitem "data" datetime (λ r, to_datetime (at_col "data" r)) df in
    let datas_validas :=
      length (filter (λ c, notna c = true) (values "data" df)) in
    ([OK_data_convertida datas_validas (len df)], df)
  else ([], df).

Definition derivar_calendario (df : DataFrame) : list event * DataFrame :=
  if has_column "data" df && notna_any (values "data" df) then
    let df := setitem "ano" numeric (λ r, dt_year (at_col "data" r)) df in
    let df := setitem "mes" numeric (λ r, dt_month (at_col "data" r)) df in
    let df := setitem "mes_nome" object (λ r, strftime_b (at_col "data" r)) df in
    let df := setitem "mes_ano" object (λ r, strftime_Ym (at_col "data" r)) df in
    (match data_min (values "data" df), data_max (values "data" df) with
     | Some de, Some ate => [INFO_periodo de ate]
     | _, _ => []
     end, df)
  else ([], df).

Definition converter_valor (df : DataFrame) : list event * DataFrame :=
  if has_column "valor" df then
    let df := setitem "valor" numeric (λ r, to_numeric (at_col "valor" r)) df in
    let valores_validos :=
      length (filter (λ c, notna c = true) (values "valor" df)) in
    let '(t, df') := derivar_calendario df in
    (OK_valor_convertido valores_validos (len df) :: t, df')
  else ([], df).

Definition padronizar_dados (df : DataFrame) : list event * DataFrame :=
  let '(t1, df) := converter_data df in
  let '(t2, df) := converter_valor df in
  (Etapa 5 :: t1 ++ t2, df).

(** *** 6. Análise estatística *)

(** An aggregate of a group: a count, which is an integer and which
    [round(2)] leaves alone, or a number that it rounds. *)
Inductive agregado :=
| Contagem (f : list cell -> nat)
| Numero (f : list cell -> option Qc).

Definition aplica `{Aritmetica} (a : agregado) (l : list cell) : option Qc :=
  match a with
  | Contagem f => Some (Qc_of_nat (f l))
  | Numero f => ar_round2 <$> f l
  end.

(** [df.groupby(c)['valor'].agg(fs).round(2)] *)
Definition agg `{Aritmetica} (c : string) (fs : list (string * agregado))
    (df : DataFrame) : list (cell * agregados) :=
  groupby c "valor"
    (λ l, (λ f : string * agregado, (f.1, aplica f.2 l)) <$> fs) df.

(** The aggregates the script names: ['count'], ['sum'], ['mean'],
    ['median'], ['min'], ['max']. *)
Definition f_count : agregado := Contagem count.
Definition f_sum `{Aritmetica} : agregado := Numero (λ l, Some (group_sum l)).
Definition f_mean `{Aritmetica} : agregado := Numero group_mean.
Definition f_median `{Aritmetica} : agregado := Numero median.
Definition f_min : agregado := Numero min.
Definition f_max : agregado := Numero max.

Definition analise_estatistica `{Aritmetica} (df : DataFrame) : list event :=
  Etapa 6 ::
  if has_column "valor" df && notna_any (values "valor" df) then
    let valor := values "valor" df in
    let ano := values "ano" df in
    let estatisticas :=
      {| total_de_registros := len df;
         periodo_total :=
           if has_column "ano" df then Some (min ano, max ano) else None;
         total_de_anos := if has_column "ano" df then nunique ano else 0%nat;
         media_geral := mean valor;
         mediana_geral := median valor;
         valor_minimo := min valor;
         valor_maximo := max valor;
         valores_negativos := count_negative valor;
         soma_total := sum valor |} in
    EstatisticasGerais estatisticas ::
    (if has_column "ano" df then
       [EstatisticasPorAno
          (agg "ano" [("Registros", f_count); ("Media", f_mean);
                      ("Soma", f_sum); ("Minimo", f_min); ("Maximo", f_max)]
             df)]
     else []) ++
    (if has_column "mes_nome" df then
       [EstatisticasPorMes
          (agg "mes_nome" [("Registros", f_count); ("Media", f_mean);
                           ("Soma", f_sum)] df)]
     else [])
  else [].

(** *** 7. Calcular tendências *)

(** [df[df[c] == k]['valor'].sum()] *)
Definition soma_onde `{Aritmetica} (c : string) (k : cell) (df : DataFrame)
  : Qc :=
  sum (at_col "valor" <$> group c k df).

(** [((atual - anterior) / anterior) * 100] *)
Definition taxa `{Aritmetica} (anterior atual : Qc) : Qc :=
  ar_mul (ar_div (ar_sub atual anterior) anterior) (Qc_of_Z 100).

(** The loop [for i in range(1, len(soma_por_ano))]: one entry for each
    adjacent pair whose earlier sum is positive. *)
Fixpoint variacoes `{Aritmetica} (soma_por_ano : list (cell * Qc))
  : list (cell * cell * Qc) :=
  match soma_por_ano with
  | (ano_anterior, valor_anterior) :: soma_por_ano' =>
      match soma_por_ano' with
      | (ano_atual, valor_atual) :: _ =>
          (if decide (Qc_of_Z 0 < valor_anterior)%Qc
           then [(ano_anterior, ano_atual, taxa valor_anterior valor_atual)]
           else []) ++ variacoes soma_por_ano'
      | [] => []
      end
  | [] => []
  end.

(** [sorted(df['ano'].dropna().unique())] *)
Definition anos_unicos (df : DataFrame) : list cell :=
  sorted (unique (dropna (values "ano" df))).

(** [df.groupby('ano')['valor'].sum()] *)
Definition soma_por_ano `{Aritmetica} (df : DataFrame) : list (cell * Qc) :=
  groupby "ano" "valor" group_sum df.

(** The year-over-year entries section 7 prints. *)
Definition crescimento_ano_a_ano `{Aritmetica} (df : DataFrame)
  : list (cell * cell * Qc) :=
  if has_column "valor" df && has_column "ano" df then
    if bool_decide (2 ≤ length (anos_unicos df))%nat
    then variacoes (soma_por_ano df)
    else []
  else [].

(** The total growth section 7 prints, if it prints one. *)
Definition crescimento_total `{Aritmetica} (df : DataFrame)
  : option (cell * cell * Qc) :=
  if has_column "valor" df && has_column "ano" df then
    match head (anos_unicos df), last (anos_unicos df) with
    | Some primeiro_ano, Some ultimo_ano =>
        if bool_decide (2 ≤ length (anos_unicos df))%nat then
          let soma_primeiro := soma_onde "ano" primeiro_ano df in
          let soma_ultimo := soma_onde "ano" ultimo_ano df in
          if decide (Qc_of_Z 0 < soma_primeiro)%Qc
          then Some (primeiro_ano, ultimo_ano, taxa soma_primeiro soma_ultimo)
          else None
        else None
    | _, _ => None
    end
  else None.

(** [df.groupby('mes_nome')['valor'].mean()] *)
Definition media_por_mes `{Aritmetica} (df : DataFrame)
  : list (cell * option Qc) :=
  groupby "mes_nome" "valor" group_mean df.

Definition calcular_tendencias `{Aritmetica} (df : DataFrame) : list event :=
  Etapa 7 ::
  if has_column "valor" df && has_column "ano" df then
    (if bool_decide (2 ≤ length (anos_unicos df))%nat then
       match crescimento_total df with
       | Some (primeiro_ano, ultimo_ano, t) =>
           [CrescimentoTotal primeiro_ano ultimo_ano t]
       | None => []
       end ++
       CrescimentoAnoAAno ::
       ((λ e, Crescimento e.1.1 e.1.2 e.2) <$> crescimento_ano_a_ano df)
     else []) ++
    (if has_column "ano" df
     then [TopAnos (nlargest 5 (series (soma_por_ano df)))]
     else []) ++
    (if has_column "mes_nome" df
     then [TopMeses (nlargest 3 (media_por_mes df))]
     else [])
  else [].

(** *** 8. Salvar arquivo processado *)

(** [os.path.splitext(caminho)[-1][1:]]: what follows the last point of
    the last component of the path, the points that begin that component
    apart. *)
Definition extensao (caminho : string) : string :=
  let base := default "" (last (Str.split "/"%char caminho)) in
  let nome := Str.of_chars
                (Str.lstrip_blanks (λ a, Ascii.eqb a "."%char) (Str.chars base)) in
  default "" (Str.after_last "."%char nome).

(** The extensions [to_excel] has a writer for (pandas 2). *)
Definition extensoes_de_planilha : list string := ["xlsx"; "xlsm"; "ods"].

(** [df.to_excel(caminho, index=False)]: a path with another extension is
    refused before anything is written. *)
Definition planilha (caminho : string) : bool :=
  bool_decide (extensao caminho ∈ extensoes_de_planilha).

Definition to_excel (amb : ambiente) (caminho : string) (df : DataFrame)
  : list event * result () :=
  if planilha caminho
  then escreve amb caminho (Tabela (to_table df))
  else ([], Raise ValueError).

(** The [try] block: the sorted frame goes to the CSV file and then to the
    spreadsheet; the first refused write leaves the block. *)
Definition salvar_arquivo (amb : ambiente) (df : DataFrame)
    (arquivo_saida : string) : list event * option DataFrame :=
  let df := if has_column "data" df then sort_values "data" df else df in
  let '(t1, r1) := escreve amb arquivo_saida (Tabela (to_table df)) in
  match r1 with
  | Raise e => (Etapa 8 :: t1 ++ [ERRO_ao_salvar e], None)
  | Ok _ =>
      let arquivo_excel := Str.replace ".csv" ".xlsx" arquivo_saida in
      let '(t2, r2) := to_excel amb arquivo_excel df in
      match r2 with
      | Raise e =>
          (Etapa 8 :: t1 ++ [OK_csv_salvo arquivo_saida] ++ t2
             ++ [ERRO_ao_salvar e], None)
      | Ok _ =>
          (Etapa 8 :: t1 ++ [OK_csv_salvo arquivo_saida] ++ t2
             ++ [OK_excel_salvo arquivo_excel;
                 Titulo "PROCESSAMENTO CONCLUIDO COM SUCESSO"], Some df)
      end
  end.

(** The cleaning, sections 2 to 5. *)
Definition limpar `{Aritmetica} (df : DataFrame) : list event * DataFrame :=
  let '(t2, df) := tratar_nomes_colunas df in
  let '(t3, df) := tratar_valores_nulos df in
  let '(t4, df) := remover_duplicatas df in
  let '(t5, df) := padronizar_dados df in
  (t2 ++ t3 ++ t4 ++ t5, df).

Definition processar_dados `{Aritmetica} (amb : ambiente)
    (arquivo_entrada arquivo_saida : string) : list event * option DataFrame :=
  let t0 := [Titulo "PROCESSAMENTO DE DADOS DO GOVERNO"; Etapa 1] in
  match ler_dados amb arquivo_entrada with
  | Raise FileNotFoundError =>
      (t0 ++ [ERRO_arquivo_nao_encontrado arquivo_entrada], None)
  | Raise e => (t0 ++ [ERRO_ao_ler e], None)
  | Ok df =>
      let t1 := [OK_dados_lidos (len df) (length (columns df)) (labels df)] in
      let '(t25, df) := limpar df in
      let t6 := analise_estatistica df in
      let t7 := calcular_tendencias df in
      let '(t8, r) := salvar_arquivo amb df arquivo_saida in
      (t0 ++ t1 ++ t25 ++ t6 ++ t7 ++ t8, r)
  end.

(** ** [gerar_relatorio_completo] *)

(** [(ano // 10) * 10], one element: floor division is refused on text. *)
Definition decada (c : cell) : result cell :=
  match c with
  | Num q => Ok (Num (Qc_of_Z (Qfloor (this q / inject_Z 10) * 10)))
  | NaN => Ok NaN
  | Txt _ | Ts _ => Raise TypeError
  end.

(** The kinds of value Python does not compare with one another: a
    number, a text, a timestamp.  A datetime column holds timestamps, its
    null [NaT] being one; a numeric column holds numbers, its null [nan]
    being one; in a column of objects each value has its own kind, and the
    null is [nan]. *)
Inductive especie := Flutuante | Texto_ | Instante.

#[global] Instance especie_eq_dec : EqDecision especie.
Proof. solve_decision. Defined.

Definition especie_de (t : dtype) (c : cell) : especie :=
  match t with
  | datetime => Instante
  | numeric => Flutuante
  | object =>
      match c with
      | NaN | Num _ => Flutuante
      | Txt _ => Texto_
      | Ts _ => Instante
      end
  end.

(** The dtype of column [c]; [object] when [c] is no label. *)
Definition dtype_of (c : string) (df : DataFrame) : dtype :=
  default object ((λ x, x.2.2) <$> list_find (λ p, p.1 = c) (columns df)).

(** Whether [sorted(l)] returns: it compares neighbours, and raises
    [TypeError] on the first two of different kinds that it compares; a list
    with two kinds in it always has such a pair. *)
Definition sorted_ok (t : dtype) (l : list cell) : result () :=
  match l with
  | [] => Ok ()
  | c :: l' =>
      if forallb (λ x, bool_decide (especie_de t x = especie_de t c)) l'
      then Ok () else Raise TypeError
  end.

(** The line of a month in the report: the months of [meses_ordem] that
    are in the index of the means, each with its mean, which may be null. *)
Definition distribuicao_por_mes (medias : list (cell * option Qc))
  : list (string * option Qc) :=
  omap (λ mes, (λ p : cell * option Qc, (mes, p.2)) <$>
                 (list_find (λ p : cell * option Qc, p.1 = Txt mes) medias
                  ≫= (λ x, Some x.2)))
       month_abbr.

(** The report text is built before anything is written: every column it
    reads is looked up outside any [try].  The frame is the caller's object,
    so the column [decada] assigned here stays in it. *)
Definition montar_relatorio `{Aritmetica} (df : DataFrame)
  : result (DataFrame * relatorio) :=
  data ← getitem "data" df;
  ano ← getitem "ano" df;
  mes_ano ← getitem "mes_ano" df;
  valor ← getitem "valor" df;
  let soma_por_ano := groupby "ano" "valor" group_sum df in
  _ ← sorted_ok (dtype_of "ano" df) (unique ano);
  let top_anos := nlargest 3 (series soma_por_ano) in
  _ ← getitem "mes_nome" df;
  let por_mes := distribuicao_por_mes (media_por_mes df) in
  _ ← mapM decada ano;
  let df' := setitem "decada" numeric
               (λ r, match decada (at_col "ano" r) with
                     | Ok c => c
                     | Raise _ => NaN
                     end) df in
  let estatisticas_decada :=
    agg "decada" [("Registros", f_count); ("Media", f_mean); ("Soma", f_sum)]
        df' in
  Ok (df',
      {| r_total_de_registros := len df;
         r_periodo := (data_min data, data_max data);
         r_total_de_anos := nunique ano;
         r_total_de_meses := nunique mes_ano;
         r_media := mean valor;
         r_mediana := median valor;
         r_minimo := min valor;
         r_maximo := max valor;
         r_soma := sum valor;
         r_negativos := count_negative valor;
         r_distribuicao_por_ano := soma_por_ano;
         r_top_anos := top_anos;
         r_distribuicao_por_mes := por_mes;
         r_decadas := estatisticas_decada;
         r_dados_validos := length (filter (λ c, notna c = true) valor);
         r_dados_faltantes := length (filter (λ c, isnull c = true) valor);
         r_valores_unicos := nunique valor |}).

(** Returns the trace, the frame as the call leaves it, and the value
    returned or the exception raised. *)
Definition gerar_relatorio_completo `{Aritmetica} (amb : ambiente) (df : option DataFrame)
    (arquivo_saida : string)
  : list event * option DataFrame * result (option relatorio) :=
  match df with
  | None => ([ERRO_dataframe_vazio_relatorio], df, Ok None)
  | Some d =>
      if empty d then ([ERRO_dataframe_vazio_relatorio], df, Ok None) else
      match montar_relatorio d with
      | Raise e => ([], df, Raise e)
      | Ok (d', relatorio) =>
          let nome_relatorio :=
            Str.replace ".csv" "_relatorio.txt" arquivo_saida in
          let '(t, r) := escreve amb nome_relatorio (Texto relatorio) in
          (t ++ match r with
                | Ok _ => [OK_relatorio_salvo nome_relatorio]
                | Raise e => [ERRO_ao_salvar_relatorio e]
                end,
           Some d', Ok (Some relatorio))
      end
  end.

(** ** [exportar_estatisticas_detalhadas] *)

(** The body of the [try] block up to the writes. *)
Definition montar_estatisticas `{Aritmetica} (df : DataFrame)
  : result (list (cell * agregados) * list (cell * agregados)) :=
  _ ← getitem "ano" df;
  _ ← getitem "valor" df;
  let stats_ano :=
    agg "ano" [("registros", f_count); ("soma", f_sum); ("media", f_mean);
               ("mediana", f_median); ("minimo", f_min); ("maximo", f_max)]
        df in
  _ ← getitem "mes_nome" df;
  let stats_mes :=
    agg "mes_nome" [("registros", f_count); ("soma", f_sum);
                    ("media", f_mean); ("mediana", f_median)] df in
  Ok (stats_ano, stats_mes).

(** Returns the trace, the frame as the call leaves it, and the pair of
    tables returned ([None] for the pair of [None]s). *)
Definition exportar_estatisticas_detalhadas `{Aritmetica} (amb : ambiente)
    (df : option DataFrame) (arquivo_saida : string)
  : list event * option DataFrame
    * option (list (cell * agregados) * list (cell * agregados)) :=
  match df with
  | None => ([ERRO_dataframe_vazio_estatisticas], df, None)
  | Some d =>
      if empty d then ([ERRO_dataframe_vazio_estatisticas], df, None) else
      match montar_estatisticas d with
      | Raise e => ([ERRO_ao_exportar e], df, None)
      | Ok (stats_ano, stats_mes) =>
          let arquivo_stats_ano :=
            Str.replace ".csv" "_estatisticas_ano.csv" arquivo_saida in
          let arquivo_stats_mes :=
            Str.replace ".csv" "_estatisticas_mes.csv" arquivo_saida in
          let '(t1, r1) :=
            escreve amb arquivo_stats_ano (Agregados "ano" stats_ano) in
          match r1 with
          | Raise e => (t1 ++ [ERRO_ao_exportar e], df, None)
          | Ok _ =>
              let '(t2, r2) :=
                escreve amb arquivo_stats_mes (Agregados "mes_nome" stats_mes) in
              match r2 with
              | Raise e =>
                  (t1 ++ [OK_estatisticas_ano_salvas arquivo_stats_ano] ++ t2
                      ++ [ERRO_ao_exportar e], df, None)
              | Ok _ =>
                  (t1 ++ [OK_estatisticas_ano_salvas arquivo_stats_ano] ++ t2
                      ++ [OK_estatisticas_mes_salvas arquivo_stats_mes],
                   df, Some (stats_ano, stats_mes))
              end
          end
      end
  end.

(** ** [main] *)

Definition PASTA_DADOS : string := "data".
(** [os.path.join] with the POSIX separator. *)
Definition path_join (a b : string) : string := a +:+ "/" +:+ b.
Definition ARQUIVO_ENTRADA : string := path_join PASTA_DADOS "governo.csv".
Definition NOME_ARQUIVO_SAIDA : string := "governo_processado.csv".
Definition ARQUIVO_SAIDA : string := path_join PASTA_DADOS NOME_ARQUIVO_SAIDA.

(** Days since 1970-01-01 of a date of the proleptic Gregorian calendar. *)
Definition days_from_civil (d : date) : Z :=
  let y := if month d <=? 2 then year d - 1 else year d in
  let era := y / 400 in
  let yoe := y - era * 400 in
  let mp := (month d + 9) mod 12 in
  let doy := (153 * mp + 2) / 5 + day d - 1 in
  let doe := yoe * 365 + yoe / 4 - yoe / 100 + doy in
  era * 146097 + doe - 719468.

(** The final summary of [main]: [valor] and [data] are looked up with no
    [try] around them. *)
Definition resumo_final `{Aritmetica} (df : DataFrame) : result (list event) :=
  valor ← getitem "valor" df;
  data ← getitem "data" df;
  Ok [DadosEstatisticos (count valor) (mean valor) (min valor) (max valor);
      PeriodoProcessado (data_min data) (data_max data)
        (match data_min data, data_max data with
         | Some a, Some b => Some (days_from_civil b - days_from_civil a)
         | _, _ => None
         end);
      Titulo "PROCESSAMENTO FINALIZADO COM SUCESSO"].

(** The trace of a run, and [Ok ()] when [main] returns or the exception
    that leaves it. *)
Definition main `{Aritmetica} (amb : ambiente) : list event * result () :=
  let t0 := [Titulo "SISTEMA DE PROCESSAMENTO DE DADOS"] in
  let '(t1, dados_processados) :=
    processar_dados amb ARQUIVO_ENTRADA ARQUIVO_SAIDA in
  match dados_processados with
  | Some _ =>
      let '(t2, dados_processados, relatorio) :=
        gerar_relatorio_completo amb dados_processados ARQUIVO_SAIDA in
      match relatorio with
      | Raise e => (t0 ++ t1 ++ Gerando_relatorio :: t2, Raise e)
      | Ok _ =>
          let '(t3, dados_processados, _) :=
            exportar_estatisticas_detalhadas amb dados_processados
              ARQUIVO_SAIDA in
          let t4 :=
            [Titulo "RESUMO DA EXECUCAO";
             ArquivosGerados
               [ARQUIVO_SAIDA;
                Str.replace ".csv" ".xlsx" ARQUIVO_SAIDA;
                Str.replace ".csv" "_relatorio.txt" ARQUIVO_SAIDA;
                Str.replace ".csv" "_estatisticas_ano.csv" ARQUIVO_SAIDA;
                Str.replace ".csv" "_estatisticas_mes.csv" ARQUIVO_SAIDA]] in
          let t := t0 ++ t1 ++ Gerando_relatorio :: t2
                      ++ Exportando_estatisticas :: t3 ++ t4 in
          match dados_processados with
          | Some d =>
              match resumo_final d with
              | Ok t5 => (t ++ t5, Ok ())
              | Raise e => (t, Raise e)
              end
          | None => (t, Ok ())
          end
      end
  | None =>
      (t0 ++ t1 ++ [Titulo "PROCESSAMENTO INTERROMPIDO"], Ok ())
  end.

(** The write attempts of a trace: path and outcome, in order. *)
Definition escritas (t : list event) : list (string * bool) :=
  omap (λ e, match e with
             | Escrita caminho _ ok => Some (caminho, ok)
             | _ => None
             end) t.

(** The write attempts of a trace with what was to be written. *)
Definition gravacoes (t : list event) : list (string * conteudo * bool) :=
  omap (λ e, match e with
             | Escrita caminho c ok => Some (caminho, c, ok)
             | _ => None
             end) t.

(** The environment in which the input file holds [texto] and [ok] tells
    which paths can be written. *)
Definition ambiente_de (texto : string) (ok : string -> bool) : ambiente :=
  {| le := λ caminho,
       if bool_decide (caminho = ARQUIVO_ENTRADA) then Ok texto
       else Raise FileNotFoundError;
     grava := ok |}.

Definition LF : string := String "010"%char EmptyString.

(** A file from its lines. *)
Definition linhas (l : list string) : string :=
  String.concat "" ((λ x, x +:+ LF) <$> l).

(** The frame [processar_dados] holds after section 5, for the text of an
    input file. *)
Definition tabela_limpa `{Aritmetica} (texto : string) : option DataFrame :=
  match read_csv ";"%char (Some ","%char) texto with
  | Ok df => Some (limpar df).2
  | Raise _ => None
  end.

(** The rows that survive when [seen] came before: what [drop_duplicates]
    keeps of a tail of the frame. *)
Definition kept {A} `{EqDecision A} (seen l : list A) : list A :=
  select (negb <$> duplicated_from seen l) l.



(** The files of a run. *)
Definition ARQUIVO_EXCEL : string := Str.replace ".csv" ".xlsx" ARQUIVO_SAIDA.
Definition ARQUIVO_RELATORIO : string :=
  Str.replace ".csv" "_relatorio.txt" ARQUIVO_SAIDA.
Definition ARQUIVO_STATS_ANO : string :=
  Str.replace ".csv" "_estatisticas_ano.csv" ARQUIVO_SAIDA.
Definition ARQUIVO_STATS_MES : string :=
  Str.replace ".csv" "_estatisticas_mes.csv" ARQUIVO_SAIDA.

(** The events that are not write attempts. *)
Definition sem_escrita (e : event) : Prop :=
  match e with Escrita _ _ _ => False | _ => True end.

(** The write attempts of a trace to paths other than those of [ps]. *)
Definition escritas_fora (ps : list string) (t : list event)
  : list (string * bool) :=
  filter (λ x, x.1 ∉ ps) (escritas t).

(** The years, the last apart, whose sum is not positive. *)
Definition anteriores_nao_positivos (s : list (cell * Qc)) : list (cell * Qc) :=
  filter (λ p, (p.2 <= Qc_of_Z 0)%Qc) (take (length s - 1) s).

(** ** Sample inputs *)



(** Every write succeeds. *)
Definition tudo_grava : string -> bool := λ _, true.

(** The scenario of the specification: a duplicated record and a negative
    value. *)
Definition entrada_c6 : string :=
  linhas ["data;valor"; "01/01/2020;100"; "01/01/2020;100"; "15/06/2021;-50"].

(** A negative first year. *)
Definition entrada_c2 : string :=
  linhas ["data;valor"; "01/01/2020;-50"; "15/06/2021;100"].

(** A [valor] column with no number in it. *)
Definition entrada_c1 : string :=
  linhas ["data;valor"; "01/01/2020;abc"].

(** No [data] and no [valor] column. *)
Definition entrada_c3 : string := linhas ["x"; "1"].

(** No date that parses. *)
Definition entrada_c3' : string := linhas ["data;valor"; "abc;1"].

(** Only a header, naming [valor] and [ano]. *)
Definition entrada_c9 : string := linhas ["valor;ano"].

(** The spreadsheet cannot be written. *)
Definition sem_excel : string -> bool :=
  λ caminho, bool_decide (caminho ≠ Str.replace ".csv" ".xlsx" ARQUIVO_SAIDA).

(** ** Vocabulary of the further properties *)

(** What section 2 does to a label. *)
Definition normalizar (c : string) : string := Str.lower (Str.strip c).

(** A date of the calendar. *)
Definition data_valida (d : date) : Prop :=
  1 ≤ month d ≤ 12 ∧ 1 ≤ day d ≤ days_in_month (year d) (month d).

(** The message section 1 prints for the exception [e]. *)
Definition erro_de_leitura (arquivo_entrada : string) (e : exn) : event :=
  match e with
  | FileNotFoundError => ERRO_arquivo_nao_encontrado arquivo_entrada
  | _ => ERRO_ao_ler e
  end.

(** [strip] on the characters. *)
Definition strip_chars (l : list ascii) : list ascii :=
  reverse (Str.lstrip_chars (reverse (Str.lstrip_chars l))).

(** A text with no blank at either end. *)
Definition aparado (l : list ascii) : Prop :=
  match head l with Some a => Str.is_space a = false | None => True end
  ∧ match last l with Some a => Str.is_space a = false | None => True end.

(** A text with no capital letter from A to Z. *)
Definition sem_maiusculas (l : list ascii) : Prop :=
  Forall (λ a, Str.is_upper a = false) l.

(** Labels with blanks around them, capitals, and a blank inside. *)
Definition df_x3 : DataFrame :=
  {| columns := [("  Data ", object); ("VALOR", numeric);
                 ("Nome do Orgao ", object)];
     rows := [ {[ "  Data " := Txt "01/01/2020"; "VALOR" := Num (Qc_of_Z 1);
                  "Nome do Orgao " := Txt "A" ]} ] |}.

(** The four assignments of section 5. *)
Definition calendario (df : DataFrame) : DataFrame :=
  setitem "mes_ano" object (λ r, strftime_Ym (at_col "data" r))
    (setitem "mes_nome" object (λ r, strftime_b (at_col "data" r))
       (setitem "mes" numeric (λ r, dt_month (at_col "data" r))
          (setitem "ano" numeric (λ r, dt_year (at_col "data" r)) df))).

(** The frame section 5 leaves, without its messages. *)
Definition padronizado (df : DataFrame) : DataFrame :=
  let d1 := if has_column "data" df
            then setitem "data" datetime (λ r, to_datetime (at_col "data" r)) df
            else df in
  if has_column "valor" d1 then
    let d2 := setitem "valor" numeric (λ r, to_numeric (at_col "valor" r)) d1 in
    if has_column "data" d2 && notna_any (values "data" d2)
    then calendario d2 else d2
  else d1.

(** A valid date, a date that does not exist, and a null. *)
Definition df_x5 : DataFrame :=
  {| columns := [("data", object)];
     rows := [ {[ "data" := Txt "29/02/2020" ]};
               {[ "data" := Txt "31/04/2020" ]};
               {[ "data" := NaN ]} ] |}.

(** The frames the statistics export can aggregate: some row and column,
    and the columns [ano], [valor] and [mes_nome]. *)
Definition exportavel (df : option DataFrame) : bool :=
  match df with
  | Some d =>
      negb (empty d) && has_column "ano" d && has_column "valor" d
        && has_column "mes_nome" d
  | None => false
  end.

(** The columns the report reads, in the order it reads them. *)
Definition colunas_do_relatorio : list string :=
  ["data"; "ano"; "mes_ano"; "valor"; "mes_nome"].

(** Those it reads before it sorts the years. *)
Definition colunas_do_cabecalho : list string :=
  ["data"; "ano"; "mes_ano"; "valor"].

(** The first of the columns [cs] that the frame lacks. *)
Definition ausente (cs : list string) (d : DataFrame) : option string :=
  head (filter (λ c, has_column c d = false) cs).

(** The years of the frame are of one kind, so that [sorted] returns. *)
Definition anos_ordenaveis (d : DataFrame) : bool :=
  bool_decide (sorted_ok (dtype_of "ano" d) (unique (values "ano" d)) = Ok ()).

(** The first of them that the frame lacks. *)
Definition primeira_ausente (d : DataFrame) : option string :=
  head (filter (λ c, has_column c d = false) colunas_do_relatorio).

(** No text and no timestamp in [ano]. *)
Definition ano_numerico (d : DataFrame) : bool :=
  forallb (λ c, match c with Txt _ | Ts _ => false | _ => true end)
          (values "ano" d).

(** ** [formatar_tabela] *)

(** [s.ljust(w)]: blanks on the right up to [w] characters, never a cut. *)
Definition ljust (w : nat) (s : string) : string :=
  s +:+ Str.of_chars (replicate (w - String.length s) " "%char).

(** [larguras[col]].  [texto_coluna] is the text [astype(str)] gives a value
    of the column. *)
Definition largura (texto_coluna : cell -> string) (df : DataFrame)
    (col : string) : nat :=
  Nat.max (String.length col)
    (if (0 <? len df)%nat
     then max_list (String.length ∘ texto_coluna <$> values col df)
     else 0%nat).

(** The list [output]: the header, the ruler and one line for each row.
    [texto_linha] is the text [str] gives a value taken from a row of
    [iterrows], which may differ from [texto_coluna] (a row with integers and
    floats holds floats only). *)
Definition linhas_da_tabela (texto_coluna texto_linha : cell -> string)
    (df : DataFrame) (espacamento_colunas : nat) : list string :=
  let colunas := labels df in
  let larguras := largura texto_coluna df in
  let header :=
    Str.join "  "
      ((λ col, ljust (larguras col + espacamento_colunas) col) <$> colunas) in
  header
    :: Str.of_chars (replicate (String.length header) "-"%char)
    :: ((λ row,
           Str.join "  "
             ((λ col, ljust (larguras col + espacamento_colunas)
                            (texto_linha (at_col col row))) <$> colunas))
          <$> rows df).

Definition formatar_tabela (texto_coluna texto_linha : cell -> string)
    (df : DataFrame) (espacamento_colunas : nat) : string :=
  if empty df then ""
  else Str.join LF
         (linhas_da_tabela texto_coluna texto_linha df espacamento_colunas).

(** The length every line of the table is meant to have. *)
Definition comprimento_da_linha (texto_coluna : cell -> string)
    (df : DataFrame) (espacamento_colunas : nat) : nat :=
  (sum_list ((λ col, largura texto_coluna df col + espacamento_colunas)
               <$> labels df)
   + 2 * (length (labels df) - 1))%nat.

(** A text with no line feed in it. *)
Definition sem_LF (s : string) : Prop := "010"%char ∉ Str.chars s.

(** ** Occurrences of a text in a path *)

(** [old in s] *)
Fixpoint contem (old s : string) : bool :=
  String.prefix old s
  || match s with
     | String _ s' => contem old s'
     | EmptyString => false
     end.

(** [old] occurs in [base + old] at the end only. *)
Fixpoint so_no_fim (old base : string) : bool :=
  match base with
  | EmptyString => true
  | String a b =>
      negb (String.prefix old (String a (b +:+ old))) && so_no_fim old b
  end.

(** ** Further sample inputs *)

(** A leap day with an amount, and a text that is no date. *)
Definition df_x6 : DataFrame :=
  {| columns := [("data", object); ("valor", object)];
     rows := [ {[ "data" := Txt "29/02/2020"; "valor" := Txt "10" ]};
               {[ "data" := Txt "x"; "valor" := Txt "-5" ]} ] |}.

(** Seven years, two of them with the same sum and one with no value;
    three months, one of them with no value. *)
Definition df_x9 : DataFrame :=
  {| columns := [("data", object); ("valor", object)];
     rows := [ {[ "data" := Txt "15/02/2021"; "valor" := Txt "20" ]};
               {[ "data" := Txt "15/01/2015"; "valor" := Txt "10" ]};
               {[ "data" := Txt "15/02/2016"; "valor" := Txt "30" ]};
               {[ "data" := Txt "15/01/2017"; "valor" := Txt "30" ]};
               {[ "data" := Txt "15/02/2018"; "valor" := Txt "5" ]};
               {[ "data" := Txt "15/01/2019"; "valor" := Txt "40" ]};
               {[ "data" := Txt "15/03/2020"; "valor" := Txt "x" ]};
               {[ "data" := Txt "15/01/2021"; "valor" := Txt "-7" ]} ] |}.

(** [df_x9] as section 5 leaves it. *)
Definition quadro_x9 : DataFrame := (padronizar_dados df_x9).2.

(** The rankings of years and of months that section 7 prints for it: 2016
    before 2017, which has the same sum; March, which has no value, last. *)
Definition top_anos_x9 : list (cell * option Qc) :=
  [(Num (Qc_of_Z 2019), Some (Qc_of_Z 40));
   (Num (Qc_of_Z 2016), Some (Qc_of_Z 30));
   (Num (Qc_of_Z 2017), Some (Qc_of_Z 30));
   (Num (Qc_of_Z 2021), Some (Qc_of_Z 13));
   (Num (Qc_of_Z 2015), Some (Qc_of_Z 10))].

Definition top_meses_x9 : list (cell * option Qc) :=
  [(Txt "Feb", Some (Q2Qc (55 # 3)));
   (Txt "Jan", Some (Q2Qc (73 # 4)));
   (Txt "Mar", None)].

(** The first row of [df_x6] after section 5. *)
Definition r_x6 : gmap string cell :=
  {[ "data" := Ts (Date 2020 2 29); "valor" := Num (Qc_of_Z 10);
     "ano" := Num (Qc_of_Z 2020); "mes" := Num (Qc_of_Z 2);
     "mes_nome" := Txt "Feb"; "mes_ano" := Txt "2020-02" ]}.

(** ** The frames section 5 leaves *)

Definition numero_ou_nulo (c : cell) : bool :=
  match c with NaN | Num _ => true | _ => false end.
Definition texto_ou_nulo (c : cell) : bool :=
  match c with NaN | Txt _ => true | _ => false end.
Definition data_ou_nulo (c : cell) : bool :=
  match c with NaN | Ts _ => true | _ => false end.

(** A [valor] column of numbers and nulls. *)
Definition valor_numerico (df : DataFrame) : Prop :=
  forallb numero_ou_nulo (values "valor" df) = true.

(** A column pandas can sort: numbers and nulls, or texts and nulls. *)
Definition comparavel (c : string) (df : DataFrame) : Prop :=
  forallb numero_ou_nulo (values c df) = true
  ∨ forallb texto_ou_nulo (values c df) = true.

(** The typing section 5 gives the columns it coerces: [data], where
    present, has dtype [datetime] and holds timestamps and nulls; [valor],
    where present, has dtype [numeric] and holds numbers and nulls. *)
Definition padronizada (df : DataFrame) : Prop :=
  (has_column "data" df = true →
     (∀ t, ("data", t) ∈ columns df → t = datetime)
     ∧ forallb data_ou_nulo (values "data" df) = true)
  ∧ (has_column "valor" df = true →
     (∀ t, ("valor", t) ∈ columns df → t = numeric)
     ∧ valor_numerico df).

(** * Properties *)

(** ** Duplicate marking and removal on lists *)

Section Duplicados.
Context {A : Type} `{EqDecision A}.
Implicit Types (l seen : list A) (x : A).

Lemma length_duplicated_from seen l :
  length (duplicated_from seen l) = length l.
Proof. revert seen. induction l as [|x l IH]; intros seen; simpl; [done|]. by rewrite IH. Qed.

Lemma elem_of_kept seen l x : x ∈ kept seen l ↔ x ∈ l ∧ x ∉ seen.
Proof.
  unfold kept. revert seen. induction l as [|y l IH]; intros seen; simpl.
  - split; [inversion 1|intros [H _]; inversion H].
  - case_bool_decide as Hy; simpl.
    + rewrite IH, !elem_of_cons. naive_solver.
    + rewrite !elem_of_cons, IH, elem_of_cons.
      destruct (decide (x = y)); naive_solver.
Qed.

Lemma NoDup_kept seen l : NoDup (kept seen l).
Proof.
  unfold kept. revert seen. induction l as [|y l IH]; intros seen; simpl.
  - constructor.
  - case_bool_decide as Hy; simpl; [apply IH|].
    constructor; [|apply IH].
    intros Hin. apply elem_of_kept in Hin. set_solver.
Qed.

Lemma sublist_kept seen l : kept seen l `sublist_of` l.
Proof.
  unfold kept. revert seen. induction l as [|y l IH]; intros seen; simpl; [done|].
  case_bool_decide; simpl; [by apply sublist_cons|by apply sublist_skip].
Qed.

Lemma duplicated_from_lookup seen l i x :
  l !! i = Some x →
  duplicated_from seen l !! i = Some (bool_decide (x ∈ seen ∨ x ∈ take i l)).
Proof.
  revert seen i. induction l as [|y l IH]; intros seen i Hi; [done|].
  destruct i as [|i]; simpl in *.
  - simplify_eq. f_equal. apply bool_decide_ext. set_solver.
  - rewrite (IH _ _ Hi). f_equal. apply bool_decide_ext. set_solver.
Qed.

Lemma kept_NoDup_id seen l :
  NoDup l → (∀ x, x ∈ l → x ∉ seen) →
  duplicated_from seen l = replicate (length l) false ∧ kept seen l = l.
Proof.
  unfold kept. revert seen. induction l as [|y l IH]; intros seen Hnd Hs; simpl; [done|].
  inversion Hnd as [|?? Hy Hl]; subst.
  rewrite bool_decide_eq_false_2 by (apply Hs; left). simpl.
  destruct (IH (y :: seen) Hl) as [E1 E2].
  { intros x Hx. rewrite elem_of_cons. intros [->|?]; [done|]. by eapply Hs; [right|]. }
  split; [by rewrite E1|f_equal; apply E2].
Qed.

Lemma count_true_cons (b : bool) (m : list bool) :
  length (filter (λ b, b = true) (b :: m))
  = if b then S (length (filter (λ b, b = true) m))
    else length (filter (λ b, b = true) m).
Proof. rewrite filter_cons. by destruct b. Qed.

Lemma count_true_zero seen l :
  length (filter (λ b, b = true) (duplicated_from seen l)) = 0%nat →
  duplicated_from seen l = replicate (length l) false ∧ kept seen l = l.
Proof.
  unfold kept. revert seen. induction l as [|y l IH]; intros seen; [done|].
  cbn [duplicated_from]. rewrite count_true_cons.
  destruct (bool_decide (y ∈ seen)); [done|].
  intros E. destruct (IH _ E) as [E1 E2]. cbn.
  split; [by rewrite E1|f_equal; apply E2].
Qed.

End Duplicados.

Lemma count_true_replicate_false n :
  length (filter (λ b, b = true) (replicate n false)) = 0%nat.
Proof. induction n as [|n IH]; [done|]. simpl. by rewrite count_true_cons. Qed.

Lemma rows_remover_duplicatas df :
  rows (remover_duplicatas df).2 = kept [] (rows df)
  ∧ columns (remover_duplicatas df).2 = columns df.
Proof.
  unfold remover_duplicatas.
  destruct (0 <? _)%nat eqn:E; simpl; [done|].
  apply Nat.ltb_ge in E.
  split; [|done]. symmetry. apply count_true_zero. unfold duplicated in E. lia.
Qed.

Lemma remover_duplicatas_NoDup df :
  NoDup (rows df) → (remover_duplicatas df).2 = df.
Proof.
  intros Hnd. unfold remover_duplicatas, duplicated.
  destruct (kept_NoDup_id [] (rows df) Hnd) as [-> _]; [intros ? _; apply not_elem_of_nil|].
  by rewrite count_true_replicate_false.
Qed.

(** C5. After the duplicate-removal step no two rows are equal; the rows
    kept are exactly those with no equal row before them, in their original
    order; the number of rows is the number of distinct rows of the input;
    and a second application changes nothing. *)
Theorem C5_remover_duplicatas (df : DataFrame) :
  let out := (remover_duplicatas df).2 in
  columns out = columns df
  ∧ NoDup (rows out)
  ∧ rows out = select (negb <$> duplicated (rows df)) (rows df)
  ∧ (∀ i r, rows df !! i = Some r →
        (duplicated (rows df) !! i = Some false ↔ r ∉ take i (rows df)))
  ∧ rows out `sublist_of` rows df
  ∧ (∀ r, r ∈ rows out ↔ r ∈ rows df)
  ∧ length (rows out) = length (remove_dups (rows df))
  ∧ (remover_duplicatas out).2 = out.
Proof.
  intros out. subst out.
  destruct (rows_remover_duplicatas df) as [Hr Hc].
  assert (Hnd : NoDup (rows (remover_duplicatas df).2))
    by (rewrite Hr; apply NoDup_kept).
  assert (Hel : ∀ r, r ∈ rows (remover_duplicatas df).2 ↔ r ∈ rows df).
  { intros r. rewrite Hr, elem_of_kept. split; [tauto|].
    intros H; split; [done|apply not_elem_of_nil]. }
  repeat split; try done.
  - intros Hd. unfold duplicated in Hd.
    rewrite (duplicated_from_lookup [] _ _ _ H) in Hd.
    injection Hd as Hd. apply bool_decide_eq_false in Hd. tauto.
  - intros Hn. unfold duplicated.
    rewrite (duplicated_from_lookup [] _ _ _ H). f_equal.
    apply bool_decide_eq_false. intros [Hx|Hx]; [by apply not_elem_of_nil in Hx|done].
  - rewrite Hr. apply sublist_kept.
  - by apply Hel.
  - by apply Hel.
  - apply Permutation_length, NoDup_Permutation; [done|apply NoDup_remove_dups|].
    intros r. rewrite Hel. by rewrite elem_of_remove_dups.
  - by apply remover_duplicatas_NoDup.
Qed.

(** * Properties that hold whatever the machine computes *)

Section Geral.
Context `{ar : Aritmetica}.

(** ** Arithmetic of means *)





(** ** Filling a column *)

Lemma numbers_cons c l :
  numbers (c :: l) = match c with Num q => q :: numbers l | _ => numbers l end.
Proof. by destruct c. Qed.










Lemma fillna_cell_idemp m c : fillna_cell m (fillna_cell m c) = fillna_cell m c.
Proof. by destruct c. Qed.


(** ** Cells of a frame under the updates *)

Lemma at_col_insert c k v (r : gmap string cell) :
  at_col c (<[k := v]> r) = if decide (k = c) then v else at_col c r.
Proof.
  unfold at_col. case_decide as E.
  - subst. by rewrite lookup_insert_eq.
  - by rewrite lookup_insert_ne.
Qed.











(** ** Year-over-year growth *)

Lemma variacoes_cons2 a va b vb s :
  variacoes ((a, va) :: (b, vb) :: s)
  = (if decide (Qc_of_Z 0 < va)%Qc then [(a, b, taxa va vb)] else [])
    ++ variacoes ((b, vb) :: s).
Proof. done. Qed.

Lemma length_variacoes s :
  (length (variacoes s) + length (anteriores_nao_positivos s))%nat
  = (length s - 1)%nat.
Proof.
  unfold anteriores_nao_positivos.
  induction s as [|[a va] s IH]; [done|].
  destruct s as [|[b vb] s]; [done|].
  rewrite variacoes_cons2, length_app.
  replace (length ((a, va) :: (b, vb) :: s) - 1)%nat with (S (length s))
    by (simpl; lia).
  replace (length ((b, vb) :: s) - 1)%nat with (length s) in IH
    by (simpl; lia).
  rewrite firstn_cons, filter_cons. cbn [snd].
  destruct (decide (Qc_of_Z 0 < va)%Qc) as [Hp|Hp].
  - rewrite decide_False by (by apply Qclt_not_le). simpl in *. lia.
  - rewrite decide_True by (by apply Qcnot_lt_le). simpl in *. lia.
Qed.

Lemma elem_of_variacoes s a b t :
  (a, b, t) ∈ variacoes s ↔
  ∃ i va vb, s !! i = Some (a, va) ∧ s !! S i = Some (b, vb)
             ∧ (Qc_of_Z 0 < va)%Qc ∧ t = taxa va vb.
Proof.
  induction s as [|[a0 v0] s IH].
  - split; [by inversion 1|]. by intros (i & ? & ? & ? & _).
  - destruct s as [|[a1 v1] s].
    + split; [by inversion 1|]. intros (i & ? & ? & _ & H & _). by destruct i.
    + rewrite variacoes_cons2, elem_of_app, IH. split.
      * intros [H|(i & va & vb & H1 & H2 & H3 & H4)].
        -- destruct (decide _) as [Hp|]; [|by inversion H].
           apply list_elem_of_singleton in H. simplify_eq.
           by exists 0%nat, v0, v1.
        -- by exists (S i), va, vb.
      * intros (i & va & vb & H1 & H2 & H3 & H4). destruct i as [|i].
        -- left. simpl in *. simplify_eq. rewrite decide_True by done.
           by apply list_elem_of_singleton.
        -- right. by exists i, va, vb.
Qed.

Lemma length_anos_unicos df :
  length (anos_unicos df) = nunique (values "ano" df).
Proof.
  unfold anos_unicos, sorted, nunique.
  apply Permutation_length, merge_sort_Permutation.
Qed.

Lemma length_soma_por_ano df :
  length (soma_por_ano df) = nunique (values "ano" df).
Proof.
  unfold soma_por_ano, groupby, group_keys, nunique.
  rewrite length_fmap. apply Permutation_length, merge_sort_Permutation.
Qed.

Lemma variacoes_short s : (length s < 2)%nat → variacoes s = [].
Proof. destruct s as [|[??] [|[??] ?]]; simpl; try done; lia. Qed.

Lemma crescimento_variacoes df :
  has_column "valor" df = true → has_column "ano" df = true →
  crescimento_ano_a_ano df = variacoes (soma_por_ano df).
Proof.
  intros Hv Ha. unfold crescimento_ano_a_ano. rewrite Hv, Ha. simpl.
  case_bool_decide as E; [done|]. symmetry. apply variacoes_short.
  rewrite length_soma_por_ano, <- length_anos_unicos. lia.
Qed.

(** C2 (amended). For a table with [valor] and [ano] columns there is one
    year-over-year entry for each adjacent pair of years whose earlier sum is
    positive, and no other: their number is the number of distinct years
    minus one, minus the number of years, the last apart, whose sum is not
    positive; there is none when fewer than two distinct years exist. *)
Theorem C2_crescimento_ano_a_ano (df : DataFrame) :
  has_column "valor" df = true →
  has_column "ano" df = true →
  let s := soma_por_ano df in
  length s = nunique (values "ano" df)
  ∧ length (crescimento_ano_a_ano df)
    = (nunique (values "ano" df) - 1
       - length (anteriores_nao_positivos s))%nat
  ∧ ((nunique (values "ano" df) < 2)%nat → crescimento_ano_a_ano df = [])
  ∧ (∀ a b t,
       (a, b, t) ∈ crescimento_ano_a_ano df ↔
       ∃ i va vb, s !! i = Some (a, va) ∧ s !! S i = Some (b, vb)
                  ∧ (Qc_of_Z 0 < va)%Qc ∧ t = taxa va vb).
Proof.
  intros Hv Ha s. subst s.
  rewrite (crescimento_variacoes df Hv Ha).
  pose proof (length_variacoes (soma_por_ano df)) as HL.
  pose proof (length_soma_por_ano df) as HS.
  repeat split.
  - done.
  - lia.
  - intros Hlt. apply variacoes_short. lia.
  - by apply elem_of_variacoes.
  - by apply elem_of_variacoes.
Qed.

(** ** Assigning a column *)

Lemma labels_set_dtype c t cols :
  (set_dtype c t cols).*1 = if decide (c ∈ cols.*1) then cols.*1 else cols.*1 ++ [c].
Proof.
  unfold set_dtype. case_bool_decide as E.
  - rewrite decide_True by done. rewrite <- list_fmap_compose.
    apply list_fmap_ext. intros i [c' t'] _. simpl. by case_bool_decide; simpl in *.
  - rewrite decide_False by done. by rewrite fmap_app.
Qed.

Lemma labels_setitem c t f df :
  labels (setitem c t f df)
  = if decide (c ∈ labels df) then labels df else labels df ++ [c].
Proof. apply labels_set_dtype. Qed.

Lemma has_column_setitem c c' t f df :
  has_column c' (setitem c t f df)
  = bool_decide (c' = c) || has_column c' df.
Proof.
  unfold has_column. rewrite labels_setitem.
  apply eq_true_iff_eq. rewrite orb_true_iff, !bool_decide_eq_true.
  case_decide as E; [|rewrite elem_of_app, list_elem_of_singleton]; naive_solver.
Qed.

Lemma values_setitem c c' t f df :
  values c' (setitem c t f df)
  = if decide (c = c') then f <$> rows df else values c' df.
Proof.
  unfold values, setitem. simpl. rewrite <- list_fmap_compose.
  case_decide as E; apply list_fmap_ext; intros i r _; simpl;
    rewrite at_col_insert; [by rewrite decide_True|by rewrite decide_False].
Qed.

Lemma len_setitem c t f df : len (setitem c t f df) = len df.
Proof. unfold len, setitem. simpl. apply length_fmap. Qed.

(** ** The frame under the report and the statistics export *)

Lemma mapM_decada l l' :
  mapM decada l = Ok l' → Forall2 (λ a x, decada a = Ok x) l l'.
Proof.
  revert l'. induction l as [|a l IH]; intros l'; simpl.
  - intros [= <-]. constructor.
  - destruct (decada a) as [x|e] eqn:Ea; simpl; [|done].
    destruct (mapM decada l) as [k|e]; simpl; [|done].
    intros [= <-]. constructor; [done|by apply IH].
Qed.

Lemma montar_relatorio_Ok d d' rel :
  montar_relatorio d = Ok (d', rel) →
  has_column "ano" d = true
  ∧ (∃ l, mapM decada (values "ano" d) = Ok l ∧ values "decada" d' = l)
  ∧ labels d' = (if decide ("decada" ∈ labels d) then labels d
                 else labels d ++ ["decada"])
  ∧ (∀ c, c ≠ "decada" → values c d' = values c d)
  ∧ len d' = len d.
Proof.
  unfold montar_relatorio, getitem.
  destruct (has_column "data" d); cbn [mbind result_bind]; [|discriminate].
  destruct (has_column "ano" d); cbn [mbind result_bind]; [|discriminate].
  destruct (has_column "mes_ano" d); cbn [mbind result_bind]; [|discriminate].
  destruct (has_column "valor" d); cbn [mbind result_bind]; [|discriminate].
  destruct (sorted_ok _ _) as [[]|?]; cbn [mbind result_bind]; [|discriminate].
  destruct (has_column "mes_nome" d); cbn [mbind result_bind]; [|discriminate].
  destruct (mapM decada (values "ano" d)) as [l|e] eqn:El;
    cbn [mbind result_bind]; [|discriminate].
  intros H.
  apply (f_equal (λ r, match r with Ok x => Some x.1 | Raise _ => None end)) in H.
  cbv beta iota in H. cbn [fst] in H. injection H as <-.
  split; [reflexivity|]. split; [|split; [|split]].
  - exists l. split; [done|]. rewrite values_setitem, decide_True by done.
    apply mapM_decada in El. unfold values in El.
    apply list_eq_Forall2. apply Forall2_fmap_l. rewrite Forall2_fmap_l in El.
    eapply Forall2_impl; [exact El|]. simpl. intros r x ->. done.
  - apply labels_setitem.
  - intros c Hc. rewrite values_setitem. by rewrite decide_False.
  - apply len_setitem.
Qed.

(** C8 (amended). The statistics export leaves the frame as it was.  The
    report generation leaves it as it was when it returns nothing or raises;
    when it returns a report it has assigned the column [decada], the decade
    of [ano], and nothing else: the other columns keep their cells, and the
    labels are the same, with [decada] added at the end if it was not one. *)
Theorem C8_frame (amb : ambiente) (df : option DataFrame) (arq : string) :
  (exportar_estatisticas_detalhadas amb df arq).1.2 = df
  ∧ match (gerar_relatorio_completo amb df arq).2 with
    | Ok (Some _) =>
        ∃ d d', df = Some d
          ∧ (gerar_relatorio_completo amb df arq).1.2 = Some d'
          ∧ labels d' = (if decide ("decada" ∈ labels d) then labels d
                         else labels d ++ ["decada"])
          ∧ Forall2 (λ a x, decada a = Ok x)
              (values "ano" d) (values "decada" d')
          ∧ (∀ c, c ≠ "decada" → values c d' = values c d)
          ∧ len d' = len d
    | _ => (gerar_relatorio_completo amb df arq).1.2 = df
    end.
Proof.
  split.
  - unfold exportar_estatisticas_detalhadas, escreve.
    destruct df as [d|]; [|done].
    destruct (empty d); [done|].
    destruct (montar_estatisticas d) as [[sa sm]|e]; [|done].
    repeat (destruct (grava amb _); simpl; try done).
  - unfold gerar_relatorio_completo, escreve.
    destruct df as [d|]; [|done].
    destruct (empty d); [done|].
    destruct (montar_relatorio d) as [[d' rel]|e] eqn:E; [|done].
    apply montar_relatorio_Ok in E as (Ha & (l & Hl & Hd) & HL & Hv & Hn).
    destruct (grava amb _); simpl; exists d, d';
      (repeat split; try done); rewrite Hd; by apply mapM_decada.
Qed.

(** ** Error boundaries of the writes *)

Lemma escritas_app t1 t2 : escritas (t1 ++ t2) = escritas t1 ++ escritas t2.
Proof. apply omap_app. Qed.

Lemma escritas_fora_app ps t1 t2 :
  escritas_fora ps (t1 ++ t2) = escritas_fora ps t1 ++ escritas_fora ps t2.
Proof. unfold escritas_fora. by rewrite escritas_app, filter_app. Qed.

Lemma escritas_sem_escrita t : Forall sem_escrita t → escritas t = [].
Proof.
  induction 1 as [|e t He _ IH]; [done|].
  destruct e; first [exact IH | destruct He].
Qed.

(** Splits a trace built from conses, appends and conditionals. *)
Ltac sem_escritas :=
  repeat first
    [ apply Forall_nil_2
    | apply Forall_cons; split; [exact I|]
    | apply Forall_app; split
    | apply Forall_fmap, Forall_true; intros ?; exact I
    | match goal with
      | |- Forall _ (fst (if ?b then _ else _)) => destruct b; cbn [fst]
      | |- Forall _ (fst (_, _)) => cbn [fst]
      | |- Forall _ (if ?b then _ else _) => destruct b
      | |- Forall _ (match ?o with Some _ => _ | None => _ end) => destruct o
      | |- Forall _ (match ?o with (_, _) => _ end) => destruct o
      end ].

Lemma sem_escrita_padronizar df : Forall sem_escrita (padronizar_dados df).1.
Proof.
  unfold padronizar_dados.
  assert (H1 : Forall sem_escrita (converter_data df).1)
    by (unfold converter_data; sem_escritas).
  destruct (converter_data df) as [t1 df1]. cbn [fst] in H1.
  assert (H2 : Forall sem_escrita (converter_valor df1).1).
  { unfold converter_valor. destruct (has_column "valor" df1); [|sem_escritas].
    set (df2 := setitem _ _ _ _).
    assert (H3 : Forall sem_escrita (derivar_calendario df2).1)
      by (unfold derivar_calendario; sem_escritas).
    destruct (derivar_calendario df2) as [t df']. cbn [fst] in *.
    by apply Forall_cons. }
  destruct (converter_valor df1) as [t2 df2]. cbn [fst] in *.
  apply Forall_cons. split; [exact I|]. by apply Forall_app.
Qed.

Lemma escritas_limpar df : escritas (limpar df).1 = [].
Proof.
  apply escritas_sem_escrita. unfold limpar.
  assert (H2 : ∀ d, Forall sem_escrita (tratar_nomes_colunas d).1)
    by (intros d; unfold tratar_nomes_colunas; sem_escritas).
  assert (H3 : ∀ d, Forall sem_escrita (tratar_valores_nulos d).1)
    by (intros d; unfold tratar_valores_nulos; sem_escritas).
  assert (H4 : ∀ d, Forall sem_escrita (remover_duplicatas d).1)
    by (intros d; unfold remover_duplicatas; sem_escritas).
  specialize (H2 df). destruct (tratar_nomes_colunas df) as [t2 d2].
  specialize (H3 d2). destruct (tratar_valores_nulos d2) as [t3 d3].
  specialize (H4 d3). destruct (remover_duplicatas d3) as [t4 d4].
  pose proof (sem_escrita_padronizar d4) as H5.
  destruct (padronizar_dados d4) as [t5 d5]. cbn [fst] in *.
  repeat (apply Forall_app; split); done.
Qed.

Lemma escritas_analise df : escritas (analise_estatistica df) = [].
Proof.
  apply escritas_sem_escrita. unfold analise_estatistica. sem_escritas.
Qed.

Lemma escritas_tendencias df : escritas (calcular_tendencias df) = [].
Proof.
  apply escritas_sem_escrita. unfold calcular_tendencias. sem_escritas.
Qed.

Lemma escritas_salvar amb df o :
  let x := Str.replace ".csv" ".xlsx" o in
  escritas (salvar_arquivo amb df o).1
  = (o, grava amb o)
      :: (if grava amb o && planilha x then [(x, grava amb x)] else [])
  ∧ (is_Some (salvar_arquivo amb df o).2 ↔
     grava amb o = true ∧ planilha x = true ∧ grava amb x = true).
Proof.
  unfold salvar_arquivo, to_excel, escreve.
  destruct (grava amb o); cbn [andb fst snd];
    [destruct (planilha (Str.replace ".csv" ".xlsx" o)); cbn [fst snd];
       [destruct (grava amb (Str.replace ".csv" ".xlsx" o)); cbn [fst snd]|]|];
    (split; [done|]); split;
    first [ by intros (? & ? & ?) | by intros [? ?] | done | by eexists ].
Qed.

Lemma escritas_processar_dados amb i o :
  let x := Str.replace ".csv" ".xlsx" o in
  escritas (processar_dados amb i o).1
  = match ler_dados amb i with
    | Ok _ =>
        (o, grava amb o)
          :: (if grava amb o && planilha x then [(x, grava amb x)] else [])
    | Raise _ => []
    end
  ∧ (is_Some (processar_dados amb i o).2 →
     grava amb o = true ∧ planilha x = true ∧ grava amb x = true).
Proof.
  unfold processar_dados.
  destruct (ler_dados amb i) as [df|e].
  - pose proof (escritas_limpar df) as HL.
    destruct (limpar df) as [t25 df']. cbn [fst] in HL.
    pose proof (escritas_salvar amb df' o) as [HS1 HS2].
    destruct (salvar_arquivo amb df' o) as [t8 r]. cbn [fst snd] in *.
    rewrite !escritas_app, HL, escritas_analise, escritas_tendencias, HS1.
    split; [done|]. apply HS2.
  - destruct e; simpl; (split; [done|by intros [? ?]]).
Qed.

Lemma processar_dados_ext amb amb' i o :
  le amb' i = le amb i →
  grava amb' o = grava amb o →
  grava amb' (Str.replace ".csv" ".xlsx" o)
  = grava amb (Str.replace ".csv" ".xlsx" o) →
  processar_dados amb' i o = processar_dados amb i o.
Proof.
  intros H1 H2 H3.
  unfold processar_dados, ler_dados, salvar_arquivo, to_excel, escreve.
  by rewrite H1, H2, H3.
Qed.

Lemma escritas_fora_cons ps e t :
  sem_escrita e → escritas_fora ps (e :: t) = escritas_fora ps t.
Proof. by destruct e. Qed.

Lemma escritas_fora_nil ps : escritas_fora ps [] = [].
Proof. done. Qed.

Lemma escritas_fora_escreve amb p c ps :
  p ∈ ps → escritas_fora ps (escreve amb p c).1 = [].
Proof.
  intros Hp. unfold escreve, escritas_fora.
  destruct (grava amb p); cbn [fst].
  - change (escritas [Escrita p c true]) with [(p, true)].
    rewrite filter_cons_False; [done|cbn; tauto].
  - change (escritas [Escrita p c false]) with [(p, false)].
    rewrite filter_cons_False; [done|cbn; tauto].
Qed.

Lemma gerar_relatorio_ext amb amb' df o ps :
  Str.replace ".csv" "_relatorio.txt" o ∈ ps →
  (gerar_relatorio_completo amb' df o).2 = (gerar_relatorio_completo amb df o).2
  ∧ (gerar_relatorio_completo amb' df o).1.2
    = (gerar_relatorio_completo amb df o).1.2
  ∧ escritas_fora ps (gerar_relatorio_completo amb df o).1.1 = [].
Proof.
  intros Hp. unfold gerar_relatorio_completo.
  destruct df as [d|]; [|done].
  destruct (empty d); [done|].
  destruct (montar_relatorio d) as [[d' rel]|e]; [|done].
  pose proof (escritas_fora_escreve amb _ (Texto rel) ps Hp) as H.
  pose proof (escritas_fora_escreve amb' _ (Texto rel) ps Hp) as H'.
  destruct (escreve amb _ _) as [t r], (escreve amb' _ _) as [t' r'].
  cbn [fst snd] in *. repeat split.
  rewrite escritas_fora_app, H. by destruct r.
Qed.

Lemma gerar_relatorio_same amb amb' df o :
  grava amb' (Str.replace ".csv" "_relatorio.txt" o)
  = grava amb (Str.replace ".csv" "_relatorio.txt" o) →
  gerar_relatorio_completo amb' df o = gerar_relatorio_completo amb df o.
Proof. intros H. unfold gerar_relatorio_completo, escreve. by rewrite H. Qed.

Lemma exportar_same amb amb' df o :
  grava amb' (Str.replace ".csv" "_estatisticas_ano.csv" o)
  = grava amb (Str.replace ".csv" "_estatisticas_ano.csv" o) →
  grava amb' (Str.replace ".csv" "_estatisticas_mes.csv" o)
  = grava amb (Str.replace ".csv" "_estatisticas_mes.csv" o) →
  exportar_estatisticas_detalhadas amb' df o
  = exportar_estatisticas_detalhadas amb df o.
Proof.
  intros H1 H2. unfold exportar_estatisticas_detalhadas, escreve.
  by rewrite H1, H2.
Qed.

Lemma exportar_ext amb df o ps :
  Str.replace ".csv" "_estatisticas_ano.csv" o ∈ ps →
  Str.replace ".csv" "_estatisticas_mes.csv" o ∈ ps →
  (exportar_estatisticas_detalhadas amb df o).1.2 = df
  ∧ escritas_fora ps (exportar_estatisticas_detalhadas amb df o).1.1 = [].
Proof.
  intros Ha Hm. unfold exportar_estatisticas_detalhadas.
  destruct df as [d|]; [|done].
  destruct (empty d); [done|].
  destruct (montar_estatisticas d) as [[sa sm]|e]; [|done].
  pose proof (escritas_fora_escreve amb _ (Agregados "ano" sa) ps Ha) as H1.
  pose proof (escritas_fora_escreve amb _ (Agregados "mes_nome" sm) ps Hm) as H2.
  destruct (escreve amb _ (Agregados "ano" sa)) as [t1 r1].
  destruct (escreve amb _ (Agregados "mes_nome" sm)) as [t2 r2].
  cbn [fst snd] in *.
  destruct r1, r2; cbn [fst snd]; (split; [done|]);
    rewrite ?escritas_fora_app, ?H1, ?H2; done.
Qed.

Lemma main_processar amb :
  main amb
  = let t0 := [Titulo "SISTEMA DE PROCESSAMENTO DE DADOS"] in
    let p := processar_dados amb ARQUIVO_ENTRADA ARQUIVO_SAIDA in
    match p.2 with
    | Some _ =>
        let g := gerar_relatorio_completo amb p.2 ARQUIVO_SAIDA in
        match g.2 with
        | Raise e => (t0 ++ p.1 ++ Gerando_relatorio :: g.1.1, Raise e)
        | Ok _ =>
            let x := exportar_estatisticas_detalhadas amb g.1.2 ARQUIVO_SAIDA in
            let t := t0 ++ p.1 ++ Gerando_relatorio :: g.1.1
                       ++ Exportando_estatisticas :: x.1.1
                       ++ [Titulo "RESUMO DA EXECUCAO";
                           ArquivosGerados
                             [ARQUIVO_SAIDA; ARQUIVO_EXCEL; ARQUIVO_RELATORIO;
                              ARQUIVO_STATS_ANO; ARQUIVO_STATS_MES]] in
            match x.1.2 with
            | Some d =>
                match resumo_final d with
                | Ok t5 => (t ++ t5, Ok ())
                | Raise e => (t, Raise e)
                end
            | None => (t, Ok ())
            end
        end
    | None => (t0 ++ p.1 ++ [Titulo "PROCESSAMENTO INTERROMPIDO"], Ok ())
    end.
Proof.
  unfold main.
  destruct (processar_dados amb ARQUIVO_ENTRADA ARQUIVO_SAIDA) as [t1 [d|]];
    cbn [fst snd]; [|done].
  destruct (gerar_relatorio_completo amb (Some d) ARQUIVO_SAIDA) as [[t2 d2] [r|e]];
    cbn [fst snd]; [|done].
  by destruct (exportar_estatisticas_detalhadas amb d2 ARQUIVO_SAIDA) as [[t3 d3] x].
Qed.

Lemma escritas_fora_resumo ps d t :
  resumo_final d = Ok t → escritas_fora ps t = [].
Proof.
  unfold resumo_final, getitem.
  destruct (has_column "valor" d); [|done].
  destruct (has_column "data" d); [|done].
  by intros [= <-].
Qed.

(** The write attempts of a run of [main] outside [ps], stage by stage. *)
Lemma escritas_fora_main amb ps :
  let p := processar_dados amb ARQUIVO_ENTRADA ARQUIVO_SAIDA in
  let g := gerar_relatorio_completo amb p.2 ARQUIVO_SAIDA in
  let x := exportar_estatisticas_detalhadas amb g.1.2 ARQUIVO_SAIDA in
  escritas_fora ps (main amb).1
  = escritas_fora ps p.1
      ++ match p.2 with
         | Some _ =>
             escritas_fora ps g.1.1
               ++ match g.2 with
                  | Ok _ => escritas_fora ps x.1.1
                  | Raise _ => []
                  end
         | None => []
         end.
Proof.
  intros p g x. rewrite main_processar. fold p. cbn zeta. fold g. fold x.
  destruct (p.2) as [d|]; cbn [fst snd].
  - destruct (g.2) as [r|e]; cbn [fst snd].
    + destruct (x.1.2) as [d3|]; [destruct (resumo_final d3) as [t5|e] eqn:E5|];
        cbn [fst snd];
        rewrite ?escritas_fora_app, ?escritas_fora_cons, ?escritas_fora_app,
          ?escritas_fora_cons, ?escritas_fora_app by exact I;
        rewrite ?(escritas_fora_resumo ps _ _ E5); cbn; by rewrite ?app_nil_r.
    + rewrite ?escritas_fora_app, ?escritas_fora_cons by exact I.
      cbn. by rewrite ?app_nil_r.
  - rewrite !escritas_fora_app. cbn. by rewrite ?app_nil_r.
Qed.

(** * Further properties of the pipeline *)

(** ** The loader *)

(** X1. When the input file cannot be read or parsed, [main] prints the
    error and the interruption banner, attempts no write and returns
    normally. *)
Theorem X1_leitura_falha (amb : ambiente) (e : exn) :
  ler_dados amb ARQUIVO_ENTRADA = Raise e →
  main amb
  = ([Titulo "SISTEMA DE PROCESSAMENTO DE DADOS";
      Titulo "PROCESSAMENTO DE DADOS DO GOVERNO"; Etapa 1;
      erro_de_leitura ARQUIVO_ENTRADA e;
      Titulo "PROCESSAMENTO INTERROMPIDO"], Ok ()).
Proof.
  intros H. unfold main, processar_dados. rewrite H. by destruct e.
Qed.

(** ** The column names *)

Lemma at_col_rename f (ls : list string) (r : gmap string cell) c :
  NoDup (f <$> ls) → c ∈ ls →
  at_col (f c) (list_to_map ((λ c, (f c, at_col c r)) <$> ls)) = at_col c r.
Proof.
  intros Hnd Hc. unfold at_col at 1.
  rewrite (elem_of_list_to_map_1 _ (f c) (at_col c r)); [done| |].
  - by rewrite <- list_fmap_compose.
  - apply list_elem_of_fmap. by exists c.
Qed.

Lemma values_rename f df c :
  NoDup (f <$> labels df) → c ∈ labels df →
  values (f c) (rename f df) = values c df.
Proof.
  intros Hnd Hc. unfold values, rename. cbn [rows].
  rewrite <- list_fmap_compose. apply list_fmap_ext.
  intros i r _. cbn. by apply at_col_rename.
Qed.

Lemma labels_rename f df : labels (rename f df) = f <$> labels df.
Proof.
  unfold labels, rename. cbn [columns]. rewrite <- !list_fmap_compose.
  by apply list_fmap_ext.
Qed.

Lemma lower_char_idemp a : Str.lower_char (Str.lower_char a) = Str.lower_char a.
Proof. destruct a as [[] [] [] [] [] [] [] []]; reflexivity. Qed.

Lemma is_space_lower_char a : Str.is_space (Str.lower_char a) = Str.is_space a.
Proof. destruct a as [[] [] [] [] [] [] [] []]; reflexivity. Qed.

Lemma is_upper_lower_char a : Str.is_upper (Str.lower_char a) = false.
Proof. destruct a as [[] [] [] [] [] [] [] []]; reflexivity. Qed.

Lemma lower_char_not_upper a : Str.is_upper a = false → Str.lower_char a = a.
Proof. unfold Str.lower_char. by intros ->. Qed.

Lemma lower_char_ascii a :
  (nat_of_ascii a <? 128)%nat = true →
  (nat_of_ascii (Str.lower_char a) <? 128)%nat = true.
Proof. destruct a as [[] [] [] [] [] [] [] []]; intros H; try reflexivity; exact H. Qed.

Lemma chars_of_chars l : Str.chars (Str.of_chars l) = l.
Proof. apply list_ascii_of_string_of_list_ascii. Qed.

Lemma of_chars_chars s : Str.of_chars (Str.chars s) = s.
Proof. apply string_of_list_ascii_of_string. Qed.

Lemma lstrip_lower l :
  Str.lstrip_chars (Str.lower_char <$> l) = Str.lower_char <$> Str.lstrip_chars l.
Proof.
  induction l as [|a l IH]; [done|]. cbn [fmap list_fmap Str.lstrip_chars].
  rewrite is_space_lower_char. by destruct (Str.is_space a).
Qed.

(** A list that [lstrip] leaves alone: empty, or starting with no blank. *)
Lemma lstrip_fixed l :
  Str.lstrip_chars l = l ↔
  match l with [] => True | a :: _ => Str.is_space a = false end.
Proof.
  destruct l as [|a l]; [done|]. cbn [Str.lstrip_chars].
  destruct (Str.is_space a) eqn:E; [|done]. split; [|done].
  intros H. exfalso.
  assert (Hlen : ∀ k, (length (Str.lstrip_chars k) ≤ length k)%nat).
  { induction k as [|b k IH]; [done|]. cbn [Str.lstrip_chars].
    destruct (Str.is_space b); cbn [length]; lia. }
  specialize (Hlen l). rewrite H in Hlen. cbn [length] in Hlen. lia.
Qed.

Lemma lstrip_head l :
  match Str.lstrip_chars l with [] => True | a :: _ => Str.is_space a = false end.
Proof.
  induction l as [|a l IH]; [done|]. cbn [Str.lstrip_chars].
  by destruct (Str.is_space a) eqn:E.
Qed.

Lemma lstrip_idemp l : Str.lstrip_chars (Str.lstrip_chars l) = Str.lstrip_chars l.
Proof. apply lstrip_fixed, lstrip_head. Qed.

(** What [lstrip] removes is a run of blanks at the start. *)
Lemma lstrip_split l :
  ∃ a, l = a ++ Str.lstrip_chars l ∧ Forall (λ x, Str.is_space x = true) a.
Proof.
  induction l as [|x l (a & E & Ha)]; [by exists []|].
  cbn [Str.lstrip_chars]. destruct (Str.is_space x) eqn:Ex.
  - exists (x :: a). split; [cbn; by rewrite <- E|by constructor].
  - by exists [].
Qed.

(** Stripping on the right keeps a first character that is not a blank. *)
Lemma lstrip_snoc_nonspace l a :
  Str.is_space a = false →
  ∃ m, Str.lstrip_chars (l ++ [a]) = m ++ [a].
Proof.
  intros Ha. induction l as [|b l [m IH]].
  - exists []. cbn. by rewrite Ha.
  - cbn [app Str.lstrip_chars]. destruct (Str.is_space b).
    + by exists m.
    + by exists (b :: l).
Qed.

Lemma aparado_head l :
  aparado l → match l with [] => True | a :: _ => Str.is_space a = false end.
Proof. intros [H _]. by destruct l. Qed.

Lemma aparado_fixed l : aparado l → strip_chars l = l.
Proof.
  intros [H1 H2]. unfold strip_chars.
  assert (E1 : Str.lstrip_chars l = l) by (apply lstrip_fixed; by destruct l).
  rewrite E1.
  assert (E2 : Str.lstrip_chars (reverse l) = reverse l).
  { apply lstrip_fixed. rewrite <- head_reverse in H2.
    by destruct (reverse l). }
  by rewrite E2, reverse_involutive.
Qed.

Lemma strip_chars_aparado l : aparado (strip_chars l).
Proof.
  unfold strip_chars.
  pose proof (lstrip_head l) as Hh.
  destruct (Str.lstrip_chars l) as [|a l'] eqn:E; [done|].
  rewrite reverse_cons.
  destruct (lstrip_snoc_nonspace (reverse l') a Hh) as [m Hm].
  pose proof (lstrip_head (reverse l' ++ [a])) as Hh2.
  rewrite Hm in *. split.
  - rewrite head_reverse, last_snoc. exact Hh.
  - rewrite last_reverse. by destruct (m ++ [a]).
Qed.

Lemma strip_chars_idemp l : strip_chars (strip_chars l) = strip_chars l.
Proof. apply aparado_fixed, strip_chars_aparado. Qed.

(** What [strip] removes is a run of blanks at each end. *)
Lemma strip_chars_split l :
  ∃ a b, l = a ++ strip_chars l ++ b
         ∧ Forall (λ x, Str.is_space x = true) a
         ∧ Forall (λ x, Str.is_space x = true) b.
Proof.
  destruct (lstrip_split l) as (a & E & Ha).
  destruct (lstrip_split (reverse (Str.lstrip_chars l))) as (b & E' & Hb).
  exists a, (reverse b). split; [|split; [done|by apply Forall_reverse]].
  unfold strip_chars. rewrite <- reverse_app, <- E', reverse_involutive. exact E.
Qed.

Lemma strip_chars_lower l :
  strip_chars (Str.lower_char <$> l) = Str.lower_char <$> strip_chars l.
Proof.
  unfold strip_chars.
  by rewrite lstrip_lower, <- fmap_reverse, lstrip_lower, fmap_reverse.
Qed.

Lemma normalizar_chars c :
  Str.chars (normalizar c) = Str.lower_char <$> strip_chars (Str.chars c).
Proof.
  unfold normalizar, Str.lower, Str.strip. by rewrite !chars_of_chars.
Qed.

Lemma aparado_lower l : aparado l → aparado (Str.lower_char <$> l).
Proof.
  intros [H1 H2]. unfold aparado.
  rewrite fmap_last. destruct l as [|x l]; [done|].
  cbn [fmap list_fmap head] in *.
  destruct (last (x :: l)); cbn; rewrite ?is_space_lower_char; done.
Qed.

(** A normalised label: no blank at either end, no capital. *)
Lemma normalizar_forma c :
  aparado (Str.chars (normalizar c))
  ∧ sem_maiusculas (Str.chars (normalizar c)).
Proof.
  rewrite normalizar_chars. split.
  - apply aparado_lower, strip_chars_aparado.
  - unfold sem_maiusculas. apply Forall_fmap, Forall_forall.
    intros a _. apply is_upper_lower_char.
Qed.

Lemma lower_fixed l : sem_maiusculas l → Str.lower_char <$> l = l.
Proof.
  induction 1 as [|a l Ha _ IH]; [done|].
  cbn [fmap list_fmap]. rewrite lower_char_not_upper by done. by f_equal.
Qed.

Lemma ascii_only_normalizar c :
  Str.ascii_only c = true → Str.ascii_only (normalizar c) = true.
Proof.
  unfold Str.ascii_only. rewrite normalizar_chars, !forallb_forall.
  intros H a Ha. apply list_elem_of_In, list_elem_of_fmap in Ha as (b & -> & Hb).
  apply lower_char_ascii, H, list_elem_of_In.
  destruct (strip_chars_split (Str.chars c)) as (x & y & E & _).
  rewrite E, !elem_of_app. auto.
Qed.

(** X3. Section 2 replaces every label of ASCII text by the label without
    the blanks at its two ends and with each capital from A to Z made small,
    every other character, blanks inside included, left as it is; the new
    label has no blank at either end and no capital.  The order of the
    columns, their dtypes and the number of rows are kept, and when the new
    labels are pairwise distinct every column keeps its cells under its new
    label. *)
Theorem X3_tratar_nomes_colunas (df : DataFrame) :
  (∀ c, c ∈ labels df → Str.ascii_only c = true) →
  let out := (tratar_nomes_colunas df).2 in
  labels out = normalizar <$> labels df
  ∧ (∀ c, c ∈ labels df →
       ∃ a m b,
         Str.chars c = a ++ m ++ b
         ∧ Forall (λ x, Str.is_space x = true) a
         ∧ Forall (λ x, Str.is_space x = true) b
         ∧ aparado m
         ∧ Str.chars (normalizar c) = Str.lower_char <$> m)
  ∧ (∀ c, c ∈ labels out →
       Str.ascii_only c = true
       ∧ aparado (Str.chars c) ∧ sem_maiusculas (Str.chars c))
  ∧ (columns out).*2 = (columns df).*2
  ∧ len out = len df
  ∧ (NoDup (normalizar <$> labels df) →
     ∀ c, c ∈ labels df → values (normalizar c) out = values c df).
Proof.
  intros Hascii out. subst out. unfold tratar_nomes_colunas. cbn [snd].
  change (λ c, Str.lower (Str.strip c)) with normalizar.
  split; [apply labels_rename|]. split; [|split; [|split; [|split]]].
  - intros c _. destruct (strip_chars_split (Str.chars c)) as (a & b & E & Ha & Hb).
    exists a, (strip_chars (Str.chars c)), b.
    repeat split; try done; try apply strip_chars_aparado.
    apply normalizar_chars.
  - intros c. rewrite labels_rename. intros (c0 & -> & Hc0)%list_elem_of_fmap.
    split; [by apply ascii_only_normalizar, Hascii|apply normalizar_forma].
  - unfold rename. cbn [columns]. rewrite <- !list_fmap_compose.
    by apply list_fmap_ext.
  - unfold len, rename. cbn [rows]. apply length_fmap.
  - intros Hnd c Hc. by apply values_rename.
Qed.

(** X4. On ASCII text, normalising a label twice is normalising it once,
    and the labels the cleaner leaves alone are those with no blank at
    either end and no capital from A to Z. *)
Theorem X4_normalizar_idempotente (c : string) :
  Str.ascii_only c = true →
  Str.ascii_only (normalizar c) = true
  ∧ normalizar (normalizar c) = normalizar c
  ∧ (normalizar c = c ↔
     aparado (Str.chars c) ∧ sem_maiusculas (Str.chars c)).
Proof.
  intros Hc. split; [by apply ascii_only_normalizar|].
  assert (Hfix : ∀ s, aparado (Str.chars s) → sem_maiusculas (Str.chars s) →
                      normalizar s = s).
  { intros s H1 H2. rewrite <- (of_chars_chars (normalizar s)), normalizar_chars.
    rewrite aparado_fixed, lower_fixed by done. apply of_chars_chars. }
  split.
  - apply Hfix; apply normalizar_forma.
  - split; [|intros [? ?]; by apply Hfix].
    intros E. rewrite <- E. apply normalizar_forma.
Qed.

(** ** The dates *)

Lemma field_d_range l v : field_d l = Some v → 1 ≤ v ≤ 31.
Proof.
  unfold field_d. case_bool_decide; [|done].
  destruct (Str.digits _) as [w|]; [|done]. cbn.
  destruct (1 <=? w) eqn:E1; [|done]. destruct (w <=? 31) eqn:E2; [|done].
  intros [= <-]. lia.
Qed.

Lemma field_m_range l v : field_m l = Some v → 1 ≤ v ≤ 12.
Proof.
  unfold field_m. case_bool_decide; [|done].
  destruct (Str.digits _) as [w|]; [|done]. cbn.
  destruct (1 <=? w) eqn:E1; [|done]. destruct (w <=? 12) eqn:E2; [|done].
  intros [= <-]. lia.
Qed.

Lemma strptime_valida s d :
  strptime s = Some d → data_valida d ∧ in_bounds d = true.
Proof.
  unfold strptime.
  destruct (Str.split_chars _ _ _) as [|x [|y [|z [|? ?]]]]; try done.
  destruct (field_d x) as [dd|] eqn:Ed; [|done]. cbn [mbind option_bind].
  destruct (field_m y) as [mm|] eqn:Em; [|done]. cbn [mbind option_bind].
  destruct (field_Y z) as [yy|] eqn:Ey; [|done]. cbn [mbind option_bind].
  destruct (dd <=? days_in_month yy mm) eqn:E1; [|done].
  destruct (in_bounds _) eqn:E2; [|done].
  cbn [andb]. intros [= <-]. split; [|done].
  apply field_d_range in Ed. apply field_m_range in Em.
  unfold data_valida. cbn. lia.
Qed.

Lemma to_datetime_idemp c : to_datetime (to_datetime c) = to_datetime c.
Proof. destruct c as [|q|s|d]; try done. cbn. by destruct (strptime s). Qed.

Lemma padronizar_dados_snd df : (padronizar_dados df).2 = padronizado df.
Proof.
  unfold padronizar_dados, padronizado, converter_data, converter_valor,
    derivar_calendario, calendario.
  destruct (has_column "data" df); cbn [fst snd];
    (destruct (has_column "valor" _); cbn [fst snd]; [|done]);
    by destruct (has_column "data" _ && notna_any _).
Qed.

(** Reads a column through the assignments of other columns. *)
Ltac through_setitem :=
  repeat (rewrite values_setitem;
          match goal with
          | |- context [decide (?a = ?b)] =>
              destruct (decide (a = b)) as [?|_]; [discriminate|]
          end).

Lemma values_calendario c df :
  c ∉ ["ano"; "mes"; "mes_nome"; "mes_ano"] →
  values c (calendario df) = values c df.
Proof.
  intros Hc. unfold calendario.
  repeat (rewrite values_setitem;
          destruct (decide (_ = c)) as [<-|_];
          [exfalso; apply Hc; rewrite !elem_of_cons; tauto|]).
  done.
Qed.

Lemma len_calendario df : len (calendario df) = len df.
Proof. unfold calendario. by rewrite !len_setitem. Qed.

Lemma len_padronizado df : len (padronizado df) = len df.
Proof.
  unfold padronizado.
  repeat (match goal with
          | |- context [if ?b then _ else _] => destruct b
          end; cbn zeta); rewrite ?len_calendario, ?len_setitem; done.
Qed.

Lemma values_data_padronizado df :
  has_column "data" df = true →
  values "data" (padronizado df) = to_datetime <$> values "data" df.
Proof.
  intros H. unfold padronizado. rewrite H.
  assert (E : values "data"
                (setitem "data" datetime (λ r, to_datetime (at_col "data" r)) df)
              = to_datetime <$> values "data" df).
  { rewrite values_setitem, decide_True by done. unfold values.
    by rewrite <- list_fmap_compose. }
  destruct (has_column "valor" _); [|done]. cbn zeta.
  destruct (_ && _).
  - rewrite values_calendario by (rewrite !elem_of_cons, elem_of_nil; intuition discriminate).
    by through_setitem.
  - by through_setitem.
Qed.

(** X5. When the table has a [data] column that holds no timestamp yet (as
    when it was read from CSV), section 5 keeps the number of rows and turns
    each [data] cell into a null or a timestamp of a real calendar date;
    coercing the column again would change nothing. *)
Theorem X5_padronizar_data (df : DataFrame) :
  has_column "data" df = true →
  (∀ c, c ∈ values "data" df → ts_of c = None) →
  let out := (padronizar_dados df).2 in
  len out = len df
  ∧ values "data" out = to_datetime <$> values "data" df
  ∧ (∀ c, c ∈ values "data" out → c = NaN ∨ ∃ d, c = Ts d ∧ data_valida d)
  ∧ to_datetime <$> values "data" out = values "data" out.
Proof.
  intros H Hts out. subst out. rewrite padronizar_dados_snd.
  rewrite (values_data_padronizado df H).
  split; [apply len_padronizado|]. split; [done|]. split.
  - intros c Hc. apply list_elem_of_fmap in Hc as [x [-> Hx]].
    specialize (Hts x Hx).
    destruct x as [|q|s|d]; cbn; auto; [|discriminate].
    destruct (strptime s) as [d|] eqn:E; [|by left].
    right. exists d. split; [done|]. by apply strptime_valida in E as [? _].
  - rewrite <- list_fmap_compose. apply list_fmap_ext.
    intros i c _. apply to_datetime_idemp.
Qed.

Lemma X5_witness :
  values "data" (padronizar_dados df_x5).2
  = to_datetime <$> values "data" df_x5.
Proof.
  refine (proj1 (proj2 (X5_padronizar_data df_x5 _ _))).
  - reflexivity.
  - intros c Hc.
    assert (E : values "data" df_x5 = [Txt "29/02/2020"; Txt "31/04/2020"; NaN])
      by (vm_compute; reflexivity).
    rewrite E, !elem_of_cons, elem_of_nil in Hc.
    destruct Hc as [->|[->|[->|[]]]]; reflexivity.
Defined.

Lemma elem_of_rows_setitem c t f df r' :
  r' ∈ rows (setitem c t f df) ↔ ∃ r, r ∈ rows df ∧ r' = <[c := f r]> r.
Proof.
  unfold setitem. cbn [rows]. rewrite list_elem_of_fmap. naive_solver.
Qed.

(** Reads a cell through insertions under other labels. *)
Ltac through_insert :=
  repeat (rewrite at_col_insert;
          match goal with
          | |- context [decide (?a = ?b)] =>
              destruct (decide (a = b)) as [?|_]; [discriminate|]
          end).

Lemma rows_calendario df r' :
  r' ∈ rows (calendario df) →
  ∃ r, r ∈ rows df
    ∧ at_col "data" r' = at_col "data" r
    ∧ at_col "ano" r' = dt_year (at_col "data" r)
    ∧ at_col "mes" r' = dt_month (at_col "data" r)
    ∧ at_col "mes_nome" r' = strftime_b (at_col "data" r)
    ∧ at_col "mes_ano" r' = strftime_Ym (at_col "data" r).
Proof.
  unfold calendario. intros H.
  apply elem_of_rows_setitem in H as (r3 & H & ->).
  apply elem_of_rows_setitem in H as (r2 & H & ->).
  apply elem_of_rows_setitem in H as (r1 & H & ->).
  apply elem_of_rows_setitem in H as (r & H & ->).
  exists r. split; [done|].
  repeat split.
  - by through_insert.
  - through_insert. by rewrite at_col_insert, decide_True.
  - through_insert. rewrite at_col_insert, decide_True by done. by through_insert.
  - through_insert. rewrite at_col_insert, decide_True by done. by through_insert.
  - rewrite at_col_insert, decide_True by done. by through_insert.
Qed.

Lemma month_abbr_valida d :
  data_valida d → ∃ m, m ∈ month_abbr ∧ strftime_b (Ts d) = Txt m.
Proof.
  intros [[H1 H2] _]. unfold strftime_b.
  assert (Hm : month d ∈ [1; 2; 3; 4; 5; 6; 7; 8; 9; 10; 11; 12])
    by (rewrite !elem_of_cons; lia).
  rewrite !elem_of_cons, elem_of_nil in Hm.
  destruct Hm as [->|[->|[->|[->|[->|[->|[->|[->|[->|[->|[->|[->|[]]]]]]]]]]]]];
    eexists; (split; [|reflexivity]); unfold month_abbr;
    rewrite !elem_of_cons; tauto.
Qed.

(** X6. When section 5 derives the calendar columns, in every row [ano],
    [mes], [mes_nome] and [mes_ano] are null together with [data]; where
    [data] is a date, [ano] and [mes] are its year and month, [mes] lies
    between 1 and 12 and [mes_nome] is one of the twelve English
    abbreviations. *)
Theorem X6_calendario (df : DataFrame) :
  has_column "data" df = true →
  has_column "valor" df = true →
  (∀ c, c ∈ values "data" df → ts_of c = None) →
  notna_any (to_datetime <$> values "data" df) = true →
  ∀ r, r ∈ rows (padronizar_dados df).2 →
    match at_col "data" r with
    | Ts d =>
        data_valida d
        ∧ at_col "ano" r = Num (Qc_of_Z (year d))
        ∧ at_col "mes" r = Num (Qc_of_Z (month d))
        ∧ (∃ m, m ∈ month_abbr ∧ at_col "mes_nome" r = Txt m)
        ∧ at_col "mes_ano" r = strftime_Ym (Ts d)
    | _ =>
        at_col "data" r = NaN
        ∧ at_col "ano" r = NaN ∧ at_col "mes" r = NaN
        ∧ at_col "mes_nome" r = NaN ∧ at_col "mes_ano" r = NaN
    end.
Proof.
  intros Hd Hv Hts Hany r Hr.
  pose proof (X5_aux := values_data_padronizado df Hd).
  rewrite padronizar_dados_snd in Hr.
  unfold padronizado in Hr, X5_aux. rewrite Hd in Hr, X5_aux.
  set (d1 := setitem "data" _ _ df) in *.
  assert (Hv1 : has_column "valor" d1 = true).
  { subst d1. rewrite has_column_setitem, Hv. apply orb_true_r. }
  rewrite Hv1 in Hr, X5_aux. cbn zeta in Hr, X5_aux.
  set (d2 := setitem "valor" _ _ d1) in *.
  assert (Hd2 : has_column "data" d2 = true).
  { subst d2 d1. by rewrite !has_column_setitem, Hd, !orb_true_r. }
  assert (Hvals : values "data" d2 = to_datetime <$> values "data" df).
  { subst d2 d1. through_setitem. rewrite values_setitem, decide_True by done.
    unfold values. by rewrite <- list_fmap_compose. }
  rewrite Hd2, Hvals, Hany in Hr. cbn [andb] in Hr.
  apply rows_calendario in Hr as (r0 & Hr0 & E0 & E1 & E2 & E3 & E4).
  assert (Hin : at_col "data" r0 ∈ values "data" d2).
  { unfold values. apply list_elem_of_fmap. by exists r0. }
  rewrite Hvals in Hin. apply list_elem_of_fmap in Hin as (x & Ex & Hx).
  specialize (Hts x Hx).
  rewrite E0, E1, E2, E3, E4, Ex.
  destruct x as [|q|s|d]; cbn; try done.
  destruct (strptime s) as [d|] eqn:E; [|done].
  apply strptime_valida in E as [Hval _].
  repeat split; try apply Hval. by apply month_abbr_valida.
Qed.

(** ** The general statistics *)

Lemma Qc_of_nat_pos n : n ≠ 0%nat → (0 < Qc_of_nat n)%Qc.
Proof.
  intros Hn. unfold Qc_of_nat, Qclt. cbn [this Q2Qc].
  rewrite !Qred_correct. unfold Qlt. cbn. lia.
Qed.











Lemma has_column_setitem_ne c k t f df :
  c ≠ k → has_column c (setitem k t f df) = has_column c df.
Proof.
  intros H. rewrite has_column_setitem.
  by rewrite bool_decide_eq_false_2.
Qed.

Lemma has_column_setitem_same c k t f df :
  has_column c df = true → has_column c (setitem k t f df) = true.
Proof. intros H. rewrite has_column_setitem, H. apply orb_true_r. Qed.

Lemma has_column_calendario c df :
  c ∉ ["ano"; "mes"; "mes_nome"; "mes_ano"] →
  has_column c (calendario df) = has_column c df.
Proof.
  intros Hc. rewrite !elem_of_cons, elem_of_nil in Hc. unfold calendario.
  rewrite !has_column_setitem_ne; [done|..]; intros ->; tauto.
Qed.

Lemma has_column_padronizado c df :
  c ∉ ["ano"; "mes"; "mes_nome"; "mes_ano"] →
  has_column c (padronizado df) = has_column c df.
Proof.
  intros Hc. unfold padronizado.
  set (d1 := if has_column "data" df then _ else df).
  assert (E1 : has_column c d1 = has_column c df).
  { subst d1. destruct (has_column "data" df) eqn:Ed; [|done].
    destruct (decide (c = "data")) as [->|Hne].
    - by rewrite has_column_setitem_same.
    - by rewrite has_column_setitem_ne. }
  destruct (has_column "valor" d1) eqn:Ev; [|done]. cbn zeta.
  set (d2 := setitem "valor" _ _ d1).
  assert (E2 : has_column c d2 = has_column c df).
  { subst d2. destruct (decide (c = "valor")) as [->|Hne].
    - rewrite has_column_setitem_same by done. by rewrite <- E1.
    - by rewrite has_column_setitem_ne. }
  destruct (_ && _); [|done]. by rewrite has_column_calendario.
Qed.

Lemma values_valor_padronizado df :
  has_column "valor" df = true →
  values "valor" (padronizado df) = to_numeric <$> values "valor" df.
Proof.
  intros H. unfold padronizado.
  set (d1 := if has_column "data" df then _ else df).
  assert (H1 : has_column "valor" d1 = true).
  { subst d1. destruct (has_column "data" df); [|done].
    rewrite has_column_setitem, H. apply orb_true_r. }
  assert (E1 : values "valor" d1 = values "valor" df).
  { subst d1. destruct (has_column "data" df); [|done]. by through_setitem. }
  rewrite H1. cbn zeta.
  assert (E : values "valor"
                (setitem "valor" numeric (λ r, to_numeric (at_col "valor" r)) d1)
              = to_numeric <$> values "valor" df).
  { rewrite values_setitem, decide_True by done. rewrite <- E1. unfold values.
    by rewrite <- list_fmap_compose. }
  destruct (_ && _); [|done].
  by rewrite values_calendario
    by (rewrite !elem_of_cons, elem_of_nil; intuition discriminate).
Qed.


Lemma count_negative_le l : (count_negative l ≤ count l)%nat.
Proof. unfold count_negative, count. apply length_filter. Qed.







(** ** Grouping *)

#[local] Instance cell_le_total : Total cell_le.
Proof.
  intros a b. unfold cell_le.
  destruct a as [|p|s|d], b as [|q|t|e]; cbn; auto.
  - rewrite !bool_decide_eq_true.
    destruct (Qclt_le_dec p q); [left; by apply Qclt_le_weak|by right].
  - apply String.leb_total.
  - rewrite !Z.leb_le. lia.
Qed.

Lemma unique_kept {A} `{EqDecision A} (l : list A) : unique l = kept [] l.
Proof. done. Qed.

Lemma elem_of_unique {A} `{EqDecision A} (l : list A) x : x ∈ unique l ↔ x ∈ l.
Proof.
  rewrite unique_kept, elem_of_kept. split; [tauto|].
  intros H0; split; [done|apply not_elem_of_nil].
Qed.

Lemma NoDup_unique {A} `{EqDecision A} (l : list A) : NoDup (unique l).
Proof. rewrite unique_kept. apply NoDup_kept. Qed.

Lemma elem_of_dropna l c : c ∈ dropna l ↔ c ∈ l ∧ c ≠ NaN.
Proof.
  unfold dropna. rewrite list_elem_of_filter. destruct c; cbn; naive_solver.
Qed.

Lemma group_keys_spec c df :
  NoDup (group_keys c df)
  ∧ Sorted cell_le (group_keys c df)
  ∧ ∀ k, k ∈ group_keys c df ↔ k ∈ values c df ∧ k ≠ NaN.
Proof.
  unfold group_keys.
  pose proof (merge_sort_Permutation cell_le (unique (dropna (values c df)))) as HP.
  split; [|split].
  - rewrite HP. apply NoDup_unique.
  - apply (Sorted_merge_sort cell_le).
  - intros k. rewrite HP, elem_of_unique. apply elem_of_dropna.
Qed.


Lemma groupby_fst {B} c v (f : list cell → B) df :
  (groupby c v f df).*1 = group_keys c df.
Proof.
  unfold groupby. rewrite <- list_fmap_compose.
  rewrite <- (list_fmap_id (group_keys c df)) at 2. by apply list_fmap_ext.
Qed.

Lemma filter_all {A} (P : A → Prop) `{∀ x, Decision (P x)} (l : list A) :
  (∀ x, x ∈ l → P x) → filter P l = l.
Proof.
  induction l as [|x l IH]; intros Hx; [done|].
  rewrite filter_cons_True by (apply Hx; left).
  rewrite IH; [done|]. intros y Hy. apply Hx. by right.
Qed.

(** ** The stable sort *)

Section Ordenacao.
Context {A : Type} (le : A → A → bool).
Implicit Types (x y : A) (l : list A).

Lemma insert_by_Permutation x l : insert_by le x l ≡ₚ x :: l.
Proof.
  induction l as [|y l IH]; [done|]. cbn [insert_by].
  destruct (le x y); [done|]. rewrite IH. apply perm_swap.
Qed.

Lemma stable_sort_Permutation l : stable_sort le l ≡ₚ l.
Proof.
  induction l as [|x l IH]; [done|]. cbn [stable_sort foldr].
  fold (stable_sort le l). by rewrite insert_by_Permutation, IH.
Qed.

Lemma length_stable_sort l : length (stable_sort le l) = length l.
Proof. apply Permutation_length, stable_sort_Permutation. Qed.

Lemma elem_of_stable_sort x l : x ∈ stable_sort le l ↔ x ∈ l.
Proof. by rewrite stable_sort_Permutation. Qed.

Hypothesis le_total : ∀ x y, le x y = true ∨ le y x = true.

Lemma insert_by_HdRel x y l :
  le y x = true → HdRel (λ a b, le a b = true) y l →
  HdRel (λ a b, le a b = true) y (insert_by le x l).
Proof.
  intros Hyx Hl. destruct l as [|z l]; [by constructor|].
  cbn [insert_by]. destruct (le x z); constructor; [done|].
  by inversion Hl.
Qed.

Lemma insert_by_Sorted x l :
  Sorted (λ a b, le a b = true) l →
  Sorted (λ a b, le a b = true) (insert_by le x l).
Proof.
  induction 1 as [|y l Hl IH Hy]; [repeat constructor|].
  cbn [insert_by]. destruct (le x y) eqn:E.
  - constructor; [by constructor|]. by constructor.
  - constructor; [done|]. apply insert_by_HdRel; [|done].
    destruct (le_total x y); congruence.
Qed.

Lemma stable_sort_Sorted l : Sorted (λ a b, le a b = true) (stable_sort le l).
Proof.
  induction l as [|x l IH]; [constructor|].
  cbn [stable_sort foldr]. by apply insert_by_Sorted.
Qed.

Hypothesis le_trans : ∀ x y z, le x y = true → le y z = true → le x z = true.

Lemma insert_by_sorted x l :
  StronglySorted (λ a b, le a b = true) l →
  StronglySorted (λ a b, le a b = true) (insert_by le x l).
Proof.
  induction 1 as [|y l Hl IH Hy]; [repeat constructor|].
  cbn [insert_by]. destruct (le x y) eqn:E.
  - constructor; [by constructor|]. constructor; [done|].
    eapply Forall_impl; [exact Hy|]. intros z Hz. by eapply le_trans.
  - constructor; [done|].
    rewrite (insert_by_Permutation x l). constructor; [|done].
    destruct (le_total x y); congruence.
Qed.

Lemma stable_sort_sorted l :
  StronglySorted (λ a b, le a b = true) (stable_sort le l).
Proof.
  induction l as [|x l IH]; [constructor|].
  cbn [stable_sort foldr]. by apply insert_by_sorted.
Qed.

End Ordenacao.

Lemma StronglySorted_weaken {A} (R R' : relation A) l :
  (∀ a b, R a b → R' a b) → StronglySorted R l → StronglySorted R' l.
Proof.
  intros HR. induction 1 as [|x l Hl IH Hx]; constructor; [done|].
  eapply Forall_impl; [exact Hx|]. intros y. apply HR.
Qed.

(** Elements that the order does not tell apart stay in the order they came
    in: the sort moves none of them past another. *)
Lemma insert_by_stable {A} (le : A → A → bool) (P : A → Prop)
    `{∀ x, Decision (P x)} x l :
  (∀ y, P x → P y → le x y = true) →
  filter P (insert_by le x l) = filter P (x :: l).
Proof.
  intros Hle. induction l as [|y l IH]; [done|].
  cbn [insert_by]. destruct (le x y) eqn:E; [done|].
  rewrite filter_cons, IH, !filter_cons.
  destruct (decide (P x)) as [Hx|Hx]; [|done].
  destruct (decide (P y)) as [Hy|Hy]; [|done].
  rewrite Hle in E by done. discriminate.
Qed.

Lemma stable_sort_stable {A} (le : A → A → bool) (P : A → Prop)
    `{∀ x, Decision (P x)} l :
  (∀ x y, P x → P y → le x y = true) →
  filter P (stable_sort le l) = filter P l.
Proof.
  intros Hle. induction l as [|x l IH]; [done|].
  cbn [stable_sort foldr]. fold (stable_sort le l).
  rewrite insert_by_stable by (intros y; apply Hle).
  by rewrite !filter_cons, IH.
Qed.

(** ** The rankings *)

Lemma ge_value_total {K} (a b : K * Qc) :
  bool_decide (ge_value a b) = true ∨ bool_decide (ge_value b a) = true.
Proof.
  rewrite !bool_decide_eq_true. unfold ge_value.
  destruct (Qclt_le_dec a.2 b.2); [right; by apply Qclt_le_weak|by left].
Qed.

Lemma ge_value_trans {K} (a b c : K * Qc) :
  bool_decide (ge_value a b) = true → bool_decide (ge_value b c) = true →
  bool_decide (ge_value a c) = true.
Proof.
  rewrite !bool_decide_eq_true. unfold ge_value. intros H1 H2.
  by eapply Qcle_trans.
Qed.

Lemma with_value_series {K} (s : list (K * Qc)) : with_value (series s) = s.
Proof.
  unfold with_value, series. induction s as [|[k v] s IH]; [done|].
  cbn. by rewrite IH.
Qed.

Lemma without_value_series {K} (s : list (K * Qc)) :
  without_value (series s) = [].
Proof.
  unfold without_value, series. induction s as [|[k v] s IH]; [done|].
  rewrite fmap_cons, filter_cons_False by done. exact IH.
Qed.

Lemma length_with_without {K} (s : list (K * option Qc)) :
  (length (with_value s) + length (without_value s))%nat = length s.
Proof.
  unfold with_value, without_value. induction s as [|[k [v|]] s IH]; [done| |].
  - rewrite filter_cons_False by done. cbn. cbn in IH. lia.
  - rewrite filter_cons_True by done. cbn. cbn in IH. lia.
Qed.

Lemma elem_of_with_value {K} (s : list (K * option Qc)) k v :
  (k, v) ∈ with_value s ↔ (k, Some v) ∈ s.
Proof.
  unfold with_value. rewrite list_elem_of_omap. split.
  - intros ([k' o] & Hin & Heq). cbn in Heq.
    destruct o as [m'|]; cbn in Heq; [|done]. by injection Heq as -> ->.
  - intros Hin. by exists (k, Some v).
Qed.

Lemma elem_of_without_value {K} (s : list (K * option Qc)) p :
  p ∈ without_value s ↔ p ∈ s ∧ p.2 = None.
Proof. unfold without_value. rewrite list_elem_of_filter. tauto. Qed.

(** What [nlargest] returns: the first [n] of the numbers in descending
    order, equal ones in the order of the series, and then, if all the
    numbers are in, the first nulls of the series. *)
Lemma nlargest_spec {K} (n : nat) (s : list (K * option Qc)) :
  ∃ r nulos rest,
    nlargest n s = series r ++ nulos
    ∧ length (nlargest n s) = Nat.min n (length s)
    ∧ StronglySorted ge_value r
    ∧ r ++ rest ≡ₚ with_value s
    ∧ (∀ x y, x ∈ r → y ∈ rest → (y.2 <= x.2)%Qc)
    ∧ (∀ v, filter (λ p, p.2 = v) (r ++ rest)
            = filter (λ p, p.2 = v) (with_value s))
    ∧ nulos `prefix_of` without_value s
    ∧ (nulos ≠ [] → rest = []).
Proof.
  unfold nlargest.
  set (le := λ a b : K * Qc, bool_decide (ge_value a b)).
  set (l := stable_sort le (with_value s)).
  assert (HS : StronglySorted ge_value l).
  { eapply StronglySorted_weaken; [|apply (stable_sort_sorted le)].
    - intros a b. unfold le. by rewrite bool_decide_eq_true.
    - intros a b. apply ge_value_total.
    - intros a b c. apply ge_value_trans. }
  exists (take n l), (take (n - length l) (without_value s)), (drop n l).
  rewrite take_drop. split; [|split; [|split; [|split; [|split; [|split; [|split]]]]]].
  - rewrite take_app. unfold series. by rewrite fmap_take, length_fmap.
  - rewrite length_take, length_app. unfold series at 1. rewrite length_fmap.
    unfold l. rewrite length_stable_sort. pose proof (length_with_without s). lia.
  - rewrite <- (take_drop n l) in HS. by apply StronglySorted_app_1_l in HS.
  - apply stable_sort_Permutation.
  - rewrite <- (take_drop n l) in HS.
    intros x y Hx Hy. by apply (StronglySorted_app_1_elem_of _ _ _ x y HS).
  - intros v. apply stable_sort_stable. intros x y Hx Hy.
    unfold le. rewrite bool_decide_eq_true. unfold ge_value.
    cbn beta in Hx, Hy. rewrite Hx, Hy. apply Qcle_refl.
  - apply prefix_take.
  - intros Hn. apply drop_ge.
    destruct (decide (length l ≤ n)%nat); [done|].
    exfalso. apply Hn. replace (n - length l)%nat with 0%nat by lia. done.
Qed.

Lemma elem_of_tendencias_top df t :
  TopAnos t ∈ calcular_tendencias df →
  has_column "valor" df = true ∧ has_column "ano" df = true
  ∧ t = nlargest 5 (series (soma_por_ano df)).
Proof.
  unfold calcular_tendencias.
  rewrite elem_of_cons. intros [?|H]; [done|].
  destruct (has_column "valor" df); [|by apply elem_of_nil in H].
  destruct (has_column "ano" df); [|by apply elem_of_nil in H].
  cbn [andb] in H. split; [done|]. split; [done|].
  rewrite !elem_of_app in H. destruct H as [H|[H|H]].
  - exfalso. case_bool_decide; [|by apply elem_of_nil in H].
    rewrite elem_of_app, elem_of_cons, list_elem_of_fmap in H.
    destruct H as [H|[H|(? & H & _)]]; [|done|done].
    destruct (crescimento_total df) as [[[??]?]|];
      rewrite ?elem_of_cons, ?elem_of_nil in H; naive_solver.
  - rewrite elem_of_cons, elem_of_nil in H. naive_solver.
  - exfalso. destruct (has_column "mes_nome" df);
      rewrite ?elem_of_cons, ?elem_of_nil in H; naive_solver.
Qed.

Lemma elem_of_groupby {B} c v (f : list cell → B) df k x :
  (k, x) ∈ groupby c v f df ↔
  k ∈ values c df ∧ k ≠ NaN ∧ x = f (at_col v <$> group c k df).
Proof.
  unfold groupby. rewrite list_elem_of_fmap. split.
  - intros (k' & [= -> ->] & Hk). apply group_keys_spec in Hk as [? ?]. done.
  - intros (H1 & H2 & ->). exists k. split; [done|]. by apply group_keys_spec.
Qed.

Lemma length_groupby {B} c v (f : list cell → B) df :
  length (groupby c v f df) = nunique (values c df).
Proof.
  unfold groupby, group_keys, nunique.
  rewrite length_fmap. apply Permutation_length, merge_sort_Permutation.
Qed.

(** X9. For a table typed as section 5 leaves it and whose years can be
    sorted, the ranking of years printed by section 7 has five lines, or a
    line for each year if they are fewer; each line is a year of the table
    with the sum of its group, and the sums run in descending order; no year
    left out has a greater sum than a year listed; and years of equal sum
    stand in ascending order of the year, the earlier ones listed first. *)
Theorem X9_top_anos (df : DataFrame) (t : list (cell * option Qc)) :
  padronizada df →
  comparavel "ano" df →
  TopAnos t ∈ calcular_tendencias df →
  ∃ r rest,
    t = series r
    ∧ length t = Nat.min 5 (nunique (values "ano" df))
    ∧ StronglySorted ge_value r
    ∧ (∀ k v, (k, v) ∈ r →
         k ∈ values "ano" df ∧ k ≠ NaN
         ∧ v = group_sum (at_col "valor" <$> group "ano" k df))
    ∧ r ++ rest ≡ₚ soma_por_ano df
    ∧ (∀ x y, x ∈ r → y ∈ rest → (y.2 <= x.2)%Qc)
    ∧ (∀ v, filter (λ p, p.2 = v) (r ++ rest)
            = filter (λ p, p.2 = v) (soma_por_ano df)).
Proof.
  intros _ _ H. apply elem_of_tendencias_top in H as (_ & _ & ->).
  destruct (nlargest_spec 5 (series (soma_por_ano df)))
    as (r & nulos & rest & E & HL & HS & HP & Hr & Hst & Hn & _).
  rewrite with_value_series in HP, Hst. rewrite without_value_series in Hn.
  apply prefix_nil_inv in Hn. subst nulos. rewrite app_nil_r in E.
  exists r, rest. split; [done|].
  split.
  { rewrite HL. unfold series. by rewrite length_fmap, length_soma_por_ano. }
  split; [done|]. split; [|done].
  intros k v Hkv. unfold soma_por_ano in HP.
  apply (elem_of_groupby "ano" "valor" group_sum df).
  rewrite <- HP. apply elem_of_app. by left.
Qed.

Lemma elem_of_tendencias_top_meses df t :
  TopMeses t ∈ calcular_tendencias df →
  t = nlargest 3 (media_por_mes df).
Proof.
  unfold calcular_tendencias.
  rewrite elem_of_cons. intros [?|H]; [done|].
  destruct (has_column "valor" df && has_column "ano" df);
    [|by apply elem_of_nil in H].
  rewrite !elem_of_app in H. destruct H as [H|[H|H]].
  - exfalso. case_bool_decide; [|by apply elem_of_nil in H].
    rewrite elem_of_app, elem_of_cons, list_elem_of_fmap in H.
    destruct H as [H|[H|(? & H & _)]]; [|done|done].
    destruct (crescimento_total df) as [[[??]?]|];
      rewrite ?elem_of_cons, ?elem_of_nil in H; naive_solver.
  - exfalso. destruct (has_column "ano" df);
      rewrite ?elem_of_cons, ?elem_of_nil in H; naive_solver.
  - destruct (has_column "mes_nome" df);
      rewrite ?elem_of_cons, ?elem_of_nil in H; naive_solver.
Qed.

(** X10. For a table typed as section 5 leaves it and whose month names
    can be sorted, the ranking of months printed by section 7 has three
    lines, or a line for each month name if they are fewer.  The months that
    have a mean come first, in descending order of the mean, each with the
    mean of its group, and no month left out has a greater mean than one
    listed; a month with no value, whose mean is null, is listed only after
    all those that have one. *)
Theorem X10_top_meses (df : DataFrame) (t : list (cell * option Qc)) :
  padronizada df →
  comparavel "mes_nome" df →
  TopMeses t ∈ calcular_tendencias df →
  ∃ r nulos rest,
    t = series r ++ nulos
    ∧ length t = Nat.min 3 (nunique (values "mes_nome" df))
    ∧ StronglySorted ge_value r
    ∧ (∀ k m, (k, m) ∈ r ++ rest ↔
         k ∈ values "mes_nome" df ∧ k ≠ NaN
         ∧ group_mean (at_col "valor" <$> group "mes_nome" k df) = Some m)
    ∧ (∀ x y, x ∈ r → y ∈ rest → (y.2 <= x.2)%Qc)
    ∧ (∀ p, p ∈ nulos →
         p.1 ∈ values "mes_nome" df ∧ p.1 ≠ NaN ∧ p.2 = None
         ∧ group_mean (at_col "valor" <$> group "mes_nome" p.1 df) = None)
    ∧ (nulos ≠ [] → rest = []).
Proof.
  intros _ _ H. apply elem_of_tendencias_top_meses in H as ->.
  destruct (nlargest_spec 3 (media_por_mes df))
    as (r & nulos & rest & E & HL & HS & HP & Hr & _ & Hn & Hrest).
  exists r, nulos, rest. split; [done|].
  split; [rewrite HL; unfold media_por_mes; by rewrite length_groupby|].
  split; [done|]. split.
  { intros k m. rewrite HP, elem_of_with_value. unfold media_por_mes.
    rewrite elem_of_groupby. split; [intros (? & ? & ?)|intros (? & ? & ?)]; done. }
  split; [done|]. split; [|done].
  intros [k o] Hp.
  assert (Hin : (k, o) ∈ without_value (media_por_mes df)).
  { destruct Hn as [z ->]. apply elem_of_app. by left. }
  apply elem_of_without_value in Hin as [Hin Ho]. cbn [fst snd] in *. subst o.
  unfold media_por_mes in Hin. apply elem_of_groupby in Hin as (? & ? & ?).
  done.
Qed.

(** ** The processed-data writer *)

Lemma Sorted_weaken {A} (R R' : relation A) l :
  (∀ a b, R a b → R' a b) → Sorted R l → Sorted R' l.
Proof.
  intros HR. induction 1 as [|x l Hl IH Hx]; constructor; [done|].
  destruct Hx; constructor. by apply HR.
Qed.

Lemma sort_values_spec c df :
  columns (sort_values c df) = columns df
  ∧ rows (sort_values c df) ≡ₚ rows df
  ∧ Sorted (le_at c) (rows (sort_values c df)).
Proof.
  split; [done|]. split; [apply stable_sort_Permutation|].
  eapply Sorted_weaken; [|apply stable_sort_Sorted].
  - intros a b. by rewrite bool_decide_eq_true.
  - intros a b. rewrite !bool_decide_eq_true. unfold le_at.
    apply cell_le_total.
Qed.

Lemma gravacoes_app t1 t2 : gravacoes (t1 ++ t2) = gravacoes t1 ++ gravacoes t2.
Proof. unfold gravacoes. apply omap_app. Qed.

(** X11. For a table whose [data] holds timestamps and nulls, section 8
    writes one table: the columns of the frame and all its rows, each exactly
    once, in ascending order of [data] with the nulls last when there is a
    [data] column, in the order of the frame otherwise.  It attempts to write
    that table to the CSV file and then, if the CSV file was written and the
    other path is one of a spreadsheet, to the spreadsheet, and nothing else;
    it returns that table when both were written and nothing otherwise. *)
Theorem X11_salvar_arquivo (amb : ambiente) (df : DataFrame) (o : string) :
  forallb data_ou_nulo (values "data" df) = true →
  let x := Str.replace ".csv" ".xlsx" o in
  ∃ d,
    columns d = columns df
    ∧ rows d ≡ₚ rows df
    ∧ (has_column "data" df = true → Sorted (le_at "data") (rows d))
    ∧ (has_column "data" df = false → d = df)
    ∧ gravacoes (salvar_arquivo amb df o).1
      = (o, Tabela (to_table d), grava amb o)
          :: (if grava amb o && planilha x
              then [(x, Tabela (to_table d), grava amb x)] else [])
    ∧ (salvar_arquivo amb df o).2
      = (if grava amb o && planilha x && grava amb x then Some d else None).
Proof.
  intros _ x. subst x.
  exists (if has_column "data" df then sort_values "data" df else df).
  destruct (sort_values_spec "data" df) as (H1 & H2 & H3).
  split; [by destruct (has_column "data" df)|].
  split; [by destruct (has_column "data" df)|].
  split; [by intros ->|].
  split; [by intros ->|].
  unfold salvar_arquivo, to_excel, escreve.
  set (d := if has_column "data" df then _ else df).
  destruct (grava amb o); cbn [andb fst snd];
    [destruct (planilha (Str.replace ".csv" ".xlsx" o)); cbn [andb fst snd];
       [destruct (grava amb (Str.replace ".csv" ".xlsx" o)); cbn [fst snd]|]|];
    done.
Qed.

(** ** The statistics export *)

Lemma montar_estatisticas_Ok d :
  is_Some (match montar_estatisticas d with Ok x => Some x | Raise _ => None end)
  ↔ has_column "ano" d && has_column "valor" d && has_column "mes_nome" d = true.
Proof.
  unfold montar_estatisticas, getitem.
  destruct (has_column "ano" d); cbn [mbind result_bind andb];
    [|split; [by intros [? ?]|done]].
  destruct (has_column "valor" d); cbn [mbind result_bind andb];
    [|split; [by intros [? ?]|done]].
  destruct (has_column "mes_nome" d); cbn [mbind result_bind andb];
    [|split; [by intros [? ?]|done]].
  split; [done|by eexists].
Qed.

(** X12. Given nothing, or a frame whose [valor] holds numbers and nulls
    and whose years and month names can be sorted, the statistics export
    attempts a write only for a frame with a row and the columns [ano],
    [valor] and [mes_nome]; it then attempts the file by year and, only if
    that was written, the file by month; it writes nowhere else, returns its
    two tables exactly when both files were written, and leaves the frame as
    it was. *)
Theorem X12_exportar_estatisticas (amb : ambiente) (df : option DataFrame)
    (o : string) :
  (∀ d, df = Some d →
        valor_numerico d ∧ comparavel "ano" d ∧ comparavel "mes_nome" d) →
  let a := Str.replace ".csv" "_estatisticas_ano.csv" o in
  let m := Str.replace ".csv" "_estatisticas_mes.csv" o in
  let x := exportar_estatisticas_detalhadas amb df o in
  escritas x.1.1
  = (if exportavel df
     then (a, grava amb a) :: (if grava amb a then [(m, grava amb m)] else [])
     else [])
  ∧ (is_Some x.2 ↔
     exportavel df = true ∧ grava amb a = true ∧ grava amb m = true)
  ∧ x.1.2 = df.
Proof.
  intros _ a m x. subst a m x.
  unfold exportar_estatisticas_detalhadas, exportavel, escreve.
  destruct df as [d|]; cbn [fst snd];
    [|split; [done|split; [|done]]; split; [by intros [? ?]|by intros [? _]]].
  destruct (empty d); cbn [negb andb fst snd];
    [split; [done|split; [|done]]; split; [by intros [? ?]|by intros [? _]]|].
  pose proof (montar_estatisticas_Ok d) as HM.
  destruct (montar_estatisticas d) as [[sa sm]|e].
  - assert (E : has_column "ano" d && has_column "valor" d
                && has_column "mes_nome" d = true) by (apply HM; by eexists).
    rewrite E.
    destruct (grava amb (Str.replace ".csv" "_estatisticas_ano.csv" o));
      [destruct (grava amb (Str.replace ".csv" "_estatisticas_mes.csv" o))|];
      cbn [fst snd]; (split; [done|split; [|done]]);
      (split; [first [by intros [? ?] | done]
              |first [by intros (_ & ? & ?) | by eexists]]).
  - destruct (has_column "ano" d && has_column "valor" d
              && has_column "mes_nome" d) eqn:E.
    + destruct (proj2 HM eq_refl) as [? ?]. done.
    + cbn [fst snd]. split; [done|split; [|done]].
      split; [by intros [? ?]|by intros [? _]].
Qed.

(** ** The report *)

Lemma mapM_decada_numerico l :
  match mapM decada l with
  | Ok _ =>
      forallb (λ c, match c with Txt _ | Ts _ => false | _ => true end) l = true
  | Raise e =>
      e = TypeError
      ∧ forallb (λ c, match c with Txt _ | Ts _ => false | _ => true end) l
        = false
  end.
Proof.
  induction l as [|c l IH]; [done|].
  cbn [mapM forallb]. destruct c as [|q|s|d]; cbn [decada mbind result_bind];
    try done; destruct (mapM decada l); cbn [mbind result_bind mret result_ret andb];
    done.
Qed.

Lemma forallb_unique {A} `{EqDecision A} (f : A → bool) (l : list A) :
  forallb f l = true → forallb f (unique l) = true.
Proof.
  rewrite !forallb_forall. intros H x Hx. apply H.
  apply list_elem_of_In. apply list_elem_of_In in Hx. by apply (elem_of_unique l).
Qed.

(** Years that are numbers and nulls are of one kind. *)
Lemma ano_numerico_ordenaveis d : ano_numerico d = true → anos_ordenaveis d = true.
Proof.
  unfold ano_numerico, anos_ordenaveis. intros H. apply bool_decide_eq_true.
  apply forallb_unique in H.
  destruct (unique (values "ano" d)) as [|c l]; [done|].
  cbn [sorted_ok forallb] in *. apply andb_true_iff in H as [Hc Hl].
  assert (E : forallb (λ x, bool_decide (especie_de (dtype_of "ano" d) x
                                         = especie_de (dtype_of "ano" d) c)) l
              = true).
  { rewrite forallb_forall in Hl. apply forallb_forall. intros x Hx.
    specialize (Hl x Hx). apply bool_decide_eq_true.
    destruct (dtype_of "ano" d); [done| |done].
    by destruct x, c. }
  by rewrite E.
Qed.

(** X13. On a frame with a row, typed as section 5 leaves it and whose
    month names can be sorted, the report generation raises [KeyError] for
    the first of [data], [ano], [mes_ano] and [valor] that the frame lacks;
    then [TypeError] when the years are not of one kind; then [KeyError] when
    [mes_nome] is lacking; then [TypeError] when [ano] holds a text or a
    timestamp; and nothing else.  A raise leaves the frame as it was and
    attempts no write.  Otherwise the report is returned, whether or not its
    file could be written, after one attempt to write it and nothing else,
    and the frame has the column [decada]. *)
Theorem X13_gerar_relatorio (amb : ambiente) (d : DataFrame) (o : string) :
  empty d = false →
  padronizada d →
  comparavel "mes_nome" d →
  let g := gerar_relatorio_completo amb (Some d) o in
  let nome := Str.replace ".csv" "_relatorio.txt" o in
  match ausente colunas_do_cabecalho d with
  | Some c => g = ([], Some d, Raise (KeyError c))
  | None =>
      if negb (anos_ordenaveis d) then g = ([], Some d, Raise TypeError)
      else if negb (has_column "mes_nome" d)
      then g = ([], Some d, Raise (KeyError "mes_nome"))
      else if negb (ano_numerico d) then g = ([], Some d, Raise TypeError)
      else ∃ rel d',
             g.2 = Ok (Some rel)
             ∧ gravacoes g.1.1 = [(nome, Texto rel, grava amb nome)]
             ∧ g.1.2 = Some d'
             ∧ has_column "decada" d' = true
  end.
Proof.
  intros He _ _ g nome. subst g nome.
  unfold gerar_relatorio_completo. rewrite He.
  unfold ausente, colunas_do_cabecalho, anos_ordenaveis, ano_numerico.
  unfold montar_relatorio, getitem.
  rewrite !filter_cons, filter_nil.
  destruct (has_column "data" d); cbn [mbind result_bind]; [|done].
  rewrite decide_False by done.
  destruct (has_column "ano" d); cbn [mbind result_bind]; [|done].
  rewrite decide_False by done.
  destruct (has_column "mes_ano" d); cbn [mbind result_bind]; [|done].
  rewrite decide_False by done.
  destruct (has_column "valor" d); cbn [mbind result_bind]; [|done].
  rewrite decide_False by done. cbn [head].
  destruct (sorted_ok _ _) as [[]|e] eqn:Es; cbn [mbind result_bind].
  2:{ rewrite bool_decide_eq_false_2 by done. cbn [negb].
      unfold sorted_ok in Es. destruct (unique _); [done|].
      destruct (forallb _ _); [done|]. by injection Es as <-. }
  rewrite bool_decide_eq_true_2 by done. cbn [negb].
  destruct (has_column "mes_nome" d); cbn [mbind result_bind negb]; [|done].
  pose proof (mapM_decada_numerico (values "ano" d)) as HM.
  destruct (mapM decada (values "ano" d)) as [l|e]; cbn [mbind result_bind].
  - rewrite HM. cbn [negb]. unfold escreve.
    destruct (grava amb _); cbn [fst snd]; eexists _, _;
      (split; [reflexivity|]); (split; [reflexivity|]);
      (split; [reflexivity|]); cbn [fst snd];
      rewrite has_column_setitem; by rewrite bool_decide_eq_true_2.
  - destruct HM as [-> ->]. done.
Qed.

(** ** The order of the writes *)

Lemma escritas_fora_nenhum t : escritas_fora [] t = escritas t.
Proof.
  unfold escritas_fora. apply filter_all. intros x _. apply not_elem_of_nil.
Qed.

Lemma escritas_gerar amb df o :
  let g := gerar_relatorio_completo amb df o in
  (escritas g.1.1 = [] ∧ (is_Some (match g.2 with Ok r => Some r | _ => None end)
                          → exportavel g.1.2 = false))
  ∨ ∃ b, escritas g.1.1 = [(Str.replace ".csv" "_relatorio.txt" o, b)].
Proof.
  cbn zeta. unfold gerar_relatorio_completo, exportavel.
  destruct df as [d|]; [|by left].
  destruct (empty d) eqn:He; [left; cbn [fst snd]; by rewrite He|].
  destruct (montar_relatorio d) as [[d' rel]|e]; [|left; split; [done|by intros [? ?]]].
  right. unfold escreve. destruct (grava amb _); by eexists.
Qed.

Lemma escritas_exportar amb df o :
  let x := exportar_estatisticas_detalhadas amb df o in
  let a := Str.replace ".csv" "_estatisticas_ano.csv" o in
  let m := Str.replace ".csv" "_estatisticas_mes.csv" o in
  (exportavel df = false → escritas x.1.1 = [])
  ∧ ((escritas x.1.1).*1 = [] ∨ (escritas x.1.1).*1 = [a]
     ∨ (escritas x.1.1).*1 = [a; m]).
Proof.
  cbn zeta. unfold exportar_estatisticas_detalhadas, exportavel, escreve.
  destruct df as [d|]; [|by split; [|left]].
  destruct (empty d); cbn [negb andb]; [by split; [|left]|].
  pose proof (montar_estatisticas_Ok d) as HM.
  destruct (montar_estatisticas d) as [[sa sm]|e]; [|by split; [|left]].
  assert (E : has_column "ano" d && has_column "valor" d
              && has_column "mes_nome" d = true) by (apply HM; by eexists).
  rewrite E. split; [done|].
  destruct (grava amb (Str.replace ".csv" "_estatisticas_ano.csv" o));
    [destruct (grava amb (Str.replace ".csv" "_estatisticas_mes.csv" o))|];
    cbn; auto.
Qed.

Lemma processar_Some_ler amb i o :
  is_Some (processar_dados amb i o).2 → ∃ df, ler_dados amb i = Ok df.
Proof.
  unfold processar_dados. destruct (ler_dados amb i) as [df|e]; [by eexists|].
  destruct e; by intros [? ?].
Qed.

Lemma planilha_ARQUIVO_EXCEL : planilha ARQUIVO_EXCEL = true.
Proof. by vm_compute. Qed.

(** X14. A run of [main] attempts its writes in a fixed order and each at
    most once: the processed CSV, the spreadsheet, the report, the statistics
    by year, the statistics by month.  The paths attempted are always a
    prefix of this list; nothing else is ever written. *)
Theorem X14_ordem_das_escritas (amb : ambiente) :
  (escritas (main amb).1).*1
  `prefix_of` [ARQUIVO_SAIDA; ARQUIVO_EXCEL; ARQUIVO_RELATORIO;
               ARQUIVO_STATS_ANO; ARQUIVO_STATS_MES].
Proof.
  rewrite <- escritas_fora_nenhum, escritas_fora_main, !escritas_fora_nenhum.
  pose proof (escritas_processar_dados amb ARQUIVO_ENTRADA ARQUIVO_SAIDA) as Hp.
  cbn zeta in Hp. fold ARQUIVO_EXCEL in Hp.
  rewrite planilha_ARQUIVO_EXCEL, andb_true_r in Hp. destruct Hp as [Hp Hs].
  set (p := processar_dados amb ARQUIVO_ENTRADA ARQUIVO_SAIDA) in *.
  destruct (p.2) as [d|] eqn:Ed.
  - destruct Hs as (H1 & _ & H2); [by eexists|].
    rewrite Hp.
    destruct (processar_Some_ler amb ARQUIVO_ENTRADA ARQUIVO_SAIDA) as [df0 ->];
      [fold p; rewrite Ed; by eexists|].
    rewrite H1, H2.
    set (g := gerar_relatorio_completo amb (Some d) ARQUIVO_SAIDA).
    destruct (escritas_gerar amb (Some d) ARQUIVO_SAIDA) as [[Hg Hx]|[b Hg]];
      fold g in Hg; try fold g in Hx; rewrite Hg.
    + destruct (g.2) as [r|e] eqn:Er.
      * destruct (escritas_exportar amb g.1.2 ARQUIVO_SAIDA) as [Hx1 _].
        rewrite Hx1 by (apply Hx; by eexists).
        by exists [ARQUIVO_RELATORIO; ARQUIVO_STATS_ANO; ARQUIVO_STATS_MES].
      * by exists [ARQUIVO_RELATORIO; ARQUIVO_STATS_ANO; ARQUIVO_STATS_MES].
    + destruct (g.2) as [r|e] eqn:Er.
      * destruct (escritas_exportar amb g.1.2 ARQUIVO_SAIDA) as [_ Hx2].
        rewrite !fmap_app. cbn [fmap list_fmap fst].
        destruct Hx2 as [-> | [-> | ->]].
        -- by exists [ARQUIVO_STATS_ANO; ARQUIVO_STATS_MES].
        -- by exists [ARQUIVO_STATS_MES].
        -- by exists [].
      * by exists [ARQUIVO_STATS_ANO; ARQUIVO_STATS_MES].
  - rewrite Hp, app_nil_r. destruct (ler_dados amb ARQUIVO_ENTRADA);
      [|by eexists].
    destruct (grava amb ARQUIVO_SAIDA).
    + by exists [ARQUIVO_RELATORIO; ARQUIVO_STATS_ANO; ARQUIVO_STATS_MES].
    + by exists [ARQUIVO_EXCEL; ARQUIVO_RELATORIO; ARQUIVO_STATS_ANO;
                 ARQUIVO_STATS_MES].
Qed.

(** ** [formatar_tabela] *)

Lemma length_append_str (a b : string) :
  String.length (a +:+ b) = (String.length a + String.length b)%nat.
Proof.
  induction a as [|c a IH]; [done|].
  change (String c a +:+ b) with (String c (a +:+ b)).
  cbn [String.length]. by rewrite IH.
Qed.

Lemma length_of_chars l : String.length (Str.of_chars l) = length l.
Proof.
  unfold Str.of_chars. induction l as [|c l IH]; [done|].
  cbn [string_of_list_ascii String.length length]. by rewrite IH.
Qed.

Lemma chars_append (a b : string) :
  Str.chars (a +:+ b) = Str.chars a ++ Str.chars b.
Proof.
  induction a as [|c a IH]; [done|].
  change (String c a +:+ b) with (String c (a +:+ b)).
  cbn [Str.chars list_ascii_of_string app]. unfold Str.chars in IH. by rewrite IH.
Qed.

Lemma length_ljust w s :
  String.length (ljust w s) = Nat.max w (String.length s).
Proof.
  unfold ljust. rewrite length_append_str, length_of_chars, length_replicate. lia.
Qed.

Lemma join_cons sep x y l :
  Str.join sep (x :: y :: l) = x +:+ sep +:+ Str.join sep (y :: l).
Proof. done. Qed.

Lemma length_join sep l :
  String.length (Str.join sep l)
  = (sum_list (String.length <$> l) + String.length sep * (length l - 1))%nat.
Proof.
  induction l as [|x [|y l] IH].
  - unfold Str.join. cbn [String.concat fmap list_fmap sum_list_with length].
    change (String.length "") with 0%nat. lia.
  - unfold Str.join.
    cbn [String.concat fmap list_fmap sum_list_with length id]. lia.
  - rewrite join_cons, !length_append_str, IH.
    cbn [fmap list_fmap sum_list_with length id]. lia.
Qed.

Lemma split_chars_app sep cur l rest :
  sep ∉ l →
  Str.split_chars sep cur (l ++ rest)
  = Str.split_chars sep (reverse l ++ cur) rest.
Proof.
  revert cur. induction l as [|a l IH]; intros cur Hl; [done|].
  apply not_elem_of_cons in Hl as [Hne Hl].
  cbn [app Str.split_chars].
  destruct (Ascii.eqb_spec a sep) as [->|_]; [done|].
  rewrite IH by done. by rewrite reverse_cons, <- app_assoc.
Qed.

Lemma split_join sep (L : list string) :
  L ≠ [] →
  (∀ l, l ∈ L → sep ∉ Str.chars l) →
  Str.split sep (Str.join (String sep "") L) = L.
Proof.
  unfold Str.split. intros Hne HL.
  induction L as [|x [|y L] IH]; [done| |].
  - unfold Str.join. cbn [String.concat].
    rewrite <- (app_nil_r (Str.chars x)), split_chars_app by (apply HL; left).
    cbn [Str.split_chars fmap list_fmap].
    by rewrite app_nil_r, reverse_involutive, of_chars_chars.
  - rewrite join_cons, chars_append, split_chars_app by (apply HL; left).
    rewrite chars_append. cbn [Str.chars list_ascii_of_string app Str.split_chars].
    rewrite Ascii.eqb_refl. rewrite fmap_cons.
    rewrite app_nil_r, reverse_involutive, of_chars_chars. f_equal.
    apply IH; [done|]. intros l Hl. apply HL. by right.
Qed.

Lemma sem_LF_append a b : sem_LF a → sem_LF b → sem_LF (a +:+ b).
Proof. unfold sem_LF. rewrite chars_append, elem_of_app. tauto. Qed.

Lemma sem_LF_replicate n c : c ≠ "010"%char → sem_LF (Str.of_chars (replicate n c)).
Proof.
  unfold sem_LF. rewrite chars_of_chars. intros Hc Hin.
  by apply elem_of_replicate in Hin as [? _].
Qed.

Lemma sem_LF_ljust w s : sem_LF s → sem_LF (ljust w s).
Proof. intros H. apply sem_LF_append; [done|by apply sem_LF_replicate]. Qed.

Lemma sem_LF_join sep l :
  sem_LF sep → (∀ x, x ∈ l → sem_LF x) → sem_LF (Str.join sep l).
Proof.
  intros Hs. induction l as [|x [|y l] IH]; intros Hl.
  - unfold sem_LF. apply not_elem_of_nil.
  - apply Hl. left.
  - rewrite join_cons. apply sem_LF_append; [apply Hl; left|].
    apply sem_LF_append; [done|]. apply IH. intros z Hz. apply Hl. by right.
Qed.

Lemma sum_list_fmap_ext {A} (f g : A → nat) l :
  (∀ x, x ∈ l → f x = g x) → sum_list (f <$> l) = sum_list (g <$> l).
Proof.
  induction l as [|x l IH]; intros H; [done|].
  cbn [fmap list_fmap sum_list_with]. rewrite (H x) by left.
  f_equal. apply IH. intros y Hy. apply H. by right.
Qed.

Lemma length_linha (w : string → nat) (t : string → string) cols :
  (∀ c, c ∈ cols → String.length (t c) ≤ w c)%nat →
  String.length (Str.join "  " ((λ c, ljust (w c) (t c)) <$> cols))
  = (sum_list (w <$> cols) + 2 * (length cols - 1))%nat.
Proof.
  intros H. rewrite length_join, length_fmap, <- list_fmap_compose.
  rewrite (sum_list_fmap_ext _ w).
  - change (String.length "  ") with 2%nat. lia.
  - intros c Hc. cbn. rewrite length_ljust. specialize (H c Hc). lia.
Qed.

Lemma sem_LF_blanks : sem_LF "  ".
Proof.
  unfold sem_LF. change (Str.chars "  ") with [" "%char; " "%char].
  rewrite !elem_of_cons, elem_of_nil. intuition discriminate.
Qed.

Lemma largura_label tc df col : (String.length col ≤ largura tc df col)%nat.
Proof. unfold largura. lia. Qed.

Lemma largura_cell tc df col r :
  r ∈ rows df →
  (String.length (tc (at_col col r)) ≤ largura tc df col)%nat.
Proof.
  intros Hr. unfold largura.
  assert (Hlen : (0 <? len df)%nat = true).
  { apply Nat.ltb_lt. unfold len. destruct (rows df); [by inversion Hr|cbn; lia]. }
  rewrite Hlen.
  assert (Hin : String.length (tc (at_col col r))
                ∈ (String.length ∘ tc <$> values col df)).
  { apply list_elem_of_fmap. exists (at_col col r). split; [done|].
    unfold values. apply list_elem_of_fmap. by exists r. }
  apply max_list_elem_of_le in Hin. lia.
Qed.

(** X15. [formatar_tabela] gives the empty text for an empty frame.
    Otherwise, for a frame with distinct labels, it gives a header, a ruler
    of dashes as long as the header, and one line for each row; the header
    has the computed widths plus the spacing, two blanks between columns;
    every line has that same length when no value is longer in a row than in
    its column; and when no label and no value holds a line feed, splitting
    the text at line feeds gives these lines back. *)
Theorem X15_formatar_tabela (tc tl : cell → string) (df : DataFrame)
    (esp : nat) :
  (empty df = true → formatar_tabela tc tl df esp = "")
  ∧ (empty df = false → NoDup (labels df) →
     let L := linhas_da_tabela tc tl df esp in
     let n := comprimento_da_linha tc df esp in
     length L = (len df + 2)%nat
     ∧ (String.length <$> take 2 L) = [n; n]
     ∧ L !! 1%nat = Some (Str.of_chars (replicate n "-"%char))
     ∧ ((∀ x, String.length (tl x) ≤ String.length (tc x))%nat →
        ∀ l, l ∈ L → String.length l = n)
     ∧ ((∀ c, c ∈ labels df → sem_LF c) → (∀ x, sem_LF (tl x)) →
        Str.split "010" (formatar_tabela tc tl df esp) = L)).
Proof.
  split; [by unfold formatar_tabela; intros ->|].
  intros He _ L n.
  assert (Hh : String.length
                 (Str.join "  "
                    ((λ col, ljust (largura tc df col + esp) col) <$> labels df))
               = n).
  { subst n. unfold comprimento_da_linha.
    rewrite (length_linha (λ c, largura tc df c + esp)%nat (λ c, c)); [done|].
    intros c _. pose proof (largura_label tc df c). lia. }
  subst L. unfold linhas_da_tabela. rewrite Hh.
  split; [cbn [length]; rewrite length_fmap; unfold len; lia|].
  split; [cbn [take fmap list_fmap]; by rewrite Hh, length_of_chars, length_replicate|].
  split; [done|]. split.
  - intros Hfit l. rewrite !elem_of_cons, list_elem_of_fmap.
    intros [->|[->|(r & -> & Hr)]]; [done| |].
    + by rewrite length_of_chars, length_replicate.
    + subst n. unfold comprimento_da_linha.
      rewrite (length_linha (λ c, largura tc df c + esp)%nat
                 (λ c, tl (at_col c r))); [done|].
      intros c _. pose proof (largura_cell tc df c r Hr).
      specialize (Hfit (at_col c r)). lia.
  - intros Hc Hx. unfold formatar_tabela, linhas_da_tabela. rewrite He, Hh.
    apply (split_join "010"); [done|].
    intros l. rewrite !elem_of_cons, list_elem_of_fmap.
    intros [->|[->|(r & -> & Hr)]].
    + apply sem_LF_join; [apply sem_LF_blanks|].
      intros x Hin. apply list_elem_of_fmap in Hin as (c & -> & Hin).
      by apply sem_LF_ljust, Hc.
    + by apply sem_LF_replicate.
    + apply sem_LF_join; [apply sem_LF_blanks|].
      intros x Hin. apply list_elem_of_fmap in Hin as (c & -> & Hin).
      by apply sem_LF_ljust, Hx.
Qed.

(** ** The cleaning as a whole *)

Lemma rows_passo k df :
  length (rows (passo_preencher df k)) = length (rows df).
Proof.
  unfold passo_preencher. destruct (mean _); [|done].
  unfold fillna. cbn [rows]. apply length_fmap.
Qed.

Lemma len_preencher df : len (preencher df) = len df.
Proof.
  unfold preencher, len. generalize (select_numeric df).
  intros cs. revert df. induction cs as [|k cs IH]; intros df; [done|].
  cbn [foldl]. by rewrite IH, rows_passo.
Qed.

Lemma len_tratar_valores_nulos df : len (tratar_valores_nulos df).2 = len df.
Proof.
  unfold tratar_valores_nulos. destruct (0 <? _)%nat; [|done].
  apply len_preencher.
Qed.

Lemma limpar_snd df :
  (limpar df).2
  = padronizado
      (remover_duplicatas
         (tratar_valores_nulos (tratar_nomes_colunas df).2).2).2.
Proof.
  unfold limpar.
  destruct (tratar_nomes_colunas df) as [t2 d2]. cbn [snd].
  destruct (tratar_valores_nulos d2) as [t3 d3]. cbn [snd].
  destruct (remover_duplicatas d3) as [t4 d4]. cbn [snd].
  rewrite <- padronizar_dados_snd.
  by destruct (padronizar_dados d4) as [t5 d5].
Qed.

Lemma kept_length_NoDup {A} `{EqDecision A} (l : list A) :
  length (kept [] l) = length l ↔ NoDup l.
Proof.
  split.
  - intros E. pose proof (sublist_kept [] l) as Hs.
    pose proof (NoDup_kept [] l) as Hn.
    assert (El : kept [] l = l); [|by rewrite <- El].
    clear Hn. revert E. induction Hs as [|x l1 l2 Hs IH|x l1 l2 Hs IH]; [done|..].
    + cbn [length]. intros E. f_equal. apply IH. lia.
    + cbn [length]. intros E. apply sublist_length in Hs. lia.
  - intros Hn. by destruct (kept_NoDup_id [] l Hn) as [_ ->];
      [intros ? _; apply not_elem_of_nil|].
Qed.

(** X17. Duplicates are removed before the dates and amounts are coerced:
    the cleaned table has as many rows as the table has distinct rows after
    the null filling, never more than the input, and as many as the input
    exactly when no two of those rows are equal. *)
Theorem X17_linhas_limpas (df : DataFrame) :
  let filled := (tratar_valores_nulos (tratar_nomes_colunas df).2).2 in
  len (limpar df).2 = length (remove_dups (rows filled))
  ∧ (len (limpar df).2 ≤ len df)%nat
  ∧ (len (limpar df).2 = len df ↔ NoDup (rows filled)).
Proof.
  intros filled. rewrite limpar_snd, len_padronizado. fold filled.
  destruct (rows_remover_duplicatas filled) as [Hr _].
  assert (Hlen : len filled = len df).
  { subst filled. rewrite len_tratar_valores_nulos.
    unfold tratar_nomes_colunas, len, rename. cbn [snd rows]. apply length_fmap. }
  rewrite <- Hlen. unfold len. rewrite Hr.
  split; [|split].
  - apply Permutation_length, NoDup_Permutation;
      [apply NoDup_kept|apply NoDup_remove_dups|].
    intros r. rewrite elem_of_kept, elem_of_remove_dups. split; [tauto|].
    intros H; split; [done|apply not_elem_of_nil].
  - apply sublist_length, sublist_kept.
  - apply kept_length_NoDup.
Qed.

(** ** A complete run *)

Lemma primeira_ausente_None d :
  primeira_ausente d = None →
  ∀ c, c ∈ colunas_do_relatorio → has_column c d = true.
Proof.
  unfold primeira_ausente. intros H c Hc.
  destruct (filter _ colunas_do_relatorio) as [|y k] eqn:E; [|done].
  destruct (has_column c d) eqn:Ec; [done|].
  assert (Hin : c ∈ filter (λ c, has_column c d = false) colunas_do_relatorio)
    by (by apply list_elem_of_filter).
  rewrite E in Hin. by apply elem_of_nil in Hin.
Qed.

Lemma empty_setitem c t f d : empty d = false → empty (setitem c t f d) = false.
Proof.
  unfold empty. rewrite !orb_false_iff, !bool_decide_eq_false.
  intros [Hr Hc]. split.
  - cbn [setitem rows]. intros E. apply fmap_nil_inv in E. done.
  - cbn [setitem columns]. unfold set_dtype. case_bool_decide.
    + intros E. apply fmap_nil_inv in E. done.
    + intros E. by apply app_eq_nil in E as [_ ?].
Qed.

Lemma gerar_relatorio_ok amb d o :
  empty d = false → primeira_ausente d = None → ano_numerico d = true →
  ∃ rel f,
    gerar_relatorio_completo amb (Some d) o
    = ((escreve amb (Str.replace ".csv" "_relatorio.txt" o) (Texto rel)).1
         ++ match (escreve amb (Str.replace ".csv" "_relatorio.txt" o)
                     (Texto rel)).2 with
            | Ok _ => [OK_relatorio_salvo (Str.replace ".csv" "_relatorio.txt" o)]
            | Raise e => [ERRO_ao_salvar_relatorio e]
            end,
       Some (setitem "decada" numeric f d), Ok (Some rel)).
Proof.
  intros He Hp Ha. pose proof (primeira_ausente_None d Hp) as Hc.
  unfold colunas_do_relatorio in Hc.
  unfold gerar_relatorio_completo. rewrite He.
  unfold montar_relatorio, getitem.
  rewrite !Hc by (rewrite !elem_of_cons; tauto).
  cbn [mbind result_bind].
  pose proof (ano_numerico_ordenaveis d Ha) as Ho.
  unfold anos_ordenaveis in Ho. apply bool_decide_eq_true in Ho.
  rewrite Ho. cbn [mbind result_bind].
  pose proof (mapM_decada_numerico (values "ano" d)) as HM.
  unfold ano_numerico in Ha.
  destruct (mapM decada (values "ano" d)) as [l|e];
    [|destruct HM as [_ HM]; congruence].
  cbn [mbind result_bind].
  match goal with
  | |- context [escreve amb _ (Texto ?r)] => exists r
  end.
  eexists. by destruct (escreve amb _ _) as [t r].
Qed.

Lemma exportar_escritas_ok amb d o :
  exportavel (Some d) = true →
  escritas (exportar_estatisticas_detalhadas amb (Some d) o).1.1
  = (Str.replace ".csv" "_estatisticas_ano.csv" o,
     grava amb (Str.replace ".csv" "_estatisticas_ano.csv" o))
      :: (if grava amb (Str.replace ".csv" "_estatisticas_ano.csv" o)
          then [(Str.replace ".csv" "_estatisticas_mes.csv" o,
                 grava amb (Str.replace ".csv" "_estatisticas_mes.csv" o))]
          else [])
  ∧ (exportar_estatisticas_detalhadas amb (Some d) o).1.2 = Some d.
Proof.
  unfold exportavel, exportar_estatisticas_detalhadas, escreve.
  destruct (empty d); [done|]. cbn [negb andb].
  intros E. pose proof (montar_estatisticas_Ok d) as HM.
  destruct (montar_estatisticas d) as [[sa sm]|e];
    [|destruct (proj2 HM E) as [? ?]; done].
  destruct (grava amb (Str.replace ".csv" "_estatisticas_ano.csv" o));
    [destruct (grava amb (Str.replace ".csv" "_estatisticas_mes.csv" o))|];
    done.
Qed.

Lemma escritas_escreve amb p c : escritas (escreve amb p c).1 = [(p, grava amb p)].
Proof. unfold escreve. by destruct (grava amb p). Qed.

(** X18. When [processar_dados] returns a frame with a row, the five
    columns the report reads and no text in [ano], [main] returns normally
    and ends with the banner of success, whatever happens to the report and
    statistics files: it attempts the report and the statistics by year, and
    the statistics by month if those by year were written. *)
Theorem X18_execucao_completa (amb : ambiente) (d : DataFrame) :
  (processar_dados amb ARQUIVO_ENTRADA ARQUIVO_SAIDA).2 = Some d →
  empty d = false →
  primeira_ausente d = None →
  ano_numerico d = true →
  (main amb).2 = Ok ()
  ∧ last (main amb).1 = Some (Titulo "PROCESSAMENTO FINALIZADO COM SUCESSO")
  ∧ escritas (main amb).1
    = [(ARQUIVO_SAIDA, true); (ARQUIVO_EXCEL, true);
       (ARQUIVO_RELATORIO, grava amb ARQUIVO_RELATORIO);
       (ARQUIVO_STATS_ANO, grava amb ARQUIVO_STATS_ANO)]
      ++ (if grava amb ARQUIVO_STATS_ANO
          then [(ARQUIVO_STATS_MES, grava amb ARQUIVO_STATS_MES)] else []).
Proof.
  intros Hp He Hc Ha.
  pose proof (primeira_ausente_None d Hc) as Hcols.
  unfold colunas_do_relatorio in Hcols.
  destruct (gerar_relatorio_ok amb d ARQUIVO_SAIDA He Hc Ha) as (rel & f & Hg).
  set (d' := setitem "decada" numeric f d) in *.
  assert (Hx : exportavel (Some d') = true).
  { unfold exportavel. subst d'. rewrite empty_setitem by done.
    rewrite !has_column_setitem_same by (apply Hcols; rewrite !elem_of_cons; tauto).
    done. }
  destruct (exportar_escritas_ok amb d' ARQUIVO_SAIDA Hx) as [Hx1 Hx2].
  assert (Hr : ∃ a b, resumo_final d'
                      = Ok [a; b; Titulo "PROCESSAMENTO FINALIZADO COM SUCESSO"]).
  { unfold resumo_final, getitem. subst d'.
    rewrite !has_column_setitem_same by (apply Hcols; rewrite !elem_of_cons; tauto).
    cbn [mbind result_bind]. by eexists _, _. }
  destruct Hr as (e1 & e2 & Hr).
  pose proof (escritas_processar_dados amb ARQUIVO_ENTRADA ARQUIVO_SAIDA) as Hw.
  cbn zeta in Hw. fold ARQUIVO_EXCEL in Hw.
  rewrite planilha_ARQUIVO_EXCEL, andb_true_r in Hw. destruct Hw as [Hw Hs].
  destruct Hs as (H1 & _ & H2); [rewrite Hp; by eexists|].
  destruct (processar_Some_ler amb ARQUIVO_ENTRADA ARQUIVO_SAIDA) as [df0 Hl];
    [rewrite Hp; by eexists|].
  rewrite Hl, H1, H2 in Hw.
  split; [|split].
  - rewrite main_processar. cbn zeta. rewrite Hp, Hg. cbn [fst snd].
    by rewrite Hx2, Hr.
  - rewrite main_processar. cbn zeta. rewrite Hp, Hg. cbn [fst snd].
    rewrite Hx2, Hr. cbn [fst]. rewrite !app_assoc.
    change [e1; e2; Titulo "PROCESSAMENTO FINALIZADO COM SUCESSO"]
      with ([e1; e2] ++ [Titulo "PROCESSAMENTO FINALIZADO COM SUCESSO"]).
    rewrite app_assoc. apply last_snoc.
  - rewrite <- escritas_fora_nenhum, escritas_fora_main, !escritas_fora_nenhum.
    rewrite Hp, Hg. cbn [fst snd]. rewrite Hx1, Hw.
    rewrite escritas_app, escritas_escreve.
    assert (E : escritas
                  match (escreve amb (Str.replace ".csv" "_relatorio.txt" ARQUIVO_SAIDA)
                           (Texto rel)).2 with
                  | Ok _ => [OK_relatorio_salvo
                               (Str.replace ".csv" "_relatorio.txt" ARQUIVO_SAIDA)]
                  | Raise e => [ERRO_ao_salvar_relatorio e]
                  end = []) by (by destruct (escreve amb _ _).2).
    rewrite E. reflexivity.
Qed.

(** ** The derived file names *)

Lemma prefix_refl s : String.prefix s s = true.
Proof.
  induction s as [|a s IH]; [done|]. cbn [String.prefix].
  by destruct (ascii_dec a a).
Qed.

Lemma substring_end s : substring (String.length s) 0 s = "".
Proof. induction s as [|a s IH]; [done|]. exact IH. Qed.

Lemma append_empty_r s : s +:+ "" = s.
Proof.
  induction s as [|a s IH]; [done|].
  change (String a s +:+ "") with (String a (s +:+ "")). by rewrite IH.
Qed.

Lemma replace_fuel_empty n old new : Str.replace_fuel n old new "" = "".
Proof. by destruct n. Qed.

Lemma replace_fuel_suffix old new base n :
  old ≠ "" → so_no_fim old base = true →
  (String.length (base +:+ old) < n)%nat →
  Str.replace_fuel n old new (base +:+ old) = base +:+ new.
Proof.
  intros Hold. revert n. induction base as [|a b IH]; intros n Hs Hn.
  - change ("" +:+ old) with old in *. change ("" +:+ new) with new.
    destruct n as [|n]; [lia|]. cbn [Str.replace_fuel].
    destruct old as [|c o]; [done|].
    rewrite prefix_refl, Nat.sub_diag, substring_end, replace_fuel_empty.
    apply append_empty_r.
  - change (String a b +:+ old) with (String a (b +:+ old)) in *.
    change (String a b +:+ new) with (String a (b +:+ new)).
    cbn [so_no_fim] in Hs. apply andb_true_iff in Hs as [H1 H2].
    apply negb_true_iff in H1.
    destruct n as [|n]; [lia|]. cbn [Str.replace_fuel]. rewrite H1.
    f_equal. apply IH; [done|]. cbn [String.length] in Hn. lia.
Qed.

Lemma replace_fuel_ausente old new s n :
  contem old s = false → Str.replace_fuel n old new s = s.
Proof.
  revert n. induction s as [|a s IH]; intros n Hc; [by destruct n|].
  cbn [contem] in Hc. apply orb_false_iff in Hc as [H1 H2].
  destruct n as [|n]; [done|]. cbn [Str.replace_fuel]. rewrite H1.
  f_equal. by apply IH.
Qed.

(** X19. Every derived file name is made with [replace('.csv', ...)].
    For an output path that ends in [.csv] and holds [.csv] nowhere else the
    result is the path with the ending replaced; for a path that does not
    hold [.csv] the result is the path itself, so that every file of the run
    would be written to the same place. *)
Theorem X19_nomes_derivados (novo : string) :
  (∀ base, so_no_fim ".csv" base = true →
           Str.replace ".csv" novo (base +:+ ".csv") = base +:+ novo)
  ∧ (∀ s, contem ".csv" s = false → Str.replace ".csv" novo s = s).
Proof.
  split.
  - intros base H. apply replace_fuel_suffix; [done|done|lia].
  - intros s H. by apply replace_fuel_ausente.
Qed.

(** ** The typing section 5 establishes *)

Lemma elem_of_set_dtype c t k t' cols :
  (c, t) ∈ set_dtype k t' cols →
  (c = k ∧ t = t') ∨ (c ≠ k ∧ (c, t) ∈ cols).
Proof.
  unfold set_dtype. case_bool_decide as Hk.
  - intros H. apply list_elem_of_fmap in H as ([c0 t0] & E & H0).
    cbn [fst] in E. case_bool_decide as Hc.
    + left. by injection E as -> ->.
    + right. injection E as -> ->. by split.
  - intros H. apply elem_of_app in H as [H|H].
    + right. split; [|done]. intros ->. apply Hk.
      apply list_elem_of_fmap. by exists (k, t).
    + left. apply list_elem_of_singleton in H. by injection H as -> ->.
Qed.

Lemma elem_of_columns_setitem c t k t' f df :
  (c, t) ∈ columns (setitem k t' f df) →
  (c = k ∧ t = t') ∨ (c ≠ k ∧ (c, t) ∈ columns df).
Proof. apply elem_of_set_dtype. Qed.

Lemma elem_of_columns_calendario c t df :
  c ∉ ["ano"; "mes"; "mes_nome"; "mes_ano"] →
  (c, t) ∈ columns (calendario df) → (c, t) ∈ columns df.
Proof.
  intros Hc. rewrite !elem_of_cons, elem_of_nil in Hc. unfold calendario.
  intros H.
  repeat (apply elem_of_columns_setitem in H as [[-> _]|[_ H]]; [tauto|]).
  exact H.
Qed.

Lemma to_datetime_data_ou_nulo l : forallb data_ou_nulo (to_datetime <$> l) = true.
Proof.
  induction l as [|c l IH]; [done|]. cbn [fmap list_fmap forallb].
  rewrite IH, andb_true_r. destruct c as [|q|s|d]; try done.
  cbn [to_datetime]. by destruct (strptime s).
Qed.

Lemma to_numeric_numero_ou_nulo l :
  forallb numero_ou_nulo (to_numeric <$> l) = true.
Proof.
  induction l as [|c l IH]; [done|]. cbn [fmap list_fmap forallb].
  rewrite IH, andb_true_r. destruct c as [|q|s|d]; try done.
  cbn [to_numeric]. by destruct (parse_float None s).
Qed.

Lemma dtype_data_padronizado df t :
  has_column "data" df = true →
  ("data", t) ∈ columns (padronizado df) → t = datetime.
Proof.
  intros Hd. unfold padronizado. rewrite Hd.
  set (d1 := setitem "data" datetime _ df).
  assert (H1 : ("data", t) ∈ columns d1 → t = datetime).
  { subst d1. intros H.
    by apply elem_of_columns_setitem in H as [[_ ->]|[? _]]. }
  destruct (has_column "valor" d1); [|done]. cbn zeta.
  set (d2 := setitem "valor" numeric _ d1).
  assert (H2 : ("data", t) ∈ columns d2 → t = datetime).
  { subst d2. intros H.
    apply elem_of_columns_setitem in H as [[? _]|[_ H]]; [done|by apply H1]. }
  destruct (_ && _); [|done].
  intros H. apply H2. revert H. apply elem_of_columns_calendario.
  rewrite !elem_of_cons, elem_of_nil. intuition discriminate.
Qed.

Lemma dtype_valor_padronizado df t :
  has_column "valor" df = true →
  ("valor", t) ∈ columns (padronizado df) → t = numeric.
Proof.
  intros Hv. unfold padronizado.
  set (d1 := if has_column "data" df then _ else df).
  assert (H1 : has_column "valor" d1 = true).
  { subst d1. destruct (has_column "data" df); [|done].
    by apply has_column_setitem_same. }
  rewrite H1. cbn zeta.
  set (d2 := setitem "valor" numeric _ d1).
  assert (H2 : ("valor", t) ∈ columns d2 → t = numeric).
  { subst d2. intros H.
    by apply elem_of_columns_setitem in H as [[_ ->]|[? _]]. }
  destruct (_ && _); [|done].
  intros H. apply H2. revert H. apply elem_of_columns_calendario.
  rewrite !elem_of_cons, elem_of_nil. intuition discriminate.
Qed.

(** X20. Whatever the frame it is given, section 5 leaves a frame in which
    [data], where present, has the datetime type and holds only timestamps
    and nulls, and [valor], where present, has the numeric type and holds
    only numbers and nulls. *)
Theorem X20_padronizar_tipos (df : DataFrame) :
  padronizada (padronizar_dados df).2.
Proof.
  rewrite padronizar_dados_snd. split; intros H.
  - rewrite has_column_padronizado in H
      by (rewrite !elem_of_cons, elem_of_nil; intuition discriminate).
    split; [intros t; by apply dtype_data_padronizado|].
    rewrite values_data_padronizado by done. apply to_datetime_data_ou_nulo.
  - rewrite has_column_padronizado in H
      by (rewrite !elem_of_cons, elem_of_nil; intuition discriminate).
    split; [intros t; by apply dtype_valor_padronizado|].
    unfold valor_numerico.
    rewrite values_valor_padronizado by done. apply to_numeric_numero_ou_nulo.
Qed.

(** ** The tables of statistics by year and by month *)










(** ** The figures of the report *)

(** The fields of a report that was built. *)
Lemma montar_relatorio_campos d d' rel :
  montar_relatorio d = Ok (d', rel) →
  has_column "valor" d = true
  ∧ r_total_de_registros rel = len d
  ∧ r_dados_validos rel
    = length (filter (λ c, notna c = true) (values "valor" d))
  ∧ r_dados_faltantes rel
    = length (filter (λ c, isnull c = true) (values "valor" d))
  ∧ r_valores_unicos rel = nunique (values "valor" d)
  ∧ r_negativos rel = count_negative (values "valor" d)
  ∧ r_top_anos rel = nlargest 3 (series (groupby "ano" "valor" group_sum d))
  ∧ r_distribuicao_por_ano rel = groupby "ano" "valor" group_sum d
  ∧ r_distribuicao_por_mes rel = distribuicao_por_mes (media_por_mes d).
Proof.
  unfold montar_relatorio, getitem.
  destruct (has_column "data" d); cbn [mbind result_bind]; [|discriminate].
  destruct (has_column "ano" d); cbn [mbind result_bind]; [|discriminate].
  destruct (has_column "mes_ano" d); cbn [mbind result_bind]; [|discriminate].
  destruct (has_column "valor" d); cbn [mbind result_bind]; [|discriminate].
  destruct (sorted_ok _ _) as [[]|?]; cbn [mbind result_bind]; [|discriminate].
  destruct (has_column "mes_nome" d); cbn [mbind result_bind]; [|discriminate].
  destruct (mapM decada (values "ano" d)) as [l|e] eqn:El;
    cbn [mbind result_bind]; [|discriminate].
  intros H.
  apply (f_equal (λ r, match r with Ok x => Some x.2 | Raise _ => None end)) in H.
  cbv beta iota in H. cbn [snd] in H.
  apply (inj Some) in H. rewrite <- H.
  cbn [r_total_de_registros r_dados_validos r_dados_faltantes r_valores_unicos
       r_negativos r_top_anos r_distribuicao_por_ano r_distribuicao_por_mes].
  split; [exact eq_refl|].
  split; [exact eq_refl|]. split; [exact eq_refl|]. split; [exact eq_refl|].
  split; [exact eq_refl|]. split; [exact eq_refl|]. split; [exact eq_refl|].
  split; exact eq_refl.
Qed.

Lemma gerar_relatorio_Some amb d o rel :
  (gerar_relatorio_completo amb (Some d) o).2 = Ok (Some rel) →
  ∃ d', montar_relatorio d = Ok (d', rel).
Proof.
  unfold gerar_relatorio_completo.
  destruct (empty d); [discriminate|].
  destruct (montar_relatorio d) as [[d' r]|e]; [|discriminate].
  destruct (escreve amb _ _) as [t res]. cbn [snd].
  intros [= ->]. by exists d'.
Qed.

Lemma validos_faltantes l :
  (length (filter (λ c, notna c = true) l)
   + length (filter (λ c, isnull c = true) l) = length l)%nat.
Proof.
  induction l as [|c l IH]; [done|].
  rewrite !filter_cons.
  destruct c; cbn [notna isnull negb]; repeat case_decide; try done;
    cbn [length]; lia.
Qed.

Lemma unique_length_le {A} `{EqDecision A} (l : list A) :
  (length (unique l) ≤ length l)%nat.
Proof.
  apply submseteq_length, NoDup_submseteq; [apply NoDup_unique|].
  intros x. by rewrite elem_of_unique.
Qed.

Lemma length_dropna l :
  length (dropna l) = length (filter (λ c, notna c = true) l).
Proof.
  unfold dropna. induction l as [|c l IH]; [done|].
  rewrite !filter_cons.
  destruct c; cbn [notna isnull negb]; repeat case_decide; try done;
    cbn [length]; lia.
Qed.

Lemma validos_numericos l :
  forallb numero_ou_nulo l = true →
  length (filter (λ c, notna c = true) l) = count l.
Proof.
  unfold count. induction l as [|c l IH]; [done|].
  rewrite filter_cons, numbers_cons. cbn [forallb].
  destruct c; cbn [numero_ou_nulo andb notna isnull negb]; try discriminate;
    intros H; case_decide; try done; cbn [length]; by rewrite IH.
Qed.

Lemma NoDup_fst_fun {A B} (l : list (A * B)) x y1 y2 :
  NoDup l.*1 → (x, y1) ∈ l → (x, y2) ∈ l → y1 = y2.
Proof.
  induction l as [|[a b] l IH]; [by intros _ ?%elem_of_nil|].
  rewrite fmap_cons, NoDup_cons. cbn [fst]. intros [Hn Hnd].
  rewrite !elem_of_cons. intros [E1|H1] [E2|H2].
  - congruence.
  - exfalso. injection E1 as -> ->. apply Hn, list_elem_of_fmap.
    by exists (a, y2).
  - exfalso. injection E2 as -> ->. apply Hn, list_elem_of_fmap.
    by exists (a, y1).
  - by apply IH.
Qed.

(** The months of the report: the calendar order, each month that is in
    the index of the means. *)
Lemma distribuicao_por_mes_spec (s : list (cell * option Qc)) :
  NoDup s.*1 →
  (distribuicao_por_mes s).*1 `sublist_of` month_abbr
  ∧ ∀ mes m, (mes, m) ∈ distribuicao_por_mes s ↔
             mes ∈ month_abbr ∧ (Txt mes, m) ∈ s.
Proof.
  intros Hnd. unfold distribuicao_por_mes.
  set (f := λ mes : string, _).
  assert (Hf : ∀ mes x, f mes = Some x ↔ x.1 = mes ∧ (Txt mes, x.2) ∈ s).
  { intros mes [mes' m]. subst f. cbn beta. cbn [fst snd].
    destruct (list_find _ s) as [[i [k v]]|] eqn:E; cbn.
    - apply list_find_Some in E as (Hi & Hk & _). cbn in Hk. subst k.
      apply list_elem_of_lookup_2 in Hi.
      split.
      + intros [= <- <-]. done.
      + intros [-> Hin]. f_equal. f_equal.
        exact (NoDup_fst_fun s _ _ _ Hnd Hi Hin).
    - split; [done|]. intros [_ Hin]. exfalso.
      apply list_find_None in E. rewrite Forall_forall in E.
      by apply (E _ Hin). }
  split.
  - generalize month_abbr. intros l. induction l as [|mes l IH]; [done|].
    cbn [omap list_omap]. destruct (f mes) as [x|] eqn:E.
    + apply Hf in E as [<- _]. cbn [fmap list_fmap]. by apply sublist_skip.
    + by apply sublist_cons.
  - intros mes m. rewrite list_elem_of_omap. split.
    + intros (mes' & Hin & E). apply Hf in E as [E1 E2]. cbn in E1, E2.
      by subst mes'.
    + intros [Hin Hs]. exists mes. split; [done|]. by apply Hf.
Qed.

(** X23. For a frame typed as section 5 leaves it and whose month names
    can be sorted, a report that is returned counts every row of the frame:
    its valid and its missing values add up to the number of rows, and
    neither the distinct values nor the negative ones outnumber the valid
    ones.  Its months follow the calendar, each at most once, and are the
    months of the calendar that some row has as its month name, each with the
    mean of its group, which is null when the month has no value.  Its
    distribution by year has each year of the frame with the sum of its
    group.  Its ranking of years has three lines of that distribution, or
    all if they are fewer, in descending order of sum, years of equal sum in
    the order of the distribution, and no year left out has a greater
    sum. *)
Theorem X23_relatorio (amb : ambiente) (d : DataFrame) (o : string)
    (rel : relatorio) :
  padronizada d →
  comparavel "mes_nome" d →
  (gerar_relatorio_completo amb (Some d) o).2 = Ok (Some rel) →
  r_total_de_registros rel = len d
  ∧ (r_dados_validos rel + r_dados_faltantes rel = len d)%nat
  ∧ (r_valores_unicos rel ≤ r_dados_validos rel)%nat
  ∧ (r_negativos rel ≤ r_dados_validos rel)%nat
  ∧ (r_distribuicao_por_mes rel).*1 `sublist_of` month_abbr
  ∧ (∀ mes m, (mes, m) ∈ r_distribuicao_por_mes rel ↔
       mes ∈ month_abbr ∧ Txt mes ∈ values "mes_nome" d
       ∧ m = group_mean (at_col "valor" <$> group "mes_nome" (Txt mes) d))
  ∧ (∀ k v, (k, v) ∈ r_distribuicao_por_ano rel ↔
       k ∈ values "ano" d ∧ k ≠ NaN
       ∧ v = group_sum (at_col "valor" <$> group "ano" k d))
  ∧ ∃ r rest,
      r_top_anos rel = series r
      ∧ length r = Nat.min 3 (nunique (values "ano" d))
      ∧ StronglySorted ge_value r
      ∧ r ++ rest ≡ₚ r_distribuicao_por_ano rel
      ∧ (∀ x y, x ∈ r → y ∈ rest → (y.2 <= x.2)%Qc)
      ∧ (∀ v, filter (λ p, p.2 = v) (r ++ rest)
              = filter (λ p, p.2 = v) (r_distribuicao_por_ano rel)).
Proof.
  intros [_ Hv] _ H. apply gerar_relatorio_Some in H as [d' H].
  apply montar_relatorio_campos in H
    as (Hc & -> & -> & -> & -> & -> & -> & -> & ->).
  destruct (Hv Hc) as [_ Hn]. unfold valor_numerico in Hn.
  split; [done|].
  split; [rewrite validos_faltantes; unfold values; by rewrite length_fmap|].
  split; [unfold nunique; rewrite <- length_dropna; apply unique_length_le|].
  split; [rewrite validos_numericos by done; apply count_negative_le|].
  assert (Hnd : NoDup (media_por_mes d).*1).
  { unfold media_por_mes. rewrite groupby_fst. apply group_keys_spec. }
  destruct (distribuicao_por_mes_spec _ Hnd) as [H1 H2].
  split; [exact H1|]. split.
  { intros mes m. rewrite H2. unfold media_por_mes. rewrite elem_of_groupby.
    split; [intros (? & ? & _ & ?)|intros (? & ? & ?)]; repeat split;
      try assumption; discriminate. }
  split; [intros k v; apply elem_of_groupby|].
  destruct (nlargest_spec 3 (series (groupby "ano" "valor" group_sum d)))
    as (r & nulos & rest & E & HL & HS & HP & Hr & Hst & Hnu & _).
  rewrite with_value_series in HP, Hst. rewrite without_value_series in Hnu.
  apply prefix_nil_inv in Hnu. subst nulos. rewrite app_nil_r in E.
  exists r, rest. split; [done|]. split.
  { rewrite E in HL. unfold series in HL. rewrite !length_fmap in HL.
    by rewrite HL, length_groupby. }
  done.
Qed.

End Geral.

(** * Properties of runs in exact arithmetic *)

Section Exata.
#[local] Existing Instance exata.

(** ** The scenarios, by evaluation *)

Ltac evaluate := apply (bool_decide_unpack _); vm_compute; exact I.

(** C6. On the input of the scenario the cleaned table has two rows, the
    years 2020 and 2021, the sum 50 and one negative value; the total growth
    from 2020 to 2021 is -150, printed as -150.00%. *)
Theorem C6_cenario :
  len <$> tabela_limpa entrada_c6 = Some 2%nat
  ∧ values "ano" <$> tabela_limpa entrada_c6
    = Some [Num (Qc_of_Z 2020); Num (Qc_of_Z 2021)]
  ∧ sum ∘ values "valor" <$> tabela_limpa entrada_c6 = Some (Qc_of_Z 50)
  ∧ count_negative ∘ values "valor" <$> tabela_limpa entrada_c6 = Some 1%nat
  ∧ crescimento_total <$> tabela_limpa entrada_c6
    = Some (Some (Num (Qc_of_Z 2020), Num (Qc_of_Z 2021), Qc_of_Z (-150)))
  ∧ format_2f (Qc_of_Z (-150)) +:+ "%" = "-150.00%"
  ∧ CrescimentoTotal (Num (Qc_of_Z 2020)) (Num (Qc_of_Z 2021)) (Qc_of_Z (-150))
    ∈ (processar_dados (ambiente_de entrada_c6 tudo_grava)
         ARQUIVO_ENTRADA ARQUIVO_SAIDA).1.
Proof. repeat split; evaluate. Qed.

(** C3. A table with a record and no [data] column passes
    [processar_dados]; the report stage then raises [KeyError], which leaves
    [gerar_relatorio_completo] and [main].  The same happens, on [ano], when
    no date parses. *)
Theorem C3_main_raises :
  (main (ambiente_de entrada_c3 tudo_grava)).2 = Raise (KeyError "data")
  ∧ (gerar_relatorio_completo (ambiente_de entrada_c3 tudo_grava)
       (processar_dados (ambiente_de entrada_c3 tudo_grava)
          ARQUIVO_ENTRADA ARQUIVO_SAIDA).2 ARQUIVO_SAIDA).2
    = Raise (KeyError "data")
  ∧ (main (ambiente_de entrada_c3' tudo_grava)).2 = Raise (KeyError "ano").
Proof. repeat split; evaluate. Qed.

(** Opens a goal about the frame a computation yields. *)
Ltac with_frame H :=
  match goal with
  | |- match ?e with Some _ => _ | None => False end =>
      let E := fresh in
      assert (E : is_Some e) by evaluate;
      destruct e as [?df|] eqn:H; [clear E|by destruct E]
  end.

(** Reads a fact off the frame by evaluating [f] on the computation [e]. *)
Ltac read_off H f v G :=
  match type of H with
  | ?e = Some ?df =>
      assert (G : f <$> e = Some v) by evaluate;
      rewrite H in G; injection G as G
  end.

(** C1, as stated, fails: [valor] has no number, [data] has a date, and
    the four calendar columns are added. *)
Lemma C1_counterexample :
  match tabela_limpa entrada_c1 with
  | Some df =>
      notna_any (values "valor" df) = false
      ∧ notna_any (values "data" df) = true
      ∧ ["ano"; "mes"; "mes_nome"; "mes_ano"] ⊆ labels df
  | None => False
  end.
Proof.
  with_frame H. repeat split.
  - by read_off H (notna_any ∘ values "valor") false G.
  - by read_off H (notna_any ∘ values "data") true G.
  - read_off H labels ["data"; "valor"; "ano"; "mes"; "mes_nome"; "mes_ano"] G.
    rewrite G. intros x Hx. rewrite !elem_of_cons in *. tauto.
Qed.

(** C2, as stated, fails: two distinct years, the first with a negative
    sum, and no year-over-year entry. *)
Lemma C2_counterexample :
  match tabela_limpa entrada_c2 with
  | Some df =>
      has_column "valor" df = true ∧ has_column "ano" df = true
      ∧ nunique (values "ano" df) = 2%nat
      ∧ length (crescimento_ano_a_ano df) ≠ (nunique (values "ano" df) - 1)%nat
  | None => False
  end.
Proof.
  with_frame H.
  read_off H (has_column "valor") true G1.
  read_off H (has_column "ano") true G2.
  read_off H (nunique ∘ values "ano") 2%nat G3.
  read_off H (length ∘ crescimento_ano_a_ano) 0%nat G4.
  simpl in *. repeat split; try done. lia.
Qed.

(** C7, as stated, fails: the CSV file is written, the spreadsheet is
    refused, and neither the report nor the statistics are attempted. *)
Lemma C7_counterexample :
  let t := (main (ambiente_de entrada_c6 sem_excel)).1 in
  (ARQUIVO_SAIDA, true) ∈ escritas t
  ∧ (Str.replace ".csv" ".xlsx" ARQUIVO_SAIDA, false) ∈ escritas t
  ∧ ¬ (∃ ok, (Str.replace ".csv" "_relatorio.txt" ARQUIVO_SAIDA, ok)
               ∈ escritas t)
  ∧ ¬ (∃ ok, (Str.replace ".csv" "_estatisticas_ano.csv" ARQUIVO_SAIDA, ok)
               ∈ escritas t).
Proof.
  intros t.
  assert (E : escritas t = [("data/governo_processado.csv", true);
                            ("data/governo_processado.xlsx", false)])
    by evaluate.
  rewrite E. repeat split.
  - evaluate.
  - evaluate.
  - intros [ok Hok]. revert Hok. destruct ok; apply (bool_decide_unpack _); vm_compute; exact I.
  - intros [ok Hok]. revert Hok. destruct ok; apply (bool_decide_unpack _); vm_compute; exact I.
Qed.

(** C8, as stated, fails: the frame that comes back from the report
    generation has the column [decada], which the frame given did not. *)
Lemma C8_counterexample :
  let amb := ambiente_de entrada_c6 tudo_grava in
  match (processar_dados amb ARQUIVO_ENTRADA ARQUIVO_SAIDA).2 with
  | Some df =>
      has_column "decada" df = false
      ∧ (has_column "decada"
           <$> (gerar_relatorio_completo amb (Some df) ARQUIVO_SAIDA).1.2)
        = Some true
  | None => False
  end.
Proof.
  intros amb. subst amb. with_frame H. split.
  - by read_off H (has_column "decada") false G.
  - read_off H (λ df, has_column "decada"
           <$> (gerar_relatorio_completo (ambiente_de entrada_c6 tudo_grava)
                  (Some df) ARQUIVO_SAIDA).1.2) (Some true) G.
    done.
Qed.

(** C9, as stated, fails: with only the header [valor;ano] the ranking of
    years of section 7 is still printed. *)
Lemma C9_counterexample :
  let amb := ambiente_de entrada_c9 tudo_grava in
  len <$> ler_dados amb ARQUIVO_ENTRADA = Ok 0%nat
  ∧ TopAnos [] ∈ (processar_dados amb ARQUIVO_ENTRADA ARQUIVO_SAIDA).1.
Proof. split; evaluate. Qed.


Lemma C2_witness :
  match tabela_limpa entrada_c6 with
  | Some df =>
      length (crescimento_ano_a_ano df)
      = (nunique (values "ano" df) - 1
         - length (anteriores_nao_positivos (soma_por_ano df)))%nat
  | None => False
  end.
Proof.
  with_frame H.
  read_off H (has_column "valor") true G1.
  read_off H (has_column "ano") true G2.
  exact (proj1 (proj2 (C2_crescimento_ano_a_ano df G1 G2))).
Defined.

Lemma X1_witness :
  (main (ambiente_de "" tudo_grava)).2 = Ok ()
  ∧ escritas (main (ambiente_de "" tudo_grava)).1 = [].
Proof.
  assert (H : ler_dados (ambiente_de "" tudo_grava) ARQUIVO_ENTRADA
              = Raise EmptyDataError) by reflexivity.
  rewrite (X1_leitura_falha _ _ H). split; reflexivity.
Defined.

(** ** Instances of the properties that have a precondition *)

Lemma ascii_x3 c : c ∈ labels df_x3 → Str.ascii_only c = true.
Proof.
  assert (E : labels df_x3 = ["  Data "; "VALOR"; "Nome do Orgao "])
    by reflexivity.
  rewrite E, !elem_of_cons, elem_of_nil.
  intros [->|[->|[->|[]]]]; reflexivity.
Defined.

Lemma X3_witness :
  (∀ c, c ∈ labels df_x3 → Str.ascii_only c = true)
  ∧ labels (tratar_nomes_colunas df_x3).2 = ["data"; "valor"; "nome do orgao"]
  ∧ (∀ c, c ∈ labels df_x3 →
       ∃ a m b,
         Str.chars c = a ++ m ++ b
         ∧ Forall (λ x, Str.is_space x = true) a
         ∧ Forall (λ x, Str.is_space x = true) b
         ∧ aparado m
         ∧ Str.chars (normalizar c) = Str.lower_char <$> m)
  ∧ (∀ c, c ∈ labels (tratar_nomes_colunas df_x3).2 →
       Str.ascii_only c = true
       ∧ aparado (Str.chars c) ∧ sem_maiusculas (Str.chars c))
  ∧ (columns (tratar_nomes_colunas df_x3).2).*2 = (columns df_x3).*2
  ∧ len (tratar_nomes_colunas df_x3).2 = len df_x3
  ∧ (NoDup (normalizar <$> labels df_x3) →
     ∀ c, c ∈ labels df_x3 →
          values (normalizar c) (tratar_nomes_colunas df_x3).2
          = values c df_x3).
Proof.
  split; [exact ascii_x3|].
  destruct (X3_tratar_nomes_colunas df_x3 ascii_x3) as (H1 & H2).
  split; [rewrite H1; reflexivity|exact H2].
Defined.

Lemma X4_witness :
  Str.ascii_only "  Nome do Orgao " = true
  ∧ Str.ascii_only (normalizar "  Nome do Orgao ") = true
  ∧ normalizar (normalizar "  Nome do Orgao ") = normalizar "  Nome do Orgao "
  ∧ (normalizar "  Nome do Orgao " = "  Nome do Orgao " ↔
     aparado (Str.chars "  Nome do Orgao ")
     ∧ sem_maiusculas (Str.chars "  Nome do Orgao ")).
Proof.
  split; [reflexivity|].
  exact (X4_normalizar_idempotente "  Nome do Orgao " eq_refl).
Defined.

Lemma sem_timestamps_x6 c : c ∈ values "data" df_x6 → ts_of c = None.
Proof.
  intros Hc.
  assert (E : values "data" df_x6 = [Txt "29/02/2020"; Txt "x"])
    by (vm_compute; reflexivity).
  rewrite E, !elem_of_cons, elem_of_nil in Hc.
  destruct Hc as [->|[->|[]]]; reflexivity.
Defined.

Lemma X6_witness :
  match at_col "data" r_x6 with
  | Ts d =>
      data_valida d
      ∧ at_col "ano" r_x6 = Num (Qc_of_Z (year d))
      ∧ at_col "mes" r_x6 = Num (Qc_of_Z (month d))
      ∧ (∃ m, m ∈ month_abbr ∧ at_col "mes_nome" r_x6 = Txt m)
      ∧ at_col "mes_ano" r_x6 = strftime_Ym (Ts d)
  | _ =>
      at_col "data" r_x6 = NaN
      ∧ at_col "ano" r_x6 = NaN ∧ at_col "mes" r_x6 = NaN
      ∧ at_col "mes_nome" r_x6 = NaN ∧ at_col "mes_ano" r_x6 = NaN
  end.
Proof.
  apply (X6_calendario df_x6).
  - reflexivity.
  - reflexivity.
  - apply sem_timestamps_x6.
  - vm_compute. reflexivity.
  - apply (bool_decide_unpack _). vm_compute. exact I.
Defined.



Lemma padronizada_x9 : padronizada quadro_x9.
Proof.
  assert (E : columns quadro_x9
              = [("data", datetime); ("valor", numeric); ("ano", numeric);
                 ("mes", numeric); ("mes_nome", object); ("mes_ano", object)])
    by (vm_compute; reflexivity).
  split; intros _; (split; [|vm_compute; reflexivity]); intros t;
    rewrite E, !elem_of_cons, elem_of_nil; intros H;
    repeat destruct H as [H|H]; try discriminate H; try done;
    by injection H as ->.
Defined.

Lemma anos_x9 : comparavel "ano" quadro_x9.
Proof. left. vm_compute. reflexivity. Defined.

Lemma meses_x9 : comparavel "mes_nome" quadro_x9.
Proof. right. vm_compute. reflexivity. Defined.


Lemma X9_witness :
  padronizada quadro_x9
  ∧ comparavel "ano" quadro_x9
  ∧ TopAnos top_anos_x9 ∈ calcular_tendencias quadro_x9
  ∧ ∃ r rest,
      top_anos_x9 = series r
      ∧ length top_anos_x9 = Nat.min 5 (nunique (values "ano" quadro_x9))
      ∧ StronglySorted ge_value r
      ∧ (∀ k v, (k, v) ∈ r →
           k ∈ values "ano" quadro_x9 ∧ k ≠ NaN
           ∧ v = group_sum (at_col "valor" <$> group "ano" k quadro_x9))
      ∧ r ++ rest ≡ₚ soma_por_ano quadro_x9
      ∧ (∀ x y, x ∈ r → y ∈ rest → (y.2 <= x.2)%Qc)
      ∧ (∀ v, filter (λ p, p.2 = v) (r ++ rest)
              = filter (λ p, p.2 = v) (soma_por_ano quadro_x9)).
Proof.
  assert (H : TopAnos top_anos_x9 ∈ calcular_tendencias quadro_x9) by evaluate.
  split; [exact padronizada_x9|]. split; [exact anos_x9|]. split; [exact H|].
  exact (X9_top_anos quadro_x9 top_anos_x9 padronizada_x9 anos_x9 H).
Defined.

Lemma X10_witness :
  padronizada quadro_x9
  ∧ comparavel "mes_nome" quadro_x9
  ∧ TopMeses top_meses_x9 ∈ calcular_tendencias quadro_x9
  ∧ ∃ r nulos rest,
      top_meses_x9 = series r ++ nulos
      ∧ length top_meses_x9 = Nat.min 3 (nunique (values "mes_nome" quadro_x9))
      ∧ StronglySorted ge_value r
      ∧ (∀ k m, (k, m) ∈ r ++ rest ↔
           k ∈ values "mes_nome" quadro_x9 ∧ k ≠ NaN
           ∧ group_mean (at_col "valor" <$> group "mes_nome" k quadro_x9)
             = Some m)
      ∧ (∀ x y, x ∈ r → y ∈ rest → (y.2 <= x.2)%Qc)
      ∧ (∀ p, p ∈ nulos →
           p.1 ∈ values "mes_nome" quadro_x9 ∧ p.1 ≠ NaN ∧ p.2 = None
           ∧ group_mean (at_col "valor" <$> group "mes_nome" p.1 quadro_x9)
             = None)
      ∧ (nulos ≠ [] → rest = []).
Proof.
  assert (H : TopMeses top_meses_x9 ∈ calcular_tendencias quadro_x9)
    by evaluate.
  split; [exact padronizada_x9|]. split; [exact meses_x9|]. split; [exact H|].
  exact (X10_top_meses quadro_x9 top_meses_x9 padronizada_x9 meses_x9 H).
Defined.

Lemma X11_witness :
  forallb data_ou_nulo (values "data" quadro_x9) = true
  ∧ ∃ d,
      columns d = columns quadro_x9
      ∧ rows d ≡ₚ rows quadro_x9
      ∧ (has_column "data" quadro_x9 = true → Sorted (le_at "data") (rows d))
      ∧ (has_column "data" quadro_x9 = false → d = quadro_x9)
      ∧ gravacoes (salvar_arquivo (ambiente_de "" tudo_grava) quadro_x9
                     ARQUIVO_SAIDA).1
        = (ARQUIVO_SAIDA, Tabela (to_table d),
           grava (ambiente_de "" tudo_grava) ARQUIVO_SAIDA)
            :: (if grava (ambiente_de "" tudo_grava) ARQUIVO_SAIDA
                   && planilha (Str.replace ".csv" ".xlsx" ARQUIVO_SAIDA)
                then [(Str.replace ".csv" ".xlsx" ARQUIVO_SAIDA,
                       Tabela (to_table d),
                       grava (ambiente_de "" tudo_grava)
                         (Str.replace ".csv" ".xlsx" ARQUIVO_SAIDA))]
                else [])
      ∧ (salvar_arquivo (ambiente_de "" tudo_grava) quadro_x9 ARQUIVO_SAIDA).2
        = (if grava (ambiente_de "" tudo_grava) ARQUIVO_SAIDA
              && planilha (Str.replace ".csv" ".xlsx" ARQUIVO_SAIDA)
              && grava (ambiente_de "" tudo_grava)
                   (Str.replace ".csv" ".xlsx" ARQUIVO_SAIDA)
           then Some d else None).
Proof.
  assert (H : forallb data_ou_nulo (values "data" quadro_x9) = true)
    by (vm_compute; reflexivity).
  split; [exact H|].
  exact (X11_salvar_arquivo (ambiente_de "" tudo_grava) quadro_x9
           ARQUIVO_SAIDA H).
Defined.

Lemma X12_witness :
  escritas
    (exportar_estatisticas_detalhadas (ambiente_de "" tudo_grava)
       (Some (padronizar_dados df_x6).2) ARQUIVO_SAIDA).1.1
  = [(ARQUIVO_STATS_ANO, true); (ARQUIVO_STATS_MES, true)].
Proof.
  destruct (X12_exportar_estatisticas (ambiente_de "" tudo_grava)
              (Some (padronizar_dados df_x6).2) ARQUIVO_SAIDA) as (H1 & _).
  - intros d [= <-]. split; [vm_compute; reflexivity|].
    split; [left|right]; vm_compute; reflexivity.
  - rewrite H1. vm_compute. reflexivity.
Defined.

Lemma X13_witness :
  empty quadro_x9 = false
  ∧ padronizada quadro_x9
  ∧ comparavel "mes_nome" quadro_x9
  ∧ ∃ rel d',
      (gerar_relatorio_completo (ambiente_de "" tudo_grava)
         (Some quadro_x9) ARQUIVO_SAIDA).2 = Ok (Some rel)
      ∧ gravacoes
          (gerar_relatorio_completo (ambiente_de "" tudo_grava)
             (Some quadro_x9) ARQUIVO_SAIDA).1.1
        = [(Str.replace ".csv" "_relatorio.txt" ARQUIVO_SAIDA, Texto rel,
            grava (ambiente_de "" tudo_grava)
              (Str.replace ".csv" "_relatorio.txt" ARQUIVO_SAIDA))]
      ∧ (gerar_relatorio_completo (ambiente_de "" tudo_grava)
           (Some quadro_x9) ARQUIVO_SAIDA).1.2 = Some d'
      ∧ has_column "decada" d' = true.
Proof.
  assert (H0 : empty quadro_x9 = false) by (vm_compute; reflexivity).
  split; [exact H0|]. split; [exact padronizada_x9|]. split; [exact meses_x9|].
  pose proof (X13_gerar_relatorio (ambiente_de "" tudo_grava)
                quadro_x9 ARQUIVO_SAIDA H0 padronizada_x9 meses_x9) as H.
  cbv zeta in H.
  assert (E1 : ausente colunas_do_cabecalho quadro_x9 = None)
    by (vm_compute; reflexivity).
  assert (E2 : anos_ordenaveis quadro_x9 = true) by (vm_compute; reflexivity).
  assert (E3 : has_column "mes_nome" quadro_x9 = true)
    by (vm_compute; reflexivity).
  assert (E4 : ano_numerico quadro_x9 = true) by (vm_compute; reflexivity).
  rewrite E1, E2, E3, E4 in H. exact H.
Defined.

Lemma X18_witness : (main (ambiente_de entrada_c6 tudo_grava)).2 = Ok ().
Proof.
  destruct (processar_dados (ambiente_de entrada_c6 tudo_grava)
              ARQUIVO_ENTRADA ARQUIVO_SAIDA).2 as [d|] eqn:Hp.
  - read_off Hp empty false G1.
    read_off Hp primeira_ausente (@None string) G2.
    read_off Hp ano_numerico true G3.
    exact (proj1 (X18_execucao_completa _ d Hp G1 G2 G3)).
  - exfalso. vm_compute in Hp. discriminate Hp.
Defined.

(** *** Rounding in exact arithmetic keeps the order *)



Lemma Qred_inject_Z z : Qred (inject_Z z) = inject_Z z.
Proof.
  apply Qred_identity. cbn. apply Z.gcd_1_r.
Qed.

Lemma this_Qc_of_Z z : this (Qc_of_Z z) = inject_Z z.
Proof. unfold Qc_of_Z. cbn [this Q2Qc]. apply Qred_inject_Z. Qed.

Lemma rint_Qc_of_Z z : rint (Qc_of_Z z) = z.
Proof.
  unfold rint. rewrite this_Qc_of_Z. cbn [Qnum Qden inject_Z].
  rewrite Z.div_1_r, Z.mod_1_r. reflexivity.
Qed.

Lemma Qc_of_Z_mul a b : (Qc_of_Z a * Qc_of_Z b)%Qc = Qc_of_Z (a * b).
Proof.
  apply Qc_is_canon. unfold Qc_of_Z. cbn [this Qcmult Q2Qc].
  rewrite !Qred_correct. unfold Qeq, inject_Z. cbn. lia.
Qed.

Lemma round2_Qc_of_Z z : round2 (Qc_of_Z z) = Qc_of_Z z.
Proof.
  unfold round2. rewrite Qc_of_Z_mul, rint_Qc_of_Z.
  apply Qc_is_canon. unfold Qc_of_Z. cbn [this Q2Qc].
  rewrite !Qred_correct. unfold Qeq, inject_Z. cbn. lia.
Qed.

(** Rounding leaves a count as it is. *)
Lemma round2_Qc_of_nat n : round2 (Qc_of_nat n) = Qc_of_nat n.
Proof. apply (round2_Qc_of_Z (Z.of_nat n)). Qed.






Lemma relatorio_x9 :
  ∃ rel,
    (gerar_relatorio_completo (ambiente_de "" tudo_grava) (Some quadro_x9)
       ARQUIVO_SAIDA).2 = Ok (Some rel).
Proof.
  destruct (gerar_relatorio_completo (ambiente_de "" tudo_grava)
              (Some quadro_x9) ARQUIVO_SAIDA).2 as [[rel|]|e] eqn:E.
  - by exists rel.
  - exfalso. vm_compute in E. discriminate E.
  - exfalso. vm_compute in E. discriminate E.
Defined.

Lemma X23_witness :
  padronizada quadro_x9
  ∧ comparavel "mes_nome" quadro_x9
  ∧ ∃ rel,
      (gerar_relatorio_completo (ambiente_de "" tudo_grava) (Some quadro_x9)
         ARQUIVO_SAIDA).2 = Ok (Some rel)
      ∧ r_total_de_registros rel = len quadro_x9
      ∧ (r_dados_validos rel + r_dados_faltantes rel = len quadro_x9)%nat
      ∧ (r_valores_unicos rel ≤ r_dados_validos rel)%nat
      ∧ (r_negativos rel ≤ r_dados_validos rel)%nat
      ∧ (r_distribuicao_por_mes rel).*1 `sublist_of` month_abbr
      ∧ (∀ mes m, (mes, m) ∈ r_distribuicao_por_mes rel ↔
           mes ∈ month_abbr ∧ Txt mes ∈ values "mes_nome" quadro_x9
           ∧ m = group_mean
                   (at_col "valor" <$> group "mes_nome" (Txt mes) quadro_x9))
      ∧ (∀ k v, (k, v) ∈ r_distribuicao_por_ano rel ↔
           k ∈ values "ano" quadro_x9 ∧ k ≠ NaN
           ∧ v = group_sum (at_col "valor" <$> group "ano" k quadro_x9))
      ∧ ∃ r rest,
          r_top_anos rel = series r
          ∧ length r = Nat.min 3 (nunique (values "ano" quadro_x9))
          ∧ StronglySorted ge_value r
          ∧ r ++ rest ≡ₚ r_distribuicao_por_ano rel
          ∧ (∀ x y, x ∈ r → y ∈ rest → (y.2 <= x.2)%Qc)
          ∧ (∀ v, filter (λ p, p.2 = v) (r ++ rest)
                  = filter (λ p, p.2 = v) (r_distribuicao_por_ano rel)).
Proof.
  split; [exact padronizada_x9|]. split; [exact meses_x9|].
  destruct relatorio_x9 as [rel E]. exists rel. split; [exact E|].
  exact (X23_relatorio (ambiente_de "" tudo_grava) quadro_x9 ARQUIVO_SAIDA rel
           padronizada_x9 meses_x9 E).
Defined.

End Exata.
